(** * Workflow execution layer: command gate, process runners,
      execution coordinator, history store and failure-pattern miner.

    A shallow embedding of
      - [workflow/tools/bash_executor.py]    (module [BashExecutor])
      - [workflow/tools/python_executor.py]  (module [PythonExecutor])
      - [workflow/agents/executor_agent.py]  (module [ExecutorAgent])
      - [workflow/storage/history_store.py]  (module [HistoryStore])
    together with the Python string primitives they rely on (module [PyStr]).

    Python [str] values are modelled as [string]: a character is a code
    point below 256, and [isspace] / [lower] follow CPython on that range.
    Python [float] values (durations, rates) are idealised as rationals. *)

From Stdlib Require Import List String Ascii Bool Arith ZArith QArith Lia.
From Stdlib Require Import Permutation Sorting.Sorted.
From Stdlib Require Import Numbers.DecimalString.
Import ListNotations.

Set Implicit Arguments.
Close Scope Q_scope.
Close Scope Z_scope.

(* ================================================================== *)
(** ** Exceptions and fallible results *)

(** The exception classes that the modelled code raises or discriminates
    on.  Every class here derives from Python's [Exception]; signals that
    derive from [BaseException] only are outside the model. *)
Inductive exc_class : Type :=
  | TimeoutError
  | IndexError
  | UnboundLocalError
  | ZeroDivisionError
  | OSError
  | RuntimeError.

Record exn : Type := Exn { exn_class : exc_class; exn_msg : string }.

(** [str(e)] *)
Definition str_exn (e : exn) : string := exn_msg e.

Definition is_timeout (e : exn) : bool :=
  match exn_class e with TimeoutError => true | _ => false end.

Inductive result (A : Type) : Type :=
  | Ok (a : A)
  | Raise (e : exn).
Arguments Ok {A} a.
Arguments Raise {A} e.

(* ================================================================== *)
(** ** Python string primitives *)

Module PyStr.

Local Open Scope string_scope.

(** [c.isspace()] for a code point below 256: TAB, LF, VT, FF, CR,
    FS, GS, RS, US, SPACE, NEL (0x85) and NBSP (0xA0). *)
Definition isspace (c : ascii) : bool :=
  let n := nat_of_ascii c in
  (((9 <=? n) && (n <=? 13)) || ((28 <=? n) && (n <=? 32))
   || (n =? 133) || (n =? 160))%nat.

(** [c.lower()] for a code point below 256: A-Z and the Latin-1 capitals
    0xC0-0xDE (the multiplication sign 0xD7 excepted) move up by 32. *)
Definition lower_char (c : ascii) : ascii :=
  let n := nat_of_ascii c in
  if (((65 <=? n) && (n <=? 90))
      || ((192 <=? n) && (n <=? 222) && negb (n =? 215)))%nat
  then ascii_of_nat (n + 32) else c.

(** [s.lower()] *)
Fixpoint lower (s : string) : string :=
  match s with
  | EmptyString => EmptyString
  | String c s' => String (lower_char c) (lower s')
  end.

(** [hay.startswith(needle)] *)
Fixpoint startswith (needle hay : string) : bool :=
  match needle, hay with
  | EmptyString, _ => true
  | String _ _, EmptyString => false
  | String a n', String b h' => Ascii.eqb a b && startswith n' h'
  end.

(** [needle in hay] *)
Fixpoint contains (needle hay : string) : bool :=
  startswith needle hay ||
  match hay with
  | EmptyString => false
  | String _ h' => contains needle h'
  end.

(** [bool(s)]: a string is truthy when it is not empty. *)
Definition truthy (s : string) : bool :=
  match s with EmptyString => false | String _ _ => true end.

(** [s.split()]: cut at runs of whitespace, no empty pieces.  [tok] is
    the piece being read. *)
Fixpoint split_from (tok s : string) : list string :=
  match s with
  | EmptyString => if truthy tok then [tok] else []
  | String c s' =>
      if isspace c
      then (if truthy tok then tok :: split_from "" s' else split_from "" s')
      else split_from (tok ++ String c "") s'
  end.

Definition split (s : string) : list string := split_from "" s.

(** [s.lstrip()], [s.rstrip()], [s.strip()] *)
Fixpoint lstrip (s : string) : string :=
  match s with
  | EmptyString => EmptyString
  | String c s' => if isspace c then lstrip s' else s
  end.

Fixpoint rstrip (s : string) : string :=
  match s with
  | EmptyString => EmptyString
  | String c s' =>
      let r := rstrip s' in
      if isspace c && negb (truthy r) then EmptyString else String c r
  end.

Definition strip (s : string) : string := rstrip (lstrip s).

(** [str(n)] for an [int]. *)
Definition str_of_int (n : Z) : string := NilZero.string_of_int (Z.to_int n).

(** [x in xs] for a collection of strings. *)
Definition mem (x : string) (xs : list string) : bool :=
  existsb (String.eqb x) xs.

(** *** Declarative counterparts used in statements *)

(** [needle] occurs in [hay] as a contiguous run of characters. *)
Definition substring_of (needle hay : string) : Prop :=
  exists pre post, hay = pre ++ needle ++ post.

Fixpoint all_space (s : string) : bool :=
  match s with
  | EmptyString => true
  | String c s' => isspace c && all_space s'
  end.

Fixpoint no_space (s : string) : bool :=
  match s with
  | EmptyString => true
  | String c s' => negb (isspace c) && no_space s'
  end.

(** The rest of the text after a token: nothing, or whitespace first. *)
Definition token_end (s : string) : bool :=
  match s with
  | EmptyString => true
  | String c _ => isspace c
  end.

(** [first_token s tok]: [tok] is the first whitespace-delimited token
    of [s]. *)
Inductive first_token : string -> string -> Prop :=
  | first_token_intro ws tok rest :
      all_space ws = true -> truthy tok = true -> no_space tok = true ->
      token_end rest = true ->
      first_token (ws ++ tok ++ rest) tok.

End PyStr.

(* ================================================================== *)
(** ** Data model ([workflow/tools/base.py], [workflow/storage/models.py]) *)

(** Values stored in the free-form [data] side channel of a tool result. *)
Inductive pyval : Type :=
  | VInt (n : Z)
  | VStr (s : string).

Definition as_int (v : pyval) : option Z :=
  match v with VInt n => Some n | VStr _ => None end.

(** [d.get(k)] on a dict kept as an association list. *)
Fixpoint dict_get (k : string) (d : list (string * pyval)) : option pyval :=
  match d with
  | [] => None
  | (k', v) :: d' => if String.eqb k k' then Some v else dict_get k d'
  end.

Record ToolResult : Type := mkToolResult {
  success : bool;
  output : option string;
  error : option string;
  data : option (list (string * pyval));
  duration : option Q
}.

Inductive WorkflowStatus : Type :=
  | PENDING | RUNNING | SUCCESS | FAILED | TIMEOUT.

Definition status_eqb (a b : WorkflowStatus) : bool :=
  match a, b with
  | PENDING, PENDING | RUNNING, RUNNING | SUCCESS, SUCCESS
  | FAILED, FAILED | TIMEOUT, TIMEOUT => true
  | _, _ => false
  end.

(** [WorkflowLanguage] is a [str]-valued enumeration: a language compares
    equal to its value, so the argument is carried as that value. *)
Definition BASH : string := "bash".
Definition PYTHON : string := "python".

(** Timestamps ([datetime]) are points on an integer time line. *)
Definition datetime : Type := Z.

Record ExecutionResult : Type := mkExecutionResult {
  workflow_name : string;
  status : WorkflowStatus;
  started_at : datetime;
  finished_at : option datetime;
  exec_duration : option Q;
  exit_code : option Z;
  stdout : option string;
  stderr : option string;
  error_message : option string
}.

Record FailurePattern : Type := mkFailurePattern {
  pattern_type : string;
  count : Z;
  last_seen : datetime;
  error_messages : list string
}.

(* ================================================================== *)
(** ** The effects of one execution request

    The operating system is an oracle that answers each request the code
    makes; the code threads a state that counts clock readings, logs what
    it asked of the system, and holds the locals [process] and
    [timeout_val] of the running [execute] call, which its exception
    handlers read back. *)

Module Eff.

Local Open Scope string_scope.

Inductive proc : Type := Payload | Pip.

Inductive event : Type :=
  | EvWriteTemp (path code : string)
  | EvSpawn (p : proc) (argv : list string) (cwd : option string)
            (env : option (list (string * string)))
  | EvCommunicate (p : proc) (timeout : Z)
  | EvKill (p : proc)
  | EvWait (p : proc)
  | EvUnlink (path : string).

Record Oracle : Type := mkOracle {
  o_clock : nat -> Q;               (* successive [time.time()] readings *)
  o_now : nat -> datetime;          (* successive [datetime.now()] readings *)
  o_exists : string -> result bool; (* [Path(d).exists()] *)
  o_getcwd : result string;         (* [Path.cwd()] *)
  o_mktemp : result string;         (* temporary file created and written *)
  o_unlink : result unit;           (* [Path(p).unlink()] *)
  o_spawn : proc -> result unit;    (* [create_subprocess_*] *)
  (* [wait_for(process.communicate(), timeout)]: return code and the two
     captured byte streams, or the exception it raises ([TimeoutError]
     when the bound is exceeded) *)
  o_communicate : proc -> result (Z * list Byte.byte * list Byte.byte);
  o_kill : result unit;             (* [process.kill()] *)
  o_wait : result unit;             (* [process.wait()] *)
  (* [bytes.decode('utf-8', errors='replace')], which never raises *)
  o_decode : list Byte.byte -> string;
  o_sys_executable : string;
  o_environ : list (string * string) (* [os.environ] *)
}.

Record State : Type := mkState {
  st_ticks : nat;
  st_nows : nat;
  st_trace : list event;
  st_process : option proc;
  st_timeout_val : option Z
}.

Definition init_state : State := mkState 0 0 [] None None.

Definition M (A : Type) : Type := Oracle -> State -> result A * State.

Definition ret {A} (a : A) : M A := fun _ s => (Ok a, s).

Definition raise {A} (e : exn) : M A := fun _ s => (Raise e, s).

Definition bind {A B} (m : M A) (k : A -> M B) : M B :=
  fun o s =>
    match m o s with
    | (Ok a, s') => k a o s'
    | (Raise e, s') => (Raise e, s')
    end.

Definition lift {A} (r : result A) : M A := fun _ s => (r, s).

(** [try: body except Exception as e: handler(e)] *)
Definition try_except {A} (body : M A) (handler : exn -> M A) : M A :=
  fun o s =>
    match body o s with
    | (Ok a, s') => (Ok a, s')
    | (Raise e, s') => handler e o s'
    end.

(** [try: body finally: fin] *)
Definition try_finally {A} (body : M A) (fin : M unit) : M A :=
  fun o s =>
    let '(r, s') := body o s in
    match fin o s' with
    | (Ok _, s'') => (r, s'')
    | (Raise e, s'') => (Raise e, s'')
    end.

(** [try: body except: pass] *)
Definition swallow (body : M unit) : M unit :=
  try_except body (fun _ => ret tt).

Declare Scope eff_scope.
Delimit Scope eff_scope with eff.
Notation "x <- c ;; k" := (bind c (fun x => k))
  (at level 61, c at next level, right associativity) : eff_scope.
Notation "c ;;; k" := (bind c (fun _ => k))
  (at level 61, right associativity) : eff_scope.
Local Open Scope eff_scope.

Definition log (e : event) : M unit :=
  fun _ s => (Ok tt, mkState (st_ticks s) (st_nows s) (st_trace s ++ [e])
                             (st_process s) (st_timeout_val s)).

(** [time.time()] *)
Definition time_time : M Q :=
  fun o s => (Ok (o_clock o (st_ticks s)),
              mkState (S (st_ticks s)) (st_nows s) (st_trace s)
                      (st_process s) (st_timeout_val s)).

(** [datetime.now()] *)
Definition datetime_now : M datetime :=
  fun o s => (Ok (o_now o (st_nows s)),
              mkState (st_ticks s) (S (st_nows s)) (st_trace s)
                      (st_process s) (st_timeout_val s)).

Definition ask {A} (f : Oracle -> A) : M A := fun o s => (Ok (f o), s).

Definition ask_result {A} (f : Oracle -> result A) : M A := fun o s => (f o, s).

(** Assignment to, and reading of, the locals of [execute]. *)
Definition set_process (p : proc) : M unit :=
  fun _ s => (Ok tt, mkState (st_ticks s) (st_nows s) (st_trace s)
                             (Some p) (st_timeout_val s)).

Definition set_timeout_val (t : Z) : M unit :=
  fun _ s => (Ok tt, mkState (st_ticks s) (st_nows s) (st_trace s)
                             (st_process s) (Some t)).

Definition unbound (name : string) : exn :=
  Exn UnboundLocalError
      ("cannot access local variable '" ++ name
       ++ "' where it is not associated with a value").

Definition get_process : M proc :=
  fun _ s => match st_process s with
             | Some p => (Ok p, s)
             | None => (Raise (unbound "process"), s)
             end.

Definition get_timeout_val : M Z :=
  fun _ s => match st_timeout_val s with
             | Some t => (Ok t, s)
             | None => (Raise (unbound "timeout_val"), s)
             end.

(** [await asyncio.create_subprocess_shell/exec(...)], bound to [process]. *)
Definition create_subprocess (p : proc) (argv : list string)
    (cwd : option string) (env : option (list (string * string))) : M unit :=
  log (EvSpawn p argv cwd env) ;;;
  ask_result (fun o => o_spawn o p) ;;;
  set_process p.

(** [await asyncio.wait_for(process.communicate(), timeout=t)] *)
Definition communicate (p : proc) (t : Z)
    : M (Z * list Byte.byte * list Byte.byte) :=
  log (EvCommunicate p t) ;;;
  ask_result (fun o => o_communicate o p).

(** [process.kill()] and [await process.wait()] *)
Definition process_kill : M unit :=
  p <- get_process ;; log (EvKill p) ;;; ask_result o_kill.

Definition process_wait : M unit :=
  p <- get_process ;; log (EvWait p) ;;; ask_result o_wait.

(** [a or b] on an optional integer: [None] and [0] are falsy. *)
Definition int_or (a : option Z) (b : Z) : Z :=
  match a with
  | Some t => if (t =? 0)%Z then b else t
  | None => b
  end.

(** [Path(d) if d else None] *)
Definition path_of (d : option string) : option string :=
  match d with
  | Some p => if PyStr.truthy p then Some p else None
  | None => None
  end.

(** [env[k] = v] and [env.update(vars)] on a dict of strings kept as an
    association list. *)
Fixpoint env_set (k v : string) (env : list (string * string))
    : list (string * string) :=
  match env with
  | [] => [(k, v)]
  | (k', v') :: env' =>
      if String.eqb k k' then (k', v) :: env' else (k', v') :: env_set k v env'
  end.

Definition env_update (env vars : list (string * string))
    : list (string * string) :=
  fold_left (fun e kv => env_set (fst kv) (snd kv) e) vars env.

(** [env = None; if env_vars: env = os.environ.copy(); env.update(env_vars)] *)
Definition prepare_env (environ : list (string * string))
    (env_vars : option (list (string * string)))
    : option (list (string * string)) :=
  match env_vars with
  | Some (kv :: vars) => Some (env_update environ (kv :: vars))
  | _ => None
  end.

Definition run {A} (m : M A) (o : Oracle) : result A * State :=
  m o init_state.

End Eff.

(* ================================================================== *)
(** ** [workflow/tools/bash_executor.py] *)

Module BashExecutor.

Import Eff.
Local Open Scope string_scope.
Local Open Scope eff_scope.

(** The executor's configuration.  The two [set]s are kept as the lists
    in which Python iterates them; no statement depends on that order. *)
Record t : Type := mk {
  default_timeout : Z;
  allowed_commands : list string;
  denied_commands : list string
}.

Definition default_denied : list string :=
  [ "rm -rf /"; "sudo rm"; "mkfs"; "dd if="; ":(){:|:&};:" ].

(** [xs or default] on an optional list: [None] and [[]] are falsy. *)
Definition list_or (xs : option (list string)) (d : list string) : list string :=
  match xs with
  | Some (x :: l) => x :: l
  | _ => d
  end.

(** [set(xs)] *)
Definition set_of (xs : list string) : list string := nodup string_dec xs.

(** [BashExecutor.__init__] *)
Definition init (default_timeout : option Z)
    (allowed_commands denied_commands : option (list string)) : t :=
  mk (match default_timeout with Some d => d | None => 300%Z end)
     (set_of (list_or allowed_commands []))
     (set_of (list_or denied_commands default_denied)).

(** [xs[0]] *)
Definition index0 (xs : list string) : result string :=
  match xs with
  | x :: _ => Ok x
  | [] => Raise (Exn IndexError "list index out of range")
  end.

(** [command.split()[0] if command.strip() else ""] *)
Definition command_name (command : string) : result string :=
  if PyStr.truthy (PyStr.strip command)
  then index0 (PyStr.split command)
  else Ok "".

(** [BashExecutor._is_command_allowed] *)
Definition _is_command_allowed (self : t) (command : string)
    : result (bool * option string) :=
  match find (fun denied => PyStr.contains denied command)
             (denied_commands self) with
  | Some denied => Ok (false, Some ("Denied command pattern: " ++ denied))
  | None =>
      match allowed_commands self with
      | _ :: _ =>
          match command_name command with
          | Ok name =>
              if negb (PyStr.mem name (allowed_commands self))
              then Ok (false, Some ("Command not in allowed list: " ++ name))
              else Ok (true, None)
          | Raise e => Raise e
          end
      | [] => Ok (true, None)
      end
  end.

(** An optional string inside an f-string. *)
Definition fmt_opt (s : option string) : string :=
  match s with Some x => x | None => "None" end.

Definition timeout_message (timeout_val : Z) : string :=
  "Command timed out after " ++ PyStr.str_of_int timeout_val ++ " seconds".

(** The [try] block of [execute]. *)
Definition execute_body (self : t) (command : string) (cwd : option string)
    (env : option (list (string * string))) (timeout : option Z)
    (start_time : Q) : M ToolResult :=
  create_subprocess Payload [command] cwd env ;;;
  let timeout_val := int_or timeout (default_timeout self) in
  set_timeout_val timeout_val ;;;
  r <- communicate Payload timeout_val ;;
  let '(returncode, out, err) := r in
  now <- time_time ;;
  let duration := (now - start_time)%Q in
  decode <- ask o_decode ;;
  ret (mkToolResult
         (returncode =? 0)%Z
         (Some (decode out))
         (if negb (returncode =? 0)%Z then Some (decode err) else None)
         (Some [("exit_code", VInt returncode); ("command", VStr command)])
         (Some duration)).

(** The [except asyncio.TimeoutError] and [except Exception] clauses. *)
Definition execute_handler (start_time : Q) (e : exn) : M ToolResult :=
  if is_timeout e then
    swallow (process_kill ;;; process_wait) ;;;
    timeout_val <- get_timeout_val ;;
    now <- time_time ;;
    ret (mkToolResult false None (Some (timeout_message timeout_val)) None
                      (Some (now - start_time)%Q))
  else
    now <- time_time ;;
    ret (mkToolResult false None (Some ("Execution error: " ++ str_exn e)) None
                      (Some (now - start_time)%Q)).

(** [BashExecutor.execute] *)
Definition execute (self : t) (command : string)
    (working_dir : option string) (timeout : option Z)
    (env_vars : option (list (string * string))) : M ToolResult :=
  start_time <- time_time ;;
  verdict <- lift (_is_command_allowed self command) ;;
  let '(is_allowed, error_msg) := verdict in
  if negb is_allowed then
    now <- time_time ;;
    ret (mkToolResult false None
           (Some ("Command blocked: " ++ fmt_opt error_msg)) None
           (Some (now - start_time)%Q))
  else
    environ <- ask o_environ ;;
    let env := prepare_env environ env_vars in
    let cwd := path_of working_dir in
    missing <- match cwd with
               | Some d => ex <- ask_result (fun o => o_exists o d) ;;
                           ret (negb ex)
               | None => ret false
               end ;;
    if missing : bool then
      now <- time_time ;;
      ret (mkToolResult false None
             (Some ("Working directory does not exist: " ++ fmt_opt working_dir))
             None (Some (now - start_time)%Q))
    else
      try_except (execute_body self command cwd env timeout start_time)
                 (execute_handler start_time).

End BashExecutor.

(* ================================================================== *)
(** ** [workflow/tools/python_executor.py] *)

Module PythonExecutor.

Import Eff.
Local Open Scope string_scope.
Local Open Scope eff_scope.

Record t : Type := mk {
  default_timeout : Z;
  use_virtualenv : bool;
  python_path : string
}.

(** [PythonExecutor.__init__]; [sys_executable] is [sys.executable]. *)
Definition init (sys_executable : string) (default_timeout : option Z)
    (use_virtualenv : option bool) (python_path : option string) : t :=
  mk (match default_timeout with Some d => d | None => 300%Z end)
     (match use_virtualenv with Some b => b | None => false end)
     (match python_path with
      | Some p => if PyStr.truthy p then p else sys_executable
      | None => sys_executable
      end).

Definition timeout_message (timeout_val : Z) : string :=
  "Code execution timed out after " ++ PyStr.str_of_int timeout_val
  ++ " seconds".

(** [PythonExecutor._install_requirements] *)
Definition _install_requirements (self : t) (requirements : list string)
    : M ToolResult :=
  start_time <- time_time ;;
  try_except
    (log (EvSpawn Pip (python_path self :: "-m" :: "pip" :: "install"
                         :: requirements) None None) ;;;
     ask_result (fun o => o_spawn o Pip) ;;;
     r <- communicate Pip 120 ;;
     let '(returncode, out, err) := r in
     decode <- ask o_decode ;;
     now <- time_time ;;
     ret (mkToolResult
            (returncode =? 0)%Z
            (Some (decode out))
            (if negb (returncode =? 0)%Z then Some (decode err) else None)
            None
            (Some (now - start_time)%Q)))
    (fun e =>
       now <- time_time ;;
       ret (mkToolResult false None
              (Some ("Failed to install requirements: " ++ str_exn e)) None
              (Some (now - start_time)%Q))).

(** What remains of the [try] block of [execute] once the requirements
    are installed. *)
Definition execute_script (self : t) (script_path : string)
    (timeout : option Z) (working_dir : option string) (start_time : Q)
    : M ToolResult :=
  cwd <- match path_of working_dir with
         | Some d => ret d
         | None => ask_result o_getcwd
         end ;;
  create_subprocess Payload [python_path self; script_path] (Some cwd) None ;;;
  let timeout_val := int_or timeout (default_timeout self) in
  set_timeout_val timeout_val ;;;
  r <- communicate Payload timeout_val ;;
  let '(returncode, out, err) := r in
  now <- time_time ;;
  let duration := (now - start_time)%Q in
  decode <- ask o_decode ;;
  ret (mkToolResult
         (returncode =? 0)%Z
         (Some (decode out))
         (if negb (returncode =? 0)%Z then Some (decode err) else None)
         (Some [("exit_code", VInt returncode)])
         (Some duration)).

(** The [try] block of [execute]. *)
Definition execute_body (self : t) (script_path : string)
    (timeout : option Z) (requirements : option (list string))
    (working_dir : option string) (start_time : Q) : M ToolResult :=
  match requirements with
  | Some (r :: rs) =>
      pip_result <- _install_requirements self (r :: rs) ;;
      if negb (success pip_result) then ret pip_result
      else execute_script self script_path timeout working_dir start_time
  | _ => execute_script self script_path timeout working_dir start_time
  end.

(** The [except asyncio.TimeoutError] and [except Exception] clauses. *)
Definition execute_handler (start_time : Q) (e : exn) : M ToolResult :=
  if is_timeout e then
    swallow (process_kill ;;; process_wait) ;;;
    timeout_val <- get_timeout_val ;;
    now <- time_time ;;
    ret (mkToolResult false None (Some (timeout_message timeout_val)) None
                      (Some (now - start_time)%Q))
  else
    now <- time_time ;;
    ret (mkToolResult false None (Some ("Execution error: " ++ str_exn e)) None
                      (Some (now - start_time)%Q)).

(** [PythonExecutor.execute] *)
Definition execute (self : t) (code : string) (timeout : option Z)
    (requirements : option (list string)) (working_dir : option string)
    : M ToolResult :=
  start_time <- time_time ;;
  script_path <- ask_result o_mktemp ;;
  log (EvWriteTemp script_path code) ;;;
  try_finally
    (try_except
       (execute_body self script_path timeout requirements working_dir
                     start_time)
       (execute_handler start_time))
    (swallow (log (EvUnlink script_path) ;;; ask_result o_unlink)).

End PythonExecutor.

(* ================================================================== *)
(** ** [workflow/agents/executor_agent.py] *)

Module ExecutorAgent.

Import Eff.
Local Open Scope string_scope.
Local Open Scope eff_scope.

Record t : Type := mk {
  bash_executor : BashExecutor.t;
  python_executor : PythonExecutor.t
}.

(** [ExecutorAgent.__init__]: both executors with their defaults. *)
Definition init (sys_executable : string) : t :=
  mk (BashExecutor.init None None None)
     (PythonExecutor.init sys_executable None None None).

(** [result.data.get("exit_code") if result.data else None] *)
Definition exit_code_of (result : ToolResult) : option Z :=
  match data result with
  | Some (kv :: d) =>
      match dict_get "exit_code" (kv :: d) with
      | Some v => as_int v
      | None => None
      end
  | _ => None
  end.

(** The conversion of a tool result into an execution result. *)
Definition convert (workflow_name : string) (started_at : datetime)
    (result : ToolResult) : M ExecutionResult :=
  finished_at <- datetime_now ;;
  ret (mkExecutionResult
         workflow_name
         (if success result then SUCCESS else FAILED)
         started_at
         (Some finished_at)
         (duration result)
         (exit_code_of result)
         (output result)
         (error result)
         (if negb (success result) then error result else None)).

(** [ExecutorAgent.execute_workflow] *)
Definition execute_workflow (self : t) (workflow_name code language : string)
    (timeout : option Z) (working_dir : option string) : M ExecutionResult :=
  started_at <- datetime_now ;;
  try_except
    (if String.eqb language BASH then
       result <- BashExecutor.execute (bash_executor self) code
                   working_dir timeout None ;;
       convert workflow_name started_at result
     else if String.eqb language PYTHON then
       result <- PythonExecutor.execute (python_executor self) code
                   timeout None working_dir ;;
       convert workflow_name started_at result
     else
       now <- datetime_now ;;
       ret (mkExecutionResult workflow_name FAILED started_at (Some now)
              None None None None
              (Some ("Unsupported language: " ++ language))))
    (fun e =>
       now <- datetime_now ;;
       ret (mkExecutionResult workflow_name FAILED started_at (Some now)
              None None None None
              (Some ("Execution error: " ++ str_exn e)))).

End ExecutorAgent.

(* ================================================================== *)
(** ** [workflow/storage/history_store.py] *)

Module HistoryStore.

Local Open Scope string_scope.
Local Open Scope list_scope.

(** The [executions] table: its rows in order of insertion. *)
Definition db : Type := list ExecutionResult.

(** [HistoryStore.save_execution]: the new table and the new row id. *)
Definition save_execution (d : db) (result : ExecutionResult) : db * Z :=
  (d ++ [result], Z.of_nat (S (List.length d))).

(** A stable sort, largest key first.  It stands for [ORDER BY k DESC]
    (rows with equal keys stay in insertion order) and for
    [sorted(xs, key=k, reverse=True)]. *)
Section SortDesc.

Variable A : Type.
Variable key : A -> Z.

Fixpoint insert_desc (x : A) (l : list A) : list A :=
  match l with
  | [] => [x]
  | y :: l' =>
      if (key y <=? key x)%Z then x :: y :: l' else y :: insert_desc x l'
  end.

Definition sort_desc (l : list A) : list A := fold_right insert_desc [] l.

End SortDesc.

(** [LIMIT n]: a negative bound means no bound. *)
Definition sql_limit (A : Type) (n : Z) (l : list A) : list A :=
  if (n <? 0)%Z then l else firstn (Z.to_nat n) l.

(** [HistoryStore.get_executions] *)
Definition get_executions (d : db) (name : option string)
    (status_filter : option WorkflowStatus) (limit : Z) : list ExecutionResult :=
  let by_name :=
    match name with
    | Some n =>
        if PyStr.truthy n
        then filter (fun r => String.eqb (workflow_name r) n) d
        else d
    | None => d
    end in
  let by_status :=
    match status_filter with
    | Some st => filter (fun r => status_eqb (status r) st) by_name
    | None => by_name
    end in
  sql_limit limit (sort_desc started_at by_status).

(** [HistoryStore._extract_pattern_key] *)
Definition _extract_pattern_key (error_message : string) : string :=
  let error_lower := PyStr.lower error_message in
  let has kw := PyStr.contains kw error_lower in
  if has "timeout" then "timeout"
  else if has "connection" || has "network" then "network_error"
  else if has "permission" || has "denied" then "permission_error"
  else if has "not found" || has "404" then "not_found"
  else if has "rate limit" || has "429" then "rate_limit"
  else if has "authentication" || has "401" then "auth_error"
  else if has "syntax" then "syntax_error"
  else if has "import" || has "module" then "dependency_error"
  else
    match PyStr.split error_message with
    | w :: _ => PyStr.lower w
    | [] => "unknown"
    end.

(** One value of the [patterns] dict. *)
Record entry : Type := mkEntry {
  e_count : Z;
  e_messages : list string;
  e_last_seen : datetime
}.

(** The [patterns] dict, in insertion order. *)
Definition patterns_dict : Type := list (string * entry).

(** [k in d] *)
Definition dict_has (k : string) (d : patterns_dict) : bool :=
  existsb (fun kv => String.eqb k (fst kv)) d.

(** [d[k] = e] for a key that is not in [d] yet *)
Definition dict_add (k : string) (e : entry) (d : patterns_dict)
    : patterns_dict := d ++ [(k, e)].

(** The in-place updates of [d[k]] *)
Fixpoint dict_update (k : string) (f : entry -> entry) (d : patterns_dict)
    : patterns_dict :=
  match d with
  | [] => []
  | (k', e) :: d' =>
      if String.eqb k k' then (k', f e) :: d' else (k', e) :: dict_update k f d'
  end.

(** The three updates made for one failure. *)
Definition record_failure (msg : string) (ts : datetime) (e : entry) : entry :=
  mkEntry (e_count e + 1)%Z
          (e_messages e ++ [msg])
          (if (ts >? e_last_seen e)%Z then ts else e_last_seen e).

(** One turn of the grouping loop. *)
Definition group_step (patterns : patterns_dict) (failure : ExecutionResult)
    : patterns_dict :=
  match error_message failure with
  | None => patterns
  | Some msg =>
      if negb (PyStr.truthy msg) then patterns
      else
        let pattern_key := _extract_pattern_key msg in
        let patterns' :=
          if negb (dict_has pattern_key patterns)
          then dict_add pattern_key (mkEntry 0 [] (started_at failure)) patterns
          else patterns in
        dict_update pattern_key (record_failure msg (started_at failure))
                    patterns'
  end.

Definition to_pattern (kv : string * entry) : FailurePattern :=
  mkFailurePattern (fst kv) (e_count (snd kv)) (e_last_seen (snd kv))
                   (firstn 5 (e_messages (snd kv))).

(** [HistoryStore.get_failure_patterns] *)
Definition get_failure_patterns (d : db) (name : string)
    (min_count : Z) : list FailurePattern :=
  let failures := get_executions d (Some name) (Some FAILED) 50 in
  match failures with
  | [] => []
  | _ :: _ =>
      let patterns := fold_left group_step failures [] in
      let result :=
        map to_pattern
            (filter (fun kv => (e_count (snd kv) >=? min_count)%Z) patterns) in
      sort_desc count result
  end.

(** The dict returned by [get_stats]. *)
Record stats : Type := mkStats {
  total_executions : Z;
  successful : Z;
  failed : Z;
  success_rate : Q;
  avg_duration : Q
}.

(** [a / b] on integers *)
Definition truediv (a b : Z) : result Q :=
  if (b =? 0)%Z then Raise (Exn ZeroDivisionError "division by zero")
  else Ok (inject_Z a / inject_Z b)%Q.

(** [SELECT COUNT( * )] and [SELECT AVG(duration)] over the chosen rows;
    [AVG] skips NULLs and is NULL when nothing is left. *)
Definition sql_count (rows : list ExecutionResult) : Z :=
  Z.of_nat (List.length rows).

Fixpoint non_null (A : Type) (l : list (option A)) : list A :=
  match l with
  | [] => []
  | Some x :: l' => x :: non_null l'
  | None :: l' => non_null l'
  end.

Definition qsum (l : list Q) : Q := fold_right Qplus 0%Q l.

Definition sql_avg (rows : list ExecutionResult) : option Q :=
  match non_null (map exec_duration rows) with
  | [] => None
  | x :: l => Some (qsum (x :: l) / inject_Z (Z.of_nat (List.length (x :: l))))%Q
  end.

(** [x or 0] on an optional float: [None] and [0.0] are falsy. *)
Definition float_or_zero (x : option Q) : Q :=
  match x with
  | Some q => if Qeq_bool q 0 then 0%Q else q
  | None => 0%Q
  end.

Definition rows_of (d : db) (name : string) : list ExecutionResult :=
  filter (fun r => String.eqb (workflow_name r) name) d.

Definition successes_of (d : db) (name : string) : list ExecutionResult :=
  filter (fun r => String.eqb (workflow_name r) name
                   && status_eqb (status r) SUCCESS) d.

(** [HistoryStore.get_stats] *)
Definition get_stats (d : db) (name : string) : result stats :=
  let total := sql_count (rows_of d name) in
  let successes := sql_count (successes_of d name) in
  let avg := sql_avg (successes_of d name) in
  match
    (if (total >? 0)%Z
     then match truediv successes total with
          | Ok q => Ok (q * 100)%Q
          | Raise e => Raise e
          end
     else Ok 0%Q)
  with
  | Ok rate =>
      Ok (mkStats total successes (total - successes)%Z rate
                  (float_or_zero avg))
  | Raise e => Raise e
  end.

End HistoryStore.

(* ================================================================== *)
(** ** Vocabulary of the statements *)

Module Spec.

Local Open Scope string_scope.

(** The program name of a command: its first whitespace-delimited token,
    or the empty name when the command is blank. *)
Definition program_of (command name : string) : Prop :=
  PyStr.first_token command name
  \/ (PyStr.all_space command = true /\ name = "").

(** No configured deny-pattern occurs in the command. *)
Definition no_deny_match (g : BashExecutor.t) (command : string) : Prop :=
  forall pattern,
    In pattern (BashExecutor.denied_commands g) ->
    ~ PyStr.substring_of pattern command.

(** The shell runner gets as far as spawning the child process: the gate
    lets the command through and the working directory, when one is
    given, exists. *)
Definition bash_reaches_spawn (self : BashExecutor.t) (command : string)
    (working_dir : option string) (o : Eff.Oracle) : Prop :=
  (exists reason, BashExecutor._is_command_allowed self command
                  = Ok (true, reason))
  /\ (forall d, Eff.path_of working_dir = Some d
                -> Eff.o_exists o d = Ok true).

(** The requirements, when there are any, install with return code 0. *)
Definition pip_succeeds (requirements : option (list string))
    (o : Eff.Oracle) : Prop :=
  match requirements with
  | Some (_ :: _) =>
      Eff.o_spawn o Eff.Pip = Ok tt
      /\ exists out err, Eff.o_communicate o Eff.Pip = Ok (0%Z, out, err)
  | _ => True
  end.

(** What the interpreter runner asks of the system before it spawns the
    script, and how many clock readings it has made by the time the
    script has finished. *)
Definition pip_events (self : PythonExecutor.t)
    (requirements : option (list string)) : list Eff.event :=
  match requirements with
  | Some (r :: rs) =>
      [Eff.EvSpawn Eff.Pip
         (PythonExecutor.python_path self :: "-m" :: "pip" :: "install"
            :: r :: rs) None None;
       Eff.EvCommunicate Eff.Pip 120]
  | _ => []
  end.

Definition pip_ticks (requirements : option (list string)) : nat :=
  match requirements with
  | Some (_ :: _) => 2
  | _ => 0
  end.

(** The interpreter runner gets as far as spawning the script: the
    temporary file [path] is written, the requirements install, and the
    working directory resolves to [cwd]. *)
Definition python_reaches_spawn (requirements : option (list string))
    (working_dir : option string) (o : Eff.Oracle) (path cwd : string)
    : Prop :=
  Eff.o_mktemp o = Ok path
  /\ pip_succeeds requirements o
  /\ match Eff.path_of working_dir with
     | Some d => cwd = d
     | None => Eff.o_getcwd o = Ok cwd
     end.

(** The payload process was waited for and ran to completion with return
    code [rc]. *)
Definition process_exited (o : Eff.Oracle) (trace : list Eff.event)
    (rc : Z) : Prop :=
  (exists t, In (Eff.EvCommunicate Eff.Payload t) trace)
  /\ exists out err, Eff.o_communicate o Eff.Payload = Ok (rc, out, err).

(** What the coordinator makes of the runner's outcome: a tool result
    is converted field by field, an exception becomes a failed result
    that carries its message and no duration. *)
Definition converted (workflow : string) (started finished : datetime)
    (tr : ToolResult) : ExecutionResult :=
  mkExecutionResult workflow (if success tr then SUCCESS else FAILED)
    started (Some finished) (duration tr) (ExecutorAgent.exit_code_of tr)
    (output tr) (error tr) (if negb (success tr) then error tr else None).

Definition faulted (workflow : string) (started finished : datetime)
    (e : exn) : ExecutionResult :=
  mkExecutionResult workflow FAILED started (Some finished)
    None None None None (Some ("Execution error: " ++ str_exn e)).

Definition of_outcome (workflow : string) (started finished : datetime)
    (r : result ToolResult) : ExecutionResult :=
  match r with
  | Ok tr => converted workflow started finished tr
  | Raise e => faulted workflow started finished e
  end.

(** The attempt to terminate the child: [kill], then [wait] unless
    [kill] itself raised. *)
Definition kill_attempt (o : Eff.Oracle) : list Eff.event :=
  Eff.EvKill Eff.Payload
  :: match Eff.o_kill o with
     | Ok _ => [Eff.EvWait Eff.Payload]
     | Raise _ => []
     end.


Definition is_not_success (name : string) (r : ExecutionResult) : bool :=
  String.eqb (workflow_name r) name && negb (status_eqb (status r) SUCCESS).



(** The keyword table of the pattern miner, in order of precedence: the
    keywords of a row, then its label. *)
Definition keyword_table : list (list string * string) :=
  [ (["timeout"], "timeout");
    (["connection"; "network"], "network_error");
    (["permission"; "denied"], "permission_error");
    (["not found"; "404"], "not_found");
    (["rate limit"; "429"], "rate_limit");
    (["authentication"; "401"], "auth_error");
    (["syntax"], "syntax_error");
    (["import"; "module"], "dependency_error") ].

(** The label of the first row of the table one of whose keywords occurs
    in the text. *)
Definition table_label (text : string) : option string :=
  option_map snd
    (find (fun row => existsb (fun kw => PyStr.contains kw text) (fst row))
          keyword_table).

(** The failed records of a workflow. *)
Definition failed_of (d : HistoryStore.db) (name : string)
    : list ExecutionResult :=
  filter (fun r => String.eqb (workflow_name r) name
                   && status_eqb (status r) FAILED) d.

(** [a] started no earlier than [b]. *)
Definition recent_first (a b : ExecutionResult) : Prop :=
  (started_at b <= started_at a)%Z.

(** The error messages of the records that carry a non-empty one. *)
Definition has_message (r : ExecutionResult) : bool :=
  match error_message r with
  | Some m => PyStr.truthy m
  | None => false
  end.

Definition message_of (r : ExecutionResult) : string :=
  match error_message r with
  | Some m => m
  | None => ""
  end.

Definition messages (w : list ExecutionResult) : list string :=
  map message_of (filter has_message w).

(** The messages with a given label, and how many they are. *)
Definition labelled (msgs : list string) (label : string) : list string :=
  filter (fun m => String.eqb (HistoryStore._extract_pattern_key m) label) msgs.

Definition occurrences (msgs : list string) (label : string) : Z :=
  Z.of_nat (List.length (labelled msgs label)).

(** The distinct elements of a list, each at its first occurrence. *)
Fixpoint first_seen (l : list string) : list string :=
  match l with
  | [] => []
  | x :: l' => x :: filter (fun y => negb (String.eqb y x)) (first_seen l')
  end.

(** The labels in the order in which the miner first meets them. *)
Definition encounter_order (msgs : list string) : list string :=
  first_seen (map HistoryStore._extract_pattern_key msgs).

(** The [patterns] dict after the grouping loop has read [w]. *)
Definition grouped (w : list ExecutionResult) : HistoryStore.patterns_dict :=
  fold_left HistoryStore.group_step w [].

(** What the loop has recorded for a label once it has read [w]. *)
Definition summarises (w : list ExecutionResult)
    (kv : string * HistoryStore.entry) : Prop :=
  HistoryStore.e_count (snd kv) = occurrences (messages w) (fst kv)
  /\ HistoryStore.e_messages (snd kv) = labelled (messages w) (fst kv).

End Spec.

(* ================================================================== *)
(** ** Sample environments and logs *)

Module Sample.

Local Open Scope string_scope.

(** A system whose clock reads 0, 1, 2, ..., where every directory
    exists, and whose other answers are the arguments. *)
Definition oracle (mktemp : result string) (spawn : result unit)
    (comm : result (Z * list Byte.byte * list Byte.byte))
    (kill wait : result unit) : Eff.Oracle :=
  Eff.mkOracle (fun n => inject_Z (Z.of_nat n)) (fun n => Z.of_nat n)
    (fun _ => Ok true) (Ok "/home/user") mktemp (Ok tt)
    (fun _ => spawn) (fun _ => comm) kill wait
    string_of_list_byte "/usr/bin/python3" [("PATH", "/usr/bin:/bin")].

Definition agent : ExecutorAgent.t := ExecutorAgent.init "/usr/bin/python3".

Definition bytes (s : string) : list Byte.byte := list_byte_of_string s.

(** The process prints ["OK"] and exits with code 0. *)
Definition exits_ok : Eff.Oracle :=
  oracle (Ok "/tmp/tmpab12.py") (Ok tt) (Ok (0%Z, bytes "OK", bytes ""))
         (Ok tt) (Ok tt).

(** The process writes ["boom"] to stderr and exits with code 1. *)
Definition exits_1 : Eff.Oracle :=
  oracle (Ok "/tmp/tmpab12.py") (Ok tt) (Ok (1%Z, bytes "", bytes "boom"))
         (Ok tt) (Ok tt).

(** The process outlives its bound, and is gone by the time it is
    killed. *)
Definition times_out : Eff.Oracle :=
  oracle (Ok "/tmp/tmpab12.py") (Ok tt) (Raise (Exn TimeoutError ""))
         (Raise (Exn OSError "[Errno 3] No such process")) (Ok tt).

(** The same, noticed 2.5 seconds after the start, with a process that
    can still be killed. *)
Definition times_out_late : Eff.Oracle :=
  Eff.mkOracle (fun n => match n with O => 0%Q | S _ => (5 # 2)%Q end)
    (fun n => Z.of_nat n) (fun _ => Ok true) (Ok "/home/user")
    (Ok "/tmp/tmpab12.py") (Ok tt) (fun _ => Ok tt)
    (fun _ => Raise (Exn TimeoutError "")) (Ok tt) (Ok tt)
    string_of_list_byte "/usr/bin/python3" [("PATH", "/usr/bin:/bin")].


(** The temporary script file cannot be written. *)
Definition disk_full : Eff.Oracle :=
  oracle (Raise (Exn OSError "[Errno 28] No space left on device"))
         (Ok tt) (Ok (0%Z, [], [])) (Ok tt) (Ok tt).

(** One row of the history. *)
Definition row (name : string) (st : WorkflowStatus) (started : Z)
    (dur : option Q) (msg : option string) : ExecutionResult :=
  mkExecutionResult name st started (Some (started + 1)%Z) dur None None None
                    msg.

(** Four runs of ["nightly"]: three succeed in 1, 2 and 3 seconds, one
    fails; a run of another workflow sits in between. *)
Definition four_runs : HistoryStore.db :=
  [ row "nightly" SUCCESS 10 (Some 1%Q) None;
    row "nightly" SUCCESS 20 (Some 2%Q) None;
    row "weekly" SUCCESS 25 (Some 40%Q) None;
    row "nightly" FAILED 30 (Some (1 # 2)%Q) (Some "boom");
    row "nightly" SUCCESS 40 (Some 3%Q) None ].

(** Three failures of ["sync"]. *)
Definition three_failures : HistoryStore.db :=
  [ row "sync" FAILED 10 (Some 1%Q) (Some "Connection timeout");
    row "sync" FAILED 20 (Some 1%Q) (Some "Request timeout");
    row "sync" FAILED 30 (Some 1%Q) (Some "Permission denied") ].

End Sample.

(* ================================================================== *)
(** ** Vocabulary for traces and environments *)

Module Trace.

Import Eff.

Definition is_spawn (p : proc) (e : event) : bool :=
  match e, p with
  | EvSpawn Payload _ _ _, Payload => true
  | EvSpawn Pip _ _ _, Pip => true
  | _, _ => false
  end.

Definition is_communicate (p : proc) (e : event) : bool :=
  match e, p with
  | EvCommunicate Payload _, Payload => true
  | EvCommunicate Pip _, Pip => true
  | _, _ => false
  end.

Definition is_kill (e : event) : bool :=
  match e with EvKill _ => true | _ => false end.


Definition is_unlink (e : event) : bool :=
  match e with EvUnlink _ => true | _ => false end.

(** Some event of the trace satisfies [f]. *)
Definition happened (f : event -> bool) (trace : list event) : bool :=
  existsb f trace.

(** The same system, except for its answer to [Path(p).unlink()]. *)
Definition with_unlink (o : Oracle) (u : result unit) : Oracle :=
  mkOracle (o_clock o) (o_now o) (o_exists o) (o_getcwd o) (o_mktemp o) u
           (o_spawn o) (o_communicate o) (o_kill o) (o_wait o) (o_decode o)
           (o_sys_executable o) (o_environ o).

(** The same system, except for its answers to [kill()] and [wait()]. *)
Definition with_kill_wait (o : Oracle) (k w : result unit) : Oracle :=
  mkOracle (o_clock o) (o_now o) (o_exists o) (o_getcwd o) (o_mktemp o)
           (o_unlink o) (o_spawn o) (o_communicate o) k w (o_decode o)
           (o_sys_executable o) (o_environ o).

(** Clocks that never run backwards. *)
Definition monotone_clock (o : Oracle) : Prop :=
  forall n, (o_clock o n <= o_clock o (S n))%Q.

Definition monotone_now (o : Oracle) : Prop :=
  forall n, (o_now o n <= o_now o (S n))%Z.


End Trace.

(* ================================================================== *)
(** ** Vocabulary for the history *)

Module History.

Local Open Scope string_scope.

(** A row passes the two optional filters of [get_executions]; a name
    that is [None] or empty is no filter. *)
Definition passes (name : option string) (st : option WorkflowStatus)
    (r : ExecutionResult) : bool :=
  match name with
  | Some n => if PyStr.truthy n then String.eqb (workflow_name r) n else true
  | None => true
  end
  && match st with
     | Some s => status_eqb (status r) s
     | None => true
     end.

(** The records of a window that carry a non-empty message with a given
    label. *)
Definition with_label (label : string) (w : list ExecutionResult)
    : list ExecutionResult :=
  filter (fun r => Spec.has_message r
                   && String.eqb (HistoryStore._extract_pattern_key
                                    (Spec.message_of r)) label) w.

(** What the grouping loop knows of the time a label was last seen. *)
Definition latest (w : list ExecutionResult)
    (kv : string * HistoryStore.entry) : Prop :=
  (exists r, In r (with_label (fst kv) w)
             /\ started_at r = HistoryStore.e_last_seen (snd kv))
  /\ forall r, In r (with_label (fst kv) w) ->
               (started_at r <= HistoryStore.e_last_seen (snd kv))%Z.


End History.

(* ================================================================== *)
(** ** More string primitives: slices, prefixes and first occurrences *)

Module PyText.

Local Open Scope string_scope.

(** The newline character as a string. *)
Definition nl : string := String (ascii_of_nat 10) "".

(** [s[:n]] *)
Fixpoint take (n : nat) (s : string) : string :=
  match n, s with
  | S n', String c s' => String c (take n' s')
  | _, _ => ""
  end.

(** [s[len(p):]] when [s.startswith(p)] *)
Fixpoint strip_prefix (p s : string) : option string :=
  match p, s with
  | EmptyString, _ => Some s
  | String a p', String b s' =>
      if Ascii.eqb a b then strip_prefix p' s' else None
  | String _ _, EmptyString => None
  end.

(** The text before and after the first occurrence of [needle]. *)
Fixpoint split_at (needle hay : string) : option (string * string) :=
  match strip_prefix needle hay with
  | Some rest => Some ("", rest)
  | None =>
      match hay with
      | EmptyString => None
      | String c hay' =>
          match split_at needle hay' with
          | Some (before, rest) => Some (String c before, rest)
          | None => None
          end
      end
  end.

End PyText.
(* ================================================================== *)
(** ** [workflow/agents/base_agent.py] and the agents' calls to the model *)

Module BaseAgent.

Local Open Scope string_scope.
Local Open Scope list_scope.

(** A content block of a response. *)
Inductive block : Type :=
  | TextBlock (text : string)
  | ToolUseBlock (id name input : string)
  | OtherBlock (type : string).

(** The content of a message of the conversation. *)
Inductive content : Type :=
  | Text (s : string)
  | Blocks (bs : list block)
  | ToolResultFor (tool_use_id result : string).

Record message : Type := mkMessage { role : string; body : content }.

Record request : Type := mkRequest {
  req_model : string;
  req_max_tokens : Z;
  req_system : string;
  req_messages : list message;
  req_tools : option (list string)
}.

Record response : Type := mkResponse {
  resp_content : list block;
  resp_stop_reason : string;
  resp_input_tokens : Z;
  resp_output_tokens : Z
}.

(** The dict returned by [send_message]. *)
Record reply : Type := mkReply {
  reply_message : string;
  reply_tool_uses : list (string * string * string);
  reply_stop_reason : string;
  reply_usage : Z * Z
}.

Record t : Type := mk {
  name : string;
  system_prompt : string;
  model : string;
  messages : list message
}.

(** [BaseAgent.__init__] *)
Definition init (name system_prompt : string) (model : option string) : t :=
  mk name system_prompt
     (match model with Some m => m | None => "claude-sonnet-4-20250514" end)
     [].

(** [BaseAgent.add_message] *)
Definition add_message (self : t) (role : string) (c : content) : t :=
  mk (name self) (system_prompt self) (model self)
     (messages self ++ [mkMessage role c]).

(** [BaseAgent.clear_history] *)
Definition clear_history (self : t) : t :=
  mk (name self) (system_prompt self) (model self) [].

(** The loop over [response.content]. *)
Fixpoint assistant_text (bs : list block) : string :=
  match bs with
  | [] => ""
  | TextBlock text :: bs' => (text ++ assistant_text bs')%string
  | _ :: bs' => assistant_text bs'
  end.

Fixpoint tool_uses (bs : list block) : list (string * string * string) :=
  match bs with
  | [] => []
  | ToolUseBlock id name input :: bs' => (id, name, input) :: tool_uses bs'
  | _ :: bs' => tool_uses bs'
  end.

(** [BaseAgent.send_message]; [api] stands for
    [self.client.messages.create].  The agent comes back with its
    history as the call left it, also when the call raised. *)
Definition send_message (api : request -> result response) (self : t)
    (msg : string) (tools : option (list string)) (max_tokens : Z)
    : result reply * t :=
  let self1 := add_message self "user" (Text msg) in
  let request_params :=
    mkRequest (model self1) max_tokens (system_prompt self1) (messages self1)
              (match tools with
               | Some (x :: l) => Some (x :: l)
               | _ => None
               end) in
  match api request_params with
  | Raise e => (Raise e, self1)
  | Ok resp =>
      let self2 := add_message self1 "assistant" (Blocks (resp_content resp)) in
      (Ok (mkReply (assistant_text (resp_content resp))
                   (tool_uses (resp_content resp))
                   (resp_stop_reason resp)
                   (resp_input_tokens resp, resp_output_tokens resp)),
       self2)
  end.

(** The prompt of [ExecutorAgent.validate_workflow]; [language] is
    [language.value]. *)
Definition validation_prompt (code language : string) : string :=
  ("Validate this " ++ language
   ++ " workflow code for safety and correctness:" ++ PyText.nl ++ PyText.nl
   ++ "```" ++ language ++ PyText.nl ++ code ++ PyText.nl ++ "```"
   ++ PyText.nl ++ PyText.nl
   ++ "Check for:" ++ PyText.nl
   ++ "1. Dangerous commands (rm -rf, mkfs, etc.)" ++ PyText.nl
   ++ "2. Syntax errors" ++ PyText.nl
   ++ "3. Missing error handling" ++ PyText.nl
   ++ "4. Required dependencies" ++ PyText.nl
   ++ "5. Potential issues" ++ PyText.nl ++ PyText.nl
   ++ "Respond with: SAFE or UNSAFE, followed by explanation.")%string.

(** ["SAFE" in message and "UNSAFE" not in message] *)
Definition is_safe (message : string) : bool :=
  PyStr.contains "SAFE" message && negb (PyStr.contains "UNSAFE" message).

(** [ExecutorAgent.validate_workflow]: the verdict and the message, and
    the agent with its history. *)
Definition validate_workflow (api : request -> result response) (self : t)
    (code language : string) : result (bool * string * (Z * Z)) * t :=
  match send_message api self (validation_prompt code language) None 4096 with
  | (Ok r, self') =>
      (Ok (is_safe (reply_message r), reply_message r, reply_usage r), self')
  | (Raise e, self') => (Raise e, self')
  end.

End BaseAgent.
(* ================================================================== *)
(** ** [workflow/agents/orchestrator.py] *)

Module Orchestrator.

Import Eff.
Local Open Scope string_scope.
Local Open Scope list_scope.
Local Open Scope eff_scope.

(** [Orchestrator._detect_language] *)
Definition _detect_language (code : string) : string :=
  if PyStr.startswith "#!/bin/bash" code || PyStr.startswith "#!/bin/sh" code
  then "bash"
  else if PyStr.startswith "#!/usr/bin/env python" code
          || PyStr.contains "import " (PyText.take 100 code)
  then "python"
  else if PyStr.contains "echo " code || PyStr.contains "set -e" code
  then "bash"
  else "python".

(** The fence and the languages of the pattern
    [```(?:python|bash|sh)?\n(.*?)```]. *)
Definition fence : string := "```".

(** The text after the optional language and the newline, when the text
    after an opening fence starts with them.  The three languages and
    the empty one exclude each other, so the order of the trials is
    immaterial. *)
Definition after_header (s : string) : option string :=
  match PyText.strip_prefix ("python" ++ PyText.nl)%string s with
  | Some body => Some body
  | None =>
      match PyText.strip_prefix ("bash" ++ PyText.nl)%string s with
      | Some body => Some body
      | None =>
          match PyText.strip_prefix ("sh" ++ PyText.nl)%string s with
          | Some body => Some body
          | None => PyText.strip_prefix PyText.nl s
          end
      end
  end.

(** The group of a match of the pattern that starts at the first
    character of [s]: the shortest text up to a closing fence. *)
Definition block_at (s : string) : option string :=
  match PyText.strip_prefix fence s with
  | Some rest =>
      match after_header rest with
      | Some body => option_map fst (PyText.split_at fence body)
      | None => None
      end
  | None => None
  end.

(** [re.findall(pattern, response, re.DOTALL)[0]]: the group of the
    leftmost match. *)
Fixpoint first_block (s : string) : option string :=
  match block_at s with
  | Some code => Some code
  | None =>
      match s with
      | EmptyString => None
      | String _ s' => first_block s'
      end
  end.

(** [Orchestrator._extract_code_from_response] *)
Definition _extract_code_from_response (response : string) : string :=
  match first_block response with
  | Some code => PyStr.strip code
  | None => PyStr.strip response
  end.

(** [WorkflowConfig]; [language] is the value of the enumeration. *)
Record WorkflowConfig : Type := mkWorkflowConfig {
  wf_name : string;
  wf_description : string;
  wf_language : string;
  wf_code : string;
  wf_created_at : datetime;
  wf_updated_at : datetime;
  wf_version : Z;
  wf_tags : list string;
  wf_env_vars : list (string * string);
  wf_timeout : Z
}.

(** What [console.print] is given, call by call, and the spinner that
    [Progress] shows while an agent works. *)
Inductive printed : Type :=
  | PNotFound (name : string)
  | PRunning (name : string)
  | PDescription (description : string)
  | PSpinnerStart (label : string)
  | PSpinnerStop (label : string)
  | PValidationFailed
  | PText (text : string)
  | PCompleted
  | PFailed
  | PDuration (seconds : Q)
  | POutputHeading
  | PErrorOutputHeading
  | PErrorMessage (message : string)
  | PAnalysisHeading
  | PAutoFixNotice.

(** What the orchestrator is given besides the operating system: the
    workflow store's [load], the model behind the agents, the user's
    answers to [Confirm.ask], the outcome of the reviewer's
    [analyze_failure], the console, which may refuse what it is to show
    (markup it cannot parse, a closed stream), and the database's answer
    to the insertion of a row. *)
Record Ui : Type := mkUi {
  ui_load : string -> result (option WorkflowConfig);
  ui_api : BaseAgent.request -> result BaseAgent.response;
  ui_confirm : string -> bool;
  ui_analyze : ExecutionResult -> result string;
  ui_print : printed -> result unit;
  ui_insert : ExecutionResult -> result unit
}.

(** The orchestrator's own state: the history table and the executor
    agent's conversation. *)
Record state : Type := mkOState {
  history : HistoryStore.db;
  executor_chat : BaseAgent.t
}.

(** A step of the orchestrator: it may raise, and leaves both its own
    state and that of the system as they are at that point. *)
Definition OM (A : Type) : Type :=
  state -> Oracle -> Eff.State -> (result A * state) * Eff.State.

Definition oret {A} (a : A) : OM A := fun st _ s => ((Ok a, st), s).

Definition obind {A B} (m : OM A) (k : A -> OM B) : OM B :=
  fun st o s =>
    match m st o s with
    | ((Ok a, st'), s') => k a st' o s'
    | ((Raise e, st'), s') => ((Raise e, st'), s')
    end.

(** A step that only concerns the system. *)
Definition of_eff {A} (m : M A) : OM A :=
  fun st o s => let '(r, s') := m o s in ((r, st), s').

(** A step that only concerns the orchestrator's state. *)
Definition of_result {A} (r : result A) : OM A := fun st _ s => ((r, st), s).

(** [console.print(...)] *)
Definition oprint (ui : Ui) (p : printed) : OM unit :=
  of_result (ui_print ui p).

(** [with Progress(...) as progress: ...]: the spinner is started, the
    body runs, and the spinner is stopped, also when the body raised; an
    exception of the stop takes the place of the body's outcome. *)
Definition with_progress {A} (ui : Ui) (label : string) (body : OM A)
    : OM A :=
  obind (oprint ui (PSpinnerStart label)) (fun _ =>
  fun st o s =>
    match body st o s with
    | ((r, st'), s') =>
        match ui_print ui (PSpinnerStop label) with
        | Ok _ => ((r, st'), s')
        | Raise e => ((Raise e, st'), s')
        end
    end).

(** [await self.executor.validate_workflow(...)] *)
Definition validate (ui : Ui) (code language : string)
    : OM (bool * string * (Z * Z)) :=
  fun st _ s =>
    let '(r, chat) := BaseAgent.validate_workflow (ui_api ui)
                        (executor_chat st) code language in
    ((r, mkOState (history st) chat), s).

(** [self.history_store.save_execution(result)] *)
Definition save (ui : Ui) (result : ExecutionResult) : OM Z :=
  fun st _ s =>
    match ui_insert ui result with
    | Raise e => ((Raise e, st), s)
    | Ok _ =>
        let '(d, id) := HistoryStore.save_execution (history st) result in
        ((Ok id, mkOState d (executor_chat st)), s)
    end.

Definition ask_run_anyway : string :=
  (PyText.nl ++ "[yellow]Run anyway?[/]")%string.

Definition ask_analyze : string :=
  (PyText.nl ++ "[bold]Analyze failure and suggest fixes?[/]")%string.

Definition ask_apply : string :=
  (PyText.nl ++ "[bold]Apply suggested fixes?[/]")%string.

(** [if result.duration: console.print(...)]: no duration and a
    duration of 0 are falsy. *)
Definition print_duration (ui : Ui) (result : ExecutionResult) : OM unit :=
  match exec_duration result with
  | Some q => if Qeq_bool q 0 then oret tt else oprint ui (PDuration q)
  | None => oret tt
  end.

(** [if text: console.print(heading); console.print(text)] *)
Definition print_stream (ui : Ui) (heading : printed) (text : option string)
    : OM unit :=
  match text with
  | Some t =>
      if PyStr.truthy t
      then obind (oprint ui heading) (fun _ => oprint ui (PText t))
      else oret tt
  | None => oret tt
  end.

(** [if result.error_message: console.print(...)] *)
Definition print_error_message (ui : Ui) (result : ExecutionResult)
    : OM unit :=
  match error_message result with
  | Some m => if PyStr.truthy m then oprint ui (PErrorMessage m) else oret tt
  | None => oret tt
  end.

(** [Orchestrator._analyze_and_fix]; [ui_analyze] answers for the
    reviewer agent. *)
Definition _analyze_and_fix (ui : Ui) (result : ExecutionResult) : OM unit :=
  obind (with_progress ui "Analyzing failure..."
           (of_result (ui_analyze ui result))) (fun analysis =>
  obind (oprint ui PAnalysisHeading) (fun _ =>
  obind (oprint ui (PText analysis)) (fun _ =>
  if ui_confirm ui ask_apply then oprint ui PAutoFixNotice else oret tt))).

(** The part of [run_workflow] from "Execute workflow" on. *)
Definition execute_and_record (ui : Ui) (executor : ExecutorAgent.t)
    (name : string) (interactive : bool) (workflow : WorkflowConfig)
    : OM (option bool) :=
  obind (with_progress ui "Executing workflow..."
           (of_eff (ExecutorAgent.execute_workflow executor name
                      (wf_code workflow) (wf_language workflow)
                      (Some (wf_timeout workflow)) None))) (fun result =>
  obind (save ui result) (fun _ =>
  if status_eqb (status result) SUCCESS then
    obind (oprint ui PCompleted) (fun _ =>
    obind (print_duration ui result) (fun _ =>
    obind (print_stream ui POutputHeading (stdout result)) (fun _ =>
    oret (Some true))))
  else
    obind (oprint ui PFailed) (fun _ =>
    obind (print_duration ui result) (fun _ =>
    obind (print_stream ui PErrorOutputHeading (stderr result)) (fun _ =>
    obind (print_error_message ui result) (fun _ =>
    obind (if interactive
           then (if ui_confirm ui ask_analyze
                 then _analyze_and_fix ui result
                 else oret tt)
           else oret tt) (fun _ =>
    oret (Some false)))))))).

(** [Orchestrator.run_workflow] *)
Definition run_workflow (ui : Ui) (executor : ExecutorAgent.t)
    (name : string) (interactive : bool) : OM (option bool) :=
  obind (of_result (ui_load ui name)) (fun loaded =>
  match loaded with
  | None => obind (oprint ui (PNotFound name)) (fun _ => oret None)
  | Some workflow =>
      obind (oprint ui (PRunning name)) (fun _ =>
      obind (oprint ui (PDescription (wf_description workflow))) (fun _ =>
      if interactive then
        obind (with_progress ui "Validating workflow..."
                 (validate ui (wf_code workflow) (wf_language workflow)))
          (fun validation =>
           let '(safe, message, _) := validation in
           if negb safe then
             obind (oprint ui PValidationFailed) (fun _ =>
             obind (oprint ui (PText message)) (fun _ =>
             if negb (ui_confirm ui ask_run_anyway) then oret None
             else execute_and_record ui executor name interactive workflow))
           else execute_and_record ui executor name interactive workflow)
      else execute_and_record ui executor name interactive workflow))
  end).

End Orchestrator.

(* ================================================================== *)
(** ** Vocabulary for the agents' conversations and sample sessions *)

Module Dialogue.

Import BaseAgent.
Local Open Scope string_scope.
Local Open Scope list_scope.



End Dialogue.

Module Session.

Import Orchestrator.
Local Open Scope string_scope.
Local Open Scope list_scope.

Definition hello : WorkflowConfig :=
  mkWorkflowConfig "hello" "says hello" BASH "echo hello" 0%Z 0%Z 1%Z [] []
                   300%Z.

Definition answer (text : string) : BaseAgent.response :=
  BaseAgent.mkResponse [BaseAgent.TextBlock text] "end_turn" 10%Z 5%Z.

(** A store that holds [hello] only, a model that finds every workflow
    unsafe, and a user who declines every question. *)
Definition cautious : Ui :=
  mkUi (fun name => if String.eqb name "hello" then Ok (Some hello)
                    else Ok None)
       (fun _ => Ok (answer "UNSAFE: prints to the terminal"))
       (fun _ => false)
       (fun _ => Ok "nothing to say")
       (fun _ => Ok tt)
       (fun _ => Ok tt).

(** The same store with a model and a reviewer that are out of reach. *)
Definition offline : Ui :=
  mkUi (ui_load cautious)
       (fun _ => Raise (Exn RuntimeError "connection refused"))
       (fun _ => true)
       (fun _ => Raise (Exn RuntimeError "connection refused"))
       (ui_print cautious)
       (ui_insert cautious).

Definition start : state :=
  mkOState [] (BaseAgent.init "executor"
                 "You are a workflow execution specialist." None).


(** A system like [Sample.exits_ok] in which no directory exists. *)
Definition no_directories : Eff.Oracle :=
  Eff.mkOracle (fun n => inject_Z (Z.of_nat n)) (fun n => Z.of_nat n)
    (fun _ => Ok false) (Ok "/home/user") (Ok "/tmp/tmpab12.py") (Ok tt)
    (fun _ => Ok tt) (fun _ => Ok (0%Z, Sample.bytes "OK", Sample.bytes ""))
    (Ok tt) (Ok tt)
    string_of_list_byte "/usr/bin/python3" [("PATH", "/usr/bin:/bin")].

End Session.

(* ================================================================== *)
(** ** Two readings of the miner's window, and more sample inputs *)

Module Window.

Local Open Scope string_scope.
Local Open Scope list_scope.

(** The failed records the miner draws on: those of the workflow, or
    those of every workflow when the name is empty. *)
Definition in_scope (d : HistoryStore.db) (name : string)
    : list ExecutionResult :=
  if PyStr.truthy name then Spec.failed_of d name
  else filter (fun r => status_eqb (status r) FAILED) d.

(** The other reading: the 50 most recent among the failed records of
    the workflow that carry a non-empty error message. *)
Definition with_message_first (d : HistoryStore.db) (name : string)
    : list ExecutionResult :=
  firstn 50
    (HistoryStore.sort_desc started_at
       (filter Spec.has_message (Spec.failed_of d name))).

End Window.

Module Cases.

Local Open Scope string_scope.
Local Open Scope list_scope.

(** Two timeouts of ["sync"], followed by 50 failures that left no
    message. *)
Definition silent_tail : HistoryStore.db :=
  [ Sample.row "sync" FAILED 1 (Some 1%Q) (Some "Connection timeout");
    Sample.row "sync" FAILED 2 (Some 1%Q) (Some "Request timeout") ]
  ++ map (fun i => Sample.row "sync" FAILED (Z.of_nat i) (Some 1%Q) None)
         (seq 100 50).

(** One timeout of ["sync"] and one of ["backup"]. *)
Definition two_workflows : HistoryStore.db :=
  [ Sample.row "sync" FAILED 10 (Some 1%Q) (Some "Connection timeout");
    Sample.row "backup" FAILED 20 (Some 1%Q) (Some "Request timeout") ].

(** The spawn call itself runs into a timeout of the operating system:
    it raises [TimeoutError], the class that the runners' timeout
    handler catches. *)
Definition spawn_times_out : Eff.Oracle :=
  Sample.oracle (Ok "/tmp/tmpab12.py")
    (Raise (Exn TimeoutError "[Errno 110] Connection timed out"))
    (Ok (0%Z, [], [])) (Ok tt) (Ok tt).

(** The process prints ["done"], writes a warning to stderr and exits
    with code 0. *)
Definition exits_ok_noisy : Eff.Oracle :=
  Sample.oracle (Ok "/tmp/tmpab12.py") (Ok tt)
    (Ok (0%Z, Sample.bytes "done", Sample.bytes "warning: slow disk"))
    (Ok tt) (Ok tt).

End Cases.

(* ================================================================== *)
(** * Properties *)

Open Scope string_scope.
Open Scope list_scope.

(** ** Facts about the string primitives *)

Module PyStrFacts.

Import PyStr.
Local Open Scope string_scope.

Lemma append_nil_r (s : string) : s ++ "" = s.
Proof. induction s as [|c s IH]; simpl; [reflexivity | now rewrite IH]. Qed.

Lemma append_assoc (a b c : string) : (a ++ b) ++ c = a ++ (b ++ c).
Proof. induction a as [|x a IH]; simpl; [reflexivity | now rewrite IH]. Qed.

Lemma startswith_spec (needle hay : string) :
  startswith needle hay = true <-> exists post, hay = needle ++ post.
Proof.
  revert hay; induction needle as [|a n IH]; intros hay; simpl.
  - split; [intros _; now exists hay | reflexivity].
  - destruct hay as [|b h].
    + split; [discriminate | intros [post H]; discriminate].
    + rewrite andb_true_iff, Ascii.eqb_eq, IH. split.
      * intros [-> [post ->]]. now exists post.
      * intros [post H]. injection H as -> ->. split; [reflexivity | now exists post].
Qed.

(** [needle in hay] decides the substring relation. *)
Lemma contains_spec (needle hay : string) :
  contains needle hay = true <-> substring_of needle hay.
Proof.
  unfold substring_of. induction hay as [|b h IH].
  - simpl. rewrite orb_false_r, startswith_spec. split.
    + intros [post H]. now exists "", post.
    + intros [pre [post H]]. destruct pre; simpl in H.
      * now exists post.
      * discriminate.
  - cbn [contains]. rewrite orb_true_iff, startswith_spec, IH. split.
    + intros [[post H] | [pre [post H]]].
      * now exists "", post.
      * exists (String b pre), post. simpl. now rewrite H.
    + intros [pre [post H]]. destruct pre as [|x pre]; simpl in H.
      * left. now exists post.
      * right. injection H as _ H. now exists pre, post.
Qed.

Lemma contains_false (needle hay : string) :
  contains needle hay = false <-> ~ substring_of needle hay.
Proof.
  rewrite <- contains_spec. destruct (contains needle hay).
  - split; [discriminate | intros H; now exfalso; apply H].
  - split; [intros _; discriminate | reflexivity].
Qed.

Lemma mem_spec (x : string) (xs : list string) :
  mem x xs = true <-> In x xs.
Proof.
  unfold mem. rewrite existsb_exists. split.
  - intros [y [Hy E]]. apply String.eqb_eq in E. now subst.
  - intros H. exists x. split; [assumption | apply String.eqb_refl].
Qed.

Lemma truthy_append_l (a b : string) : truthy a = true -> truthy (a ++ b) = true.
Proof. destruct a; [discriminate | reflexivity]. Qed.

(** Reading a token: the piece under construction grows until the first
    whitespace character or the end of the text. *)
Lemma split_from_token (tok : string) :
  forall acc rest,
    no_space tok = true -> token_end rest = true ->
    truthy (acc ++ tok) = true ->
    exists tl, split_from acc (tok ++ rest) = (acc ++ tok) :: tl.
Proof.
  induction tok as [|c t IH]; intros acc rest Hns Hend Htr; simpl.
  - rewrite append_nil_r in *. destruct rest as [|r rest]; simpl.
    + rewrite Htr. now exists [].
    + simpl in Hend. rewrite Hend, Htr. now eexists.
  - simpl in Hns. apply andb_true_iff in Hns as [Hc Hns].
    apply negb_true_iff in Hc. rewrite Hc.
    destruct (IH (acc ++ String c "") rest Hns Hend) as [tl Htl].
    + rewrite append_assoc. exact Htr.
    + exists tl. rewrite Htl, append_assoc. reflexivity.
Qed.

Lemma split_from_skip (ws s : string) :
  all_space ws = true -> split_from "" (ws ++ s) = split_from "" s.
Proof.
  induction ws as [|c ws IH]; simpl; intros H; [reflexivity|].
  apply andb_true_iff in H as [Hc Hws]. rewrite Hc. simpl. now apply IH.
Qed.

Lemma split_first_token (s tok : string) :
  first_token s tok -> exists tl, split s = tok :: tl.
Proof.
  intros [ws t rest Hws Htr Hns Hend]. unfold split.
  rewrite split_from_skip by assumption.
  destruct (split_from_token t "" rest Hns Hend Htr) as [tl Htl].
  now exists tl.
Qed.

Lemma split_all_space (s : string) : all_space s = true -> split s = [].
Proof.
  intros H. unfold split. rewrite <- (append_nil_r s).
  now rewrite split_from_skip.
Qed.

Lemma all_space_append (a b : string) :
  all_space (a ++ b) = all_space a && all_space b.
Proof.
  induction a as [|c a IH]; simpl; [reflexivity|].
  now rewrite IH, andb_assoc.
Qed.

Lemma no_space_not_all_space (s : string) :
  truthy s = true -> no_space s = true -> all_space s = false.
Proof.
  destruct s as [|c s]; simpl; [discriminate|]. intros _ H.
  apply andb_true_iff in H as [Hc _]. apply negb_true_iff in Hc.
  now rewrite Hc.
Qed.

Lemma first_token_not_all_space (s tok : string) :
  first_token s tok -> all_space s = false.
Proof.
  intros [ws t rest Hws Htr Hns Hend].
  rewrite !all_space_append, (no_space_not_all_space t Htr Hns).
  now rewrite andb_false_r.
Qed.

Lemma all_space_lstrip (s : string) : all_space (lstrip s) = all_space s.
Proof.
  induction s as [|c s IH]; simpl; [reflexivity|].
  destruct (isspace c) eqn:Hc; simpl; [assumption | now rewrite Hc].
Qed.

Lemma truthy_rstrip (s : string) : truthy (rstrip s) = negb (all_space s).
Proof.
  induction s as [|c s IH]; simpl; [reflexivity|].
  rewrite IH, negb_involutive.
  destruct (isspace c), (all_space s); reflexivity.
Qed.

(** [s.strip()] is truthy exactly when [s] has a character that is not
    whitespace. *)
Lemma truthy_strip (s : string) : truthy (strip s) = negb (all_space s).
Proof. unfold strip. now rewrite truthy_rstrip, all_space_lstrip. Qed.

(** The longest whitespace-free prefix of a text, and what follows it. *)
Lemma token_split (s : string) :
  exists tok rest, s = tok ++ rest /\ no_space tok = true /\ token_end rest = true.
Proof.
  induction s as [|c s (tok & rest & E & Hns & Hend)].
  - now exists "", "".
  - destruct (isspace c) eqn:Hc.
    + exists "", (String c s). simpl. now rewrite Hc.
    + exists (String c tok), rest. simpl. rewrite Hc, <- E. now repeat split.
Qed.

(** A text with a character that is not whitespace has a first token. *)
Lemma first_token_exists (s : string) :
  all_space s = false -> exists tok, first_token s tok.
Proof.
  induction s as [|c s IH]; simpl; [discriminate|]. intros H.
  destruct (isspace c) eqn:Hc; simpl in H.
  - destruct (IH H) as [tok Htok]. exists tok.
    destruct Htok as [ws t rest Hws Htr Hns Hend].
    change (String c (ws ++ t ++ rest)) with (String c ws ++ t ++ rest).
    constructor; simpl; try assumption. now rewrite Hc.
  - destruct (token_split s) as (tok & rest & E & Hns & Hend).
    exists (String c tok). subst s.
    change (String c (tok ++ rest)) with ("" ++ String c tok ++ rest).
    constructor; simpl; try assumption; try reflexivity. now rewrite Hc.
Qed.

End PyStrFacts.

(* ================================================================== *)
(** ** The command gate *)

Section CommandGate.

Import PyStr PyStrFacts BashExecutor Spec.
Local Open Scope string_scope.

Lemma command_name_token (command tok : string) :
  first_token command tok -> command_name command = Ok tok.
Proof.
  intros H. unfold command_name.
  rewrite truthy_strip, (first_token_not_all_space H). simpl.
  destruct (split_first_token H) as [tl ->]. reflexivity.
Qed.

Lemma command_name_blank (command : string) :
  all_space command = true -> command_name command = Ok "".
Proof.
  intros H. unfold command_name. now rewrite truthy_strip, H.
Qed.

Lemma command_name_program (command name : string) :
  program_of command name -> command_name command = Ok name.
Proof.
  intros [H | [H ->]];
    [now apply command_name_token | now apply command_name_blank].
Qed.

(** Every command has a program name, so [command.split()[0]] is never
    evaluated on an empty list. *)
Lemma program_of_total (command : string) :
  exists name, program_of command name.
Proof.
  destruct (all_space command) eqn:H.
  - exists "". now right.
  - destruct (first_token_exists command H) as [tok Htok].
    exists tok. now left.
Qed.

Lemma find_denied_none (g : t) (command : string) :
  no_deny_match g command ->
  find (fun denied => contains denied command) (denied_commands g) = None.
Proof.
  intros H. destruct (find _ _) as [d|] eqn:E; [|reflexivity].
  apply find_some in E as [Hin Hc]. apply contains_spec in Hc.
  now destruct (H d Hin).
Qed.

(** The gate returns a verdict for every command and configuration. *)
Lemma gate_total (g : t) (command : string) :
  exists verdict, _is_command_allowed g command = Ok verdict.
Proof.
  unfold _is_command_allowed.
  destruct (find _ _); [now eexists|].
  destruct (allowed_commands g); [now eexists|].
  destruct (program_of_total command) as [name Hn].
  rewrite (command_name_program Hn).
  destruct (negb _); now eexists.
Qed.

End CommandGate.

(** C1.  Whenever some configured deny-pattern occurs in the command,
    the gate answers [allowed = false] and its reason is
    ["Denied command pattern: "] followed by a configured pattern that
    occurs in the command.  Nothing is assumed of the text around the
    pattern, and the answer is the same whatever allow-list is
    configured: the deny check comes first and does not consult it. *)
Theorem C1_deny_check_unconditional :
  forall (g : BashExecutor.t) (command pattern : string),
    In pattern (BashExecutor.denied_commands g) ->
    PyStr.substring_of pattern command ->
    exists matched,
      In matched (BashExecutor.denied_commands g)
      /\ PyStr.substring_of matched command
      /\ BashExecutor._is_command_allowed g command
         = Ok (false, Some ("Denied command pattern: " ++ matched)%string)
      /\ forall allowed,
           BashExecutor._is_command_allowed
             (BashExecutor.mk (BashExecutor.default_timeout g) allowed
                              (BashExecutor.denied_commands g)) command
           = Ok (false, Some ("Denied command pattern: " ++ matched)%string).
Proof.
  intros g command pattern Hin Hsub.
  unfold BashExecutor._is_command_allowed. simpl.
  destruct (find (fun denied => PyStr.contains denied command)
                 (BashExecutor.denied_commands g)) as [d|] eqn:E.
  - apply find_some in E as [Hd Hc]. exists d.
    apply PyStrFacts.contains_spec in Hc. repeat split; auto.
  - exfalso. apply (find_none _ _ E) in Hin.
    apply PyStrFacts.contains_false in Hin. now apply Hin.
Qed.

(** The default deny-patterns stop a command that hides [sudo rm] behind
    an allowed program. *)
Lemma C1_witness :
  exists matched,
    In matched BashExecutor.default_denied
    /\ BashExecutor._is_command_allowed
         (BashExecutor.init None (Some ["echo"%string]) None)
         "echo hi && sudo rm -r /tmp/x"
       = Ok (false, Some ("Denied command pattern: " ++ matched)%string).
Proof.
  destruct (@C1_deny_check_unconditional
              (BashExecutor.init None (Some ["echo"%string]) None)
              "echo hi && sudo rm -r /tmp/x" "sudo rm")
    as (m & Hm & _ & Hg & _).
  - simpl. right. left. reflexivity.
  - exists "echo hi && "%string, " -r /tmp/x"%string. reflexivity.
  - exists m. split; [exact Hm | exact Hg].
Defined.

(** C2 as stated fails: with the allow-list [{"ls"}] and the default
    deny-patterns, the command ["cat x; mkfs"] has the program name
    ["cat"], which is not allowed, yet the reason given is the deny
    pattern and does not mention ["cat"]. *)
Lemma C2_counterexample :
  let g := BashExecutor.init None (Some ["ls"%string]) None in
  let command := "cat x; mkfs"%string in
  BashExecutor.allowed_commands g <> []
  /\ Spec.program_of command "cat"
  /\ ~ In "cat"%string (BashExecutor.allowed_commands g)
  /\ BashExecutor._is_command_allowed g command
     = Ok (false, Some "Denied command pattern: mkfs"%string)
  /\ ~ PyStr.substring_of "cat" "Denied command pattern: mkfs".
Proof.
  cbv zeta. repeat split.
  - discriminate.
  - left. apply (PyStr.first_token_intro "" "cat" " x; mkfs"); reflexivity.
  - simpl. intros [H | []]. discriminate.
  - apply PyStrFacts.contains_false. reflexivity.
Qed.

(** C2, amended.  Let [name] be the program name of the command.
    If the allow-list is not empty and [name] is not in it, the gate
    answers [allowed = false]; when moreover no deny-pattern occurs in
    the command, the reason is ["Command not in allowed list: "] followed
    by [name].  If [name] is in the allow-list and no deny-pattern
    occurs, the gate answers [allowed = true].  If the allow-list is
    empty, every command in which no deny-pattern occurs is allowed. *)
Theorem C2_allow_check :
  forall (g : BashExecutor.t) (command name : string),
    Spec.program_of command name ->
    (BashExecutor.allowed_commands g <> [] ->
     ~ In name (BashExecutor.allowed_commands g) ->
     exists reason,
       BashExecutor._is_command_allowed g command = Ok (false, Some reason))
    /\ (Spec.no_deny_match g command ->
        BashExecutor.allowed_commands g <> [] ->
        ~ In name (BashExecutor.allowed_commands g) ->
        BashExecutor._is_command_allowed g command
        = Ok (false, Some ("Command not in allowed list: " ++ name)%string))
    /\ (Spec.no_deny_match g command ->
        In name (BashExecutor.allowed_commands g) ->
        BashExecutor._is_command_allowed g command = Ok (true, None))
    /\ (Spec.no_deny_match g command ->
        BashExecutor.allowed_commands g = [] ->
        BashExecutor._is_command_allowed g command = Ok (true, None)).
Proof.
  intros g command name Hname.
  assert (Hreject :
    BashExecutor.allowed_commands g <> [] ->
    ~ In name (BashExecutor.allowed_commands g) ->
    find (fun denied => PyStr.contains denied command)
         (BashExecutor.denied_commands g) = None ->
    BashExecutor._is_command_allowed g command
    = Ok (false, Some ("Command not in allowed list: " ++ name)%string)).
  { intros Hne Hnotin Hfind. unfold BashExecutor._is_command_allowed.
    rewrite Hfind, (command_name_program Hname).
    destruct (BashExecutor.allowed_commands g) as [|a l] eqn:Ea;
      [now destruct Hne|].
    destruct (PyStr.mem name (a :: l)) eqn:Hm; [|reflexivity].
    apply PyStrFacts.mem_spec in Hm. now destruct Hnotin. }
  repeat split.
  - intros Hne Hnotin.
    destruct (find (fun denied => PyStr.contains denied command)
                   (BashExecutor.denied_commands g)) as [d|] eqn:E.
    + unfold BashExecutor._is_command_allowed. rewrite E. now eexists.
    + eexists. now apply Hreject.
  - intros Hno Hne Hnotin. apply Hreject; auto using find_denied_none.
  - intros Hno Hin. unfold BashExecutor._is_command_allowed.
    rewrite (find_denied_none Hno), (command_name_program Hname).
    destruct (BashExecutor.allowed_commands g) as [|a l] eqn:Ea;
      [reflexivity|].
    apply PyStrFacts.mem_spec in Hin. now rewrite Hin.
  - intros Hno Hempty. unfold BashExecutor._is_command_allowed.
    now rewrite (find_denied_none Hno), Hempty.
Qed.

(** With the allow-list [{"ls"}] and the default deny-patterns,
    [ls -la] is let through. *)
Lemma C2_witness :
  Spec.program_of "ls -la" "ls"
  /\ BashExecutor._is_command_allowed
       (BashExecutor.init None (Some ["ls"]) None) "ls -la"
     = Ok (true, None).
Proof.
  assert (H : Spec.program_of "ls -la" "ls").
  { left. apply (PyStr.first_token_intro "" "ls" " -la"); reflexivity. }
  split; [exact H|].
  destruct (@C2_allow_check (BashExecutor.init None (Some ["ls"]) None)
                            "ls -la" "ls" H) as (_ & _ & Hallow & _).
  apply Hallow.
  - intros pattern Hin. apply PyStrFacts.contains_false. simpl in Hin.
    repeat (destruct Hin as [<- | Hin]; [reflexivity|]). destruct Hin.
  - simpl. left. reflexivity.
Defined.

(* ================================================================== *)
(** ** The process runners *)

Arguments PyStr.str_of_int : simpl never.

Ltac eff :=
  unfold Eff.bind, Eff.ret, Eff.raise, Eff.lift, Eff.try_except,
    Eff.try_finally, Eff.swallow, Eff.log, Eff.time_time, Eff.datetime_now,
    Eff.ask, Eff.ask_result, Eff.set_process, Eff.set_timeout_val,
    Eff.get_process, Eff.get_timeout_val, Eff.create_subprocess,
    Eff.communicate, Eff.process_kill, Eff.process_wait, Eff.run,
    Eff.init_state;
  cbn [Eff.st_ticks Eff.st_nows Eff.st_trace Eff.st_process
       Eff.st_timeout_val fst snd negb app
       success output error data duration].

(** Case analysis on whatever the code inspects next: the innermost
    scrutinee first. *)
Ltac destruct_scrutinee t :=
  match t with
  | context [match ?x with _ => _ end] => destruct_scrutinee x
  | _ => destruct t eqn:?
  end.

Ltac eff_cases :=
  repeat (eff;
          match goal with
          | |- context [match ?x with _ => _ end] => destruct_scrutinee x
          end);
  eff.

Section Runners.

Import Eff Spec.

Variable o : Oracle.

(** *** Shell runner *)

Variable env_vars : option (list (string * string)).

Ltac bash_start Hreach :=
  let Hg := fresh "Hg" in
  let Hwd := fresh "Hwd" in
  destruct Hreach as [[? Hg] Hwd];
  unfold BashExecutor.execute, BashExecutor.execute_body,
    BashExecutor.execute_handler, BashExecutor.timeout_message,
    kill_attempt;
  eff; rewrite Hg; eff;
  match goal with
  | |- context [path_of ?wd] =>
      let d := fresh "d" in
      let Ed := fresh "Ed" in
      destruct (path_of wd) as [d|] eqn:Ed; eff;
      [rewrite (Hwd d eq_refl); eff|]
  end.

Lemma bash_completion (self : BashExecutor.t) (command : string)
    (wd : option string) (timeout : option Z) (s : State)
    (rc : Z) (out err : list Byte.byte) :
  bash_reaches_spawn self command wd o ->
  o_spawn o Payload = Ok tt ->
  o_communicate o Payload = Ok (rc, out, err) ->
  fst (BashExecutor.execute self command wd timeout env_vars o s)
  = Ok (mkToolResult (rc =? 0)%Z (Some (o_decode o out))
          (if (rc =? 0)%Z then None else Some (o_decode o err))
          (Some [("exit_code", VInt rc); ("command", VStr command)])
          (Some (o_clock o (S (st_ticks s)) - o_clock o (st_ticks s))%Q)).
Proof.
  intros Hreach Hsp Hco. destruct s as [tk nw tr pr tv].
  bash_start Hreach;
    rewrite Hsp; eff; rewrite Hco; eff;
    destruct (rc =? 0)%Z; reflexivity.
Qed.


Lemma bash_fault (self : BashExecutor.t) (command : string)
    (wd : option string) (timeout : option Z) (s : State) (e : exn) :
  bash_reaches_spawn self command wd o ->
  o_spawn o Payload = Raise e
  \/ (o_spawn o Payload = Ok tt /\ o_communicate o Payload = Raise e) ->
  is_timeout e = false ->
  fst (BashExecutor.execute self command wd timeout env_vars o s)
  = Ok (mkToolResult false None
          (Some ("Execution error: " ++ str_exn e)%string) None
          (Some (o_clock o (S (st_ticks s)) - o_clock o (st_ticks s))%Q)).
Proof.
  intros Hreach Hraise He. destruct s as [tk nw tr pr tv].
  bash_start Hreach;
    (destruct Hraise as [Hsp | [Hsp Hco]];
     [rewrite Hsp; eff; rewrite He; reflexivity
     |rewrite Hsp; eff; rewrite Hco; eff; rewrite He; reflexivity]).
Qed.

Lemma bash_wait_fails (self : BashExecutor.t) (command : string)
    (wd : option string) (timeout : option Z) (s : State) (e : exn) :
  bash_reaches_spawn self command wd o ->
  o_spawn o Payload = Ok tt ->
  o_communicate o Payload = Raise e ->
  exists tr,
    fst (BashExecutor.execute self command wd timeout env_vars o s) = Ok tr
    /\ success tr = false.
Proof.
  intros Hreach Hsp Hco. destruct s as [tk nw tr pr tv].
  bash_start Hreach;
    rewrite Hsp; eff; rewrite Hco; eff;
    (destruct (is_timeout e); eff;
     [destruct (o_kill o); eff; [destruct (o_wait o)|]|];
     eexists; split; reflexivity).
Qed.

(** Every tool result of the shell runner carries a duration. *)
Lemma bash_duration (self : BashExecutor.t) (command : string)
    (wd : option string) (timeout : option Z) (s : State) (tr : ToolResult) :
  fst (BashExecutor.execute self command wd timeout env_vars o s) = Ok tr ->
  duration tr <> None.
Proof.
  destruct s as [tk nw trc pr tv].
  unfold BashExecutor.execute, BashExecutor.execute_body,
    BashExecutor.execute_handler.
  eff_cases; intros H; try discriminate H;
    injection H as <-; cbn; discriminate.
Qed.

(** *** Interpreter runner *)

Ltac python_start Hreach :=
  let Hmk := fresh "Hmk" in
  let Hpip := fresh "Hpip" in
  let Hcwd := fresh "Hcwd" in
  destruct Hreach as (Hmk & Hpip & Hcwd);
  unfold PythonExecutor.execute, PythonExecutor.execute_body,
    PythonExecutor.execute_script, PythonExecutor.execute_handler,
    PythonExecutor._install_requirements, PythonExecutor.timeout_message,
    kill_attempt, pip_events, pip_ticks, pip_succeeds in *;
  eff; rewrite Hmk; eff;
  match goal with
  | |- context [match ?req with Some _ => _ | None => _ end] =>
      destruct req as [[|? ?]|]; eff;
      [ | destruct Hpip as (Hps & ? & ? & Hpc);
          rewrite Hps; eff; rewrite Hpc; eff; cbn [success Z.eqb negb]; eff | ]
  end;
  revert Hcwd;
  (destruct (path_of _); intros Hcwd; [subst | rewrite Hcwd]; eff).

Lemma python_completion (self : PythonExecutor.t) (code : string)
    (timeout : option Z) (requirements : option (list string))
    (wd : option string) (s : State) (path cwd : string)
    (rc : Z) (out err : list Byte.byte) :
  python_reaches_spawn requirements wd o path cwd ->
  o_spawn o Payload = Ok tt ->
  o_communicate o Payload = Ok (rc, out, err) ->
  fst (PythonExecutor.execute self code timeout requirements wd o s)
  = Ok (mkToolResult (rc =? 0)%Z (Some (o_decode o out))
          (if (rc =? 0)%Z then None else Some (o_decode o err))
          (Some [("exit_code", VInt rc)])
          (Some (o_clock o (S (pip_ticks requirements + st_ticks s))
                 - o_clock o (st_ticks s))%Q)).
Proof.
  intros Hreach Hsp Hco. destruct s as [tk nw tr pr tv].
  python_start Hreach;
    rewrite Hsp; eff; rewrite Hco; eff;
    cbn [Nat.add];
    destruct (rc =? 0)%Z; destruct (o_unlink o); reflexivity.
Qed.


Lemma python_fault (self : PythonExecutor.t) (code : string)
    (timeout : option Z) (requirements : option (list string))
    (wd : option string) (s : State) (path cwd : string) (e : exn) :
  python_reaches_spawn requirements wd o path cwd ->
  o_spawn o Payload = Raise e
  \/ (o_spawn o Payload = Ok tt /\ o_communicate o Payload = Raise e) ->
  is_timeout e = false ->
  fst (PythonExecutor.execute self code timeout requirements wd o s)
  = Ok (mkToolResult false None
          (Some ("Execution error: " ++ str_exn e)%string) None
          (Some (o_clock o (S (pip_ticks requirements + st_ticks s))
                 - o_clock o (st_ticks s))%Q)).
Proof.
  intros Hreach Hraise He. destruct s as [tk nw tr pr tv].
  python_start Hreach;
    (destruct Hraise as [Hsp | [Hsp Hco]];
     [rewrite Hsp; eff; rewrite He; eff
     |rewrite Hsp; eff; rewrite Hco; eff; rewrite He; eff]);
    cbn [Nat.add];
    destruct (o_unlink o); reflexivity.
Qed.

Lemma python_wait_fails (self : PythonExecutor.t) (code : string)
    (timeout : option Z) (requirements : option (list string))
    (wd : option string) (s : State) (path cwd : string) (e : exn) :
  python_reaches_spawn requirements wd o path cwd ->
  o_spawn o Payload = Ok tt ->
  o_communicate o Payload = Raise e ->
  exists tr,
    fst (PythonExecutor.execute self code timeout requirements wd o s) = Ok tr
    /\ success tr = false.
Proof.
  intros Hreach Hsp Hco. destruct s as [tk nw tr pr tv].
  python_start Hreach;
    rewrite Hsp; eff; rewrite Hco; eff;
    (destruct (is_timeout e); eff;
     [destruct (o_kill o); eff; [destruct (o_wait o)|]; eff|];
     destruct (o_unlink o); eexists; split; reflexivity).
Qed.

(** Every tool result of the interpreter runner carries a duration. *)
Lemma python_duration (self : PythonExecutor.t) (code : string)
    (timeout : option Z) (requirements : option (list string))
    (wd : option string) (s : State) (tr : ToolResult) :
  fst (PythonExecutor.execute self code timeout requirements wd o s) = Ok tr ->
  duration tr <> None.
Proof.
  destruct s as [tk nw trc pr tv].
  unfold PythonExecutor.execute, PythonExecutor.execute_body,
    PythonExecutor.execute_script, PythonExecutor.execute_handler,
    PythonExecutor._install_requirements.
  eff_cases; intros H; try discriminate H;
    injection H as <-; subst; cbn; discriminate.
Qed.

End Runners.

(* ================================================================== *)
(** ** The execution coordinator *)

Section Coordinator.

Import Eff Spec.

Variable o : Oracle.
Variable agent : ExecutorAgent.t.
Variables workflow code : string.
Variable timeout : option Z.
Variable wd : option string.

Ltac unfold_coordinator :=
  unfold ExecutorAgent.execute_workflow, ExecutorAgent.convert,
    BashExecutor.execute, BashExecutor.execute_body,
    BashExecutor.execute_handler,
    PythonExecutor.execute, PythonExecutor.execute_body,
    PythonExecutor.execute_script, PythonExecutor.execute_handler.

Ltac z_tests :=
  repeat match goal with
         | H : (_ =? _)%Z = true |- _ => apply Z.eqb_eq in H
         | H : (_ =? _)%Z = false |- _ => apply Z.eqb_neq in H
         end.

Ltac exited_leaf :=
  z_tests; subst; cbn; split; (split; intros H);
  first
    [ reflexivity
    | discriminate H
    | congruence
    | split; [eexists; eauto 8 | do 2 eexists; reflexivity]
    | exfalso; destruct H as [[t Ht] [out [err He]]];
      first [ discriminate He
            | congruence
            | intuition discriminate ] ].

(** The status is [SUCCESS] exactly when the recorded exit code is 0,
    and exactly when the payload process ran to completion with return
    code 0. *)
Lemma coordinator_success_iff (language : string) :
  exists er s',
    run (ExecutorAgent.execute_workflow agent workflow code language
           timeout wd) o = (Ok er, s')
    /\ (status er = SUCCESS <-> exit_code er = Some 0%Z)
    /\ (status er = SUCCESS <-> process_exited o (st_trace s') 0).
Proof.
  unfold_coordinator. unfold process_exited.
  eff_cases.
  all: do 2 eexists; split; [reflexivity|].
  all: exited_leaf.
Qed.

(** The coordinator returns a result on every path; it reads the wall
    clock once before and once after the dispatch. *)
Lemma coordinator_total (language : string) (s : State) :
  exists er s',
    ExecutorAgent.execute_workflow agent workflow code language timeout wd o s
    = (Ok er, s')
    /\ started_at er = o_now o (st_nows s)
    /\ finished_at er = Some (o_now o (S (st_nows s))).
Proof.
  destruct s as [tk nw tr pr tv]. unfold_coordinator.
  eff_cases.
  all: do 2 eexists; split; [reflexivity|]; split; reflexivity.
Qed.

Lemma bash_keeps_nows (self : BashExecutor.t) (s : State) :
  st_nows (snd (BashExecutor.execute self code wd timeout None o s))
  = st_nows s.
Proof.
  destruct s as [tk nw tr pr tv]. unfold_coordinator.
  eff_cases; reflexivity.
Qed.

Lemma python_keeps_nows (self : PythonExecutor.t)
    (requirements : option (list string)) (s : State) :
  st_nows (snd (PythonExecutor.execute self code timeout requirements wd o s))
  = st_nows s.
Proof.
  destruct s as [tk nw tr pr tv]. unfold_coordinator.
  unfold PythonExecutor._install_requirements.
  eff_cases; reflexivity.
Qed.

Lemma coordinator_bash (s : State) :
  fst (ExecutorAgent.execute_workflow agent workflow code BASH timeout wd o s)
  = Ok (of_outcome workflow (o_now o (st_nows s)) (o_now o (S (st_nows s)))
          (fst (BashExecutor.execute (ExecutorAgent.bash_executor agent)
                  code wd timeout None o (snd (datetime_now o s))))).
Proof.
  pose proof (bash_keeps_nows (ExecutorAgent.bash_executor agent)
                (snd (datetime_now o s))) as Hn.
  destruct s as [tk nw tr pr tv].
  unfold ExecutorAgent.execute_workflow, ExecutorAgent.convert.
  change (BASH =? BASH)%string with true. eff.
  unfold datetime_now in Hn. cbn [snd st_nows] in Hn. revert Hn.
  destruct (BashExecutor.execute _ _ _ _ _ _ _) as [[t|e] s1];
    destruct s1; cbn [snd st_nows]; intros ->; reflexivity.
Qed.

Lemma coordinator_python (s : State) :
  fst (ExecutorAgent.execute_workflow agent workflow code PYTHON timeout wd
         o s)
  = Ok (of_outcome workflow (o_now o (st_nows s)) (o_now o (S (st_nows s)))
          (fst (PythonExecutor.execute (ExecutorAgent.python_executor agent)
                  code timeout None wd o (snd (datetime_now o s))))).
Proof.
  pose proof (python_keeps_nows (ExecutorAgent.python_executor agent) None
                (snd (datetime_now o s))) as Hn.
  destruct s as [tk nw tr pr tv].
  unfold ExecutorAgent.execute_workflow, ExecutorAgent.convert.
  change (PYTHON =? BASH)%string with false.
  change (PYTHON =? PYTHON)%string with true. eff.
  unfold datetime_now in Hn. cbn [snd st_nows] in Hn. revert Hn.
  destruct (PythonExecutor.execute _ _ _ _ _ _ _) as [[t|e] s1];
    destruct s1; cbn [snd st_nows]; intros ->; reflexivity.
Qed.

Lemma coordinator_unsupported (language : string) (s : State) :
  language <> BASH -> language <> PYTHON ->
  fst (ExecutorAgent.execute_workflow agent workflow code language timeout wd
         o s)
  = Ok (mkExecutionResult workflow FAILED (o_now o (st_nows s))
          (Some (o_now o (S (st_nows s)))) None None None None
          (Some ("Unsupported language: " ++ language)%string)).
Proof.
  intros Hb Hp. apply String.eqb_neq in Hb, Hp.
  destruct s as [tk nw tr pr tv].
  unfold ExecutorAgent.execute_workflow. rewrite Hb, Hp. reflexivity.
Qed.

End Coordinator.

(** *** What the coordinator makes of a completed run *)

Section CoordinatorExit.

Import Eff Spec.

Variable o : Oracle.
Variable agent : ExecutorAgent.t.
Variables workflow code : string.
Variable timeout : option Z.
Variable wd : option string.

Ltac unfold_dispatch :=
  unfold ExecutorAgent.execute_workflow, ExecutorAgent.convert,
    BashExecutor.execute, BashExecutor.execute_body,
    BashExecutor.execute_handler,
    PythonExecutor.execute, PythonExecutor.execute_body,
    PythonExecutor.execute_script, PythonExecutor.execute_handler.

Ltac tidy :=
  repeat match goal with
         | H : (_ =? _)%Z = true |- _ => apply Z.eqb_eq in H
         | u : unit |- _ => destruct u
         | H : negb ?b = false |- _ =>
             destruct b; cbn [negb] in H; [clear H | discriminate H]
         end;
  subst.

(** What the coordinator makes of a shell that ran to completion. *)
Lemma coordinator_bash_exit (rc : Z) (out err : list Byte.byte) :
  bash_reaches_spawn (ExecutorAgent.bash_executor agent) code wd o ->
  o_spawn o Payload = Ok tt ->
  o_communicate o Payload = Ok (rc, out, err) ->
  fst (run (ExecutorAgent.execute_workflow agent workflow code BASH timeout
              wd) o)
  = Ok (mkExecutionResult workflow
          (if (rc =? 0)%Z then SUCCESS else FAILED)
          (o_now o 0) (Some (o_now o 1))
          (Some (o_clock o 1 - o_clock o 0)%Q) (Some rc)
          (Some (o_decode o out))
          (if (rc =? 0)%Z then None else Some (o_decode o err))
          (if (rc =? 0)%Z then None else Some (o_decode o err))).
Proof.
  intros Hreach Hsp Hco. unfold run. rewrite coordinator_bash.
  rewrite (bash_completion None timeout (snd (datetime_now o init_state))
             Hreach Hsp Hco).
  unfold of_outcome, converted. cbn.
  destruct (rc =? 0)%Z; reflexivity.
Qed.

Lemma coordinator_python_exit (path cwd : string) (rc : Z)
    (out err : list Byte.byte) :
  python_reaches_spawn None wd o path cwd ->
  o_spawn o Payload = Ok tt ->
  o_communicate o Payload = Ok (rc, out, err) ->
  fst (run (ExecutorAgent.execute_workflow agent workflow code PYTHON timeout
              wd) o)
  = Ok (mkExecutionResult workflow
          (if (rc =? 0)%Z then SUCCESS else FAILED)
          (o_now o 0) (Some (o_now o 1))
          (Some (o_clock o 1 - o_clock o 0)%Q) (Some rc)
          (Some (o_decode o out))
          (if (rc =? 0)%Z then None else Some (o_decode o err))
          (if (rc =? 0)%Z then None else Some (o_decode o err))).
Proof.
  intros Hreach Hsp Hco. unfold run. rewrite coordinator_python.
  rewrite (python_completion (ExecutorAgent.python_executor agent) code
             timeout (snd (datetime_now o init_state)) Hreach Hsp Hco).
  unfold of_outcome, converted. cbn.
  destruct (rc =? 0)%Z; reflexivity.
Qed.

(** A [SUCCESS] is never reported unless the child ran to completion
    with return code 0. *)
Lemma coordinator_bash_success (er : ExecutionResult) :
  fst (run (ExecutorAgent.execute_workflow agent workflow code BASH timeout
              wd) o) = Ok er ->
  status er = SUCCESS ->
  bash_reaches_spawn (ExecutorAgent.bash_executor agent) code wd o
  /\ o_spawn o Payload = Ok tt
  /\ exists out err, o_communicate o Payload = Ok (0%Z, out, err).
Proof.
  unfold bash_reaches_spawn. unfold_dispatch.
  change (BASH =? BASH)%string with true.
  eff_cases; intros H; injection H as <-; cbn; intros Hs;
    try discriminate Hs; tidy;
    (split; [split; [eexists; reflexivity
                    | intros d' Hd'; first [discriminate Hd' | congruence]]
            | split; [reflexivity | do 2 eexists; reflexivity]]).
Qed.

Lemma coordinator_python_success (er : ExecutionResult) :
  fst (run (ExecutorAgent.execute_workflow agent workflow code PYTHON timeout
              wd) o) = Ok er ->
  status er = SUCCESS ->
  exists path cwd,
    python_reaches_spawn None wd o path cwd
    /\ o_spawn o Payload = Ok tt
    /\ exists out err, o_communicate o Payload = Ok (0%Z, out, err).
Proof.
  unfold python_reaches_spawn, pip_succeeds. unfold_dispatch.
  change (PYTHON =? BASH)%string with false.
  change (PYTHON =? PYTHON)%string with true.
  eff_cases; intros H; injection H as <-; cbn; intros Hs;
    try discriminate Hs; tidy.
  all: do 2 eexists;
    (split; [split; [reflexivity | split; [exact I | reflexivity]]
            | split; [reflexivity | do 2 eexists; reflexivity]]).
Qed.

End CoordinatorExit.

(** C3.  When the child process runs to completion within the bound,
    either runner returns a tool result whose [success] is the test
    [returncode == 0], whose [output] is the decoded stdout, and whose
    [error] is the decoded stderr when the return code is not 0 and
    absent when it is 0.  The coordinator turns that result into an
    execution result with the same return code and streams, whose status
    is [SUCCESS] exactly when the return code is 0.  On every path, the
    coordinator's status is [SUCCESS] exactly when the recorded exit
    code is 0, and exactly when the language is one of the two that are
    run and the system let the child be spawned and answered the wait
    for it with return code 0: no rejection, spawn failure, timeout or
    other exception came in between. *)
Theorem C3_completion_result :
  forall (agent : ExecutorAgent.t) (workflow code language : string)
         (timeout : option Z) (wd : option string) (o : Eff.Oracle),
    (forall env_vars rc out err,
        Spec.bash_reaches_spawn (ExecutorAgent.bash_executor agent) code wd o ->
        Eff.o_spawn o Eff.Payload = Ok tt ->
        Eff.o_communicate o Eff.Payload = Ok (rc, out, err) ->
        exists tr,
          fst (Eff.run (BashExecutor.execute
                          (ExecutorAgent.bash_executor agent) code wd timeout
                          env_vars) o) = Ok tr
          /\ success tr = (rc =? 0)%Z
          /\ output tr = Some (Eff.o_decode o out)
          /\ error tr = (if (rc =? 0)%Z then None
                         else Some (Eff.o_decode o err)))
    /\ (forall requirements path cwd rc out err,
        Spec.python_reaches_spawn requirements wd o path cwd ->
        Eff.o_spawn o Eff.Payload = Ok tt ->
        Eff.o_communicate o Eff.Payload = Ok (rc, out, err) ->
        exists tr,
          fst (Eff.run (PythonExecutor.execute
                          (ExecutorAgent.python_executor agent) code timeout
                          requirements wd) o) = Ok tr
          /\ success tr = (rc =? 0)%Z
          /\ output tr = Some (Eff.o_decode o out)
          /\ error tr = (if (rc =? 0)%Z then None
                         else Some (Eff.o_decode o err)))
    /\ (forall rc out err,
        Spec.bash_reaches_spawn (ExecutorAgent.bash_executor agent) code wd o ->
        Eff.o_spawn o Eff.Payload = Ok tt ->
        Eff.o_communicate o Eff.Payload = Ok (rc, out, err) ->
        exists er,
          fst (Eff.run (ExecutorAgent.execute_workflow agent workflow code
                          BASH timeout wd) o) = Ok er
          /\ (status er = SUCCESS <-> rc = 0%Z)
          /\ exit_code er = Some rc
          /\ stdout er = Some (Eff.o_decode o out)
          /\ stderr er = (if (rc =? 0)%Z then None
                          else Some (Eff.o_decode o err)))
    /\ (forall path cwd rc out err,
        Spec.python_reaches_spawn None wd o path cwd ->
        Eff.o_spawn o Eff.Payload = Ok tt ->
        Eff.o_communicate o Eff.Payload = Ok (rc, out, err) ->
        exists er,
          fst (Eff.run (ExecutorAgent.execute_workflow agent workflow code
                          PYTHON timeout wd) o) = Ok er
          /\ (status er = SUCCESS <-> rc = 0%Z)
          /\ exit_code er = Some rc
          /\ stdout er = Some (Eff.o_decode o out)
          /\ stderr er = (if (rc =? 0)%Z then None
                          else Some (Eff.o_decode o err)))
    /\ exists er s',
         Eff.run (ExecutorAgent.execute_workflow agent workflow code language
                    timeout wd) o = (Ok er, s')
         /\ (status er = SUCCESS <-> exit_code er = Some 0%Z)
         /\ (status er = SUCCESS
             <-> Spec.process_exited o (Eff.st_trace s') 0)
         /\ (status er = SUCCESS
             <-> (language = BASH
                  /\ Spec.bash_reaches_spawn
                       (ExecutorAgent.bash_executor agent) code wd o
                  /\ Eff.o_spawn o Eff.Payload = Ok tt
                  /\ exists out err,
                       Eff.o_communicate o Eff.Payload = Ok (0%Z, out, err))
                 \/ (language = PYTHON
                     /\ exists path cwd,
                          Spec.python_reaches_spawn None wd o path cwd
                          /\ Eff.o_spawn o Eff.Payload = Ok tt
                          /\ exists out err,
                               Eff.o_communicate o Eff.Payload
                               = Ok (0%Z, out, err))).
Proof.
  intros agent workflow code language timeout wd o.
  split; [|split; [|split; [|split]]].
  - intros env_vars rc out err Hreach Hsp Hco. eexists. split.
    + unfold Eff.run.
      apply (bash_completion env_vars _ Eff.init_state Hreach Hsp Hco).
    + repeat split.
  - intros requirements path cwd rc out err Hreach Hsp Hco. eexists. split.
    + unfold Eff.run.
      apply (python_completion _ _ _ Eff.init_state Hreach Hsp Hco).
    + repeat split.
  - intros rc out err Hreach Hsp Hco. eexists. split.
    + apply (@coordinator_bash_exit o agent workflow code timeout wd rc out
               err Hreach Hsp Hco).
    + cbn. repeat split.
      * destruct (Z.eqb_spec rc 0); [trivial | discriminate].
      * intros ->. reflexivity.
  - intros path cwd rc out err Hreach Hsp Hco. eexists. split.
    + apply (@coordinator_python_exit o agent workflow code timeout wd path
               cwd rc out err Hreach Hsp Hco).
    + cbn. repeat split.
      * destruct (Z.eqb_spec rc 0); [trivial | discriminate].
      * intros ->. reflexivity.
  - destruct (coordinator_success_iff o agent workflow code timeout wd
                language) as (er & s' & Hrun & Hcode & Htrace).
    exists er, s'. split; [exact Hrun|]. split; [exact Hcode|].
    split; [exact Htrace|].
    assert (Hfst : fst (Eff.run (ExecutorAgent.execute_workflow agent
                                   workflow code language timeout wd) o)
                   = Ok er) by now rewrite Hrun.
    split.
    + intros Hs. destruct (String.eqb_spec language BASH) as [-> | Hb].
      { left. split; [reflexivity|].
        exact (@coordinator_bash_success o agent workflow code timeout wd
                 er Hfst Hs). }
      destruct (String.eqb_spec language PYTHON) as [-> | Hp].
      { right. split; [reflexivity|].
        exact (@coordinator_python_success o agent workflow code timeout
                 wd er Hfst Hs). }
      unfold Eff.run in Hfst.
      rewrite (coordinator_unsupported o agent workflow code timeout wd
                 Eff.init_state Hb Hp) in Hfst.
      injection Hfst as <-. discriminate Hs.
    + intros [(-> & Hreach & Hsp & out & err & Hco)
             | (-> & path & cwd & Hreach & Hsp & out & err & Hco)].
      * rewrite (@coordinator_bash_exit o agent workflow code timeout wd 0%Z
                   out err Hreach Hsp Hco) in Hfst.
        injection Hfst as <-. reflexivity.
      * rewrite (@coordinator_python_exit o agent workflow code timeout wd
                   path cwd 0%Z out err Hreach Hsp Hco) in Hfst.
        injection Hfst as <-. reflexivity.
Qed.

(** A command that prints [OK] and exits with code 0: the runner's
    result, and what the coordinator records for the workflow. *)
Lemma C3_witness :
  (exists tr,
      fst (Eff.run (BashExecutor.execute
                      (ExecutorAgent.bash_executor Sample.agent)
                      "echo OK" None None None) Sample.exits_ok) = Ok tr
      /\ success tr = true
      /\ output tr = Some "OK"
      /\ error tr = None)
  /\ exists er,
       fst (Eff.run (ExecutorAgent.execute_workflow Sample.agent "hello"
                       "echo OK" BASH None None) Sample.exits_ok) = Ok er
       /\ (status er = SUCCESS <-> 0%Z = 0%Z)
       /\ exit_code er = Some 0%Z
       /\ stdout er = Some "OK"
       /\ stderr er = None.
Proof.
  assert (Hreach : Spec.bash_reaches_spawn
                     (ExecutorAgent.bash_executor Sample.agent) "echo OK"
                     None Sample.exits_ok).
  { split.
    - exists None. reflexivity.
    - intros d H. discriminate H. }
  destruct (C3_completion_result Sample.agent "hello" "echo OK" "bash"
              None None Sample.exits_ok) as (Hbash & _ & Hcoord & _).
  split.
  - apply (Hbash None 0%Z (Sample.bytes "OK") (Sample.bytes ""));
      [exact Hreach | reflexivity | reflexivity].
  - apply (Hcoord 0%Z (Sample.bytes "OK") (Sample.bytes ""));
      [exact Hreach | reflexivity | reflexivity].
Defined.




(** The fault boundary.  The coordinator returns an execution result
    on every path.  An exception that escapes either runner becomes a
    [FAILED] result whose message is ["Execution error: "] followed by
    the exception's message.
    Inside the runners, an exception raised while spawning the child or
    while waiting for it, other than the timeout signal, becomes a tool
    result with [success = false] and the same kind of message; and
    whatever is raised while waiting for the child, the timeout signal
    included, the runner returns a tool result with [success = false]. *)
Lemma fault_boundary :
  forall (agent : ExecutorAgent.t) (workflow code language : string)
         (timeout : option Z) (wd : option string)
         (o : Eff.Oracle) (s : Eff.State),
    (exists er s',
        ExecutorAgent.execute_workflow agent workflow code language timeout wd
          o s = (Ok er, s'))
    /\ (forall e,
        fst (BashExecutor.execute (ExecutorAgent.bash_executor agent) code wd
               timeout None o (snd (Eff.datetime_now o s))) = Raise e ->
        fst (ExecutorAgent.execute_workflow agent workflow code BASH timeout
               wd o s)
        = Ok (mkExecutionResult workflow FAILED
                (Eff.o_now o (Eff.st_nows s))
                (Some (Eff.o_now o (S (Eff.st_nows s))))
                None None None None
                (Some ("Execution error: " ++ str_exn e)%string)))
    /\ (forall e,
        fst (PythonExecutor.execute (ExecutorAgent.python_executor agent) code
               timeout None wd o (snd (Eff.datetime_now o s))) = Raise e ->
        fst (ExecutorAgent.execute_workflow agent workflow code PYTHON timeout
               wd o s)
        = Ok (mkExecutionResult workflow FAILED
                (Eff.o_now o (Eff.st_nows s))
                (Some (Eff.o_now o (S (Eff.st_nows s))))
                None None None None
                (Some ("Execution error: " ++ str_exn e)%string)))
    /\ (forall e env_vars,
        Spec.bash_reaches_spawn (ExecutorAgent.bash_executor agent) code wd o ->
        Eff.o_spawn o Eff.Payload = Raise e
        \/ (Eff.o_spawn o Eff.Payload = Ok tt
            /\ Eff.o_communicate o Eff.Payload = Raise e) ->
        is_timeout e = false ->
        fst (BashExecutor.execute (ExecutorAgent.bash_executor agent) code wd
               timeout env_vars o s)
        = Ok (mkToolResult false None
                (Some ("Execution error: " ++ str_exn e)%string) None
                (Some (Eff.o_clock o (S (Eff.st_ticks s))
                       - Eff.o_clock o (Eff.st_ticks s))%Q)))
    /\ (forall e requirements path cwd,
        Spec.python_reaches_spawn requirements wd o path cwd ->
        Eff.o_spawn o Eff.Payload = Raise e
        \/ (Eff.o_spawn o Eff.Payload = Ok tt
            /\ Eff.o_communicate o Eff.Payload = Raise e) ->
        is_timeout e = false ->
        fst (PythonExecutor.execute (ExecutorAgent.python_executor agent) code
               timeout requirements wd o s)
        = Ok (mkToolResult false None
                (Some ("Execution error: " ++ str_exn e)%string) None
                (Some (Eff.o_clock o (S (Spec.pip_ticks requirements
                                         + Eff.st_ticks s))
                       - Eff.o_clock o (Eff.st_ticks s))%Q)))
    /\ (forall e env_vars,
        Spec.bash_reaches_spawn (ExecutorAgent.bash_executor agent) code wd o ->
        Eff.o_spawn o Eff.Payload = Ok tt ->
        Eff.o_communicate o Eff.Payload = Raise e ->
        exists tr,
          fst (BashExecutor.execute (ExecutorAgent.bash_executor agent) code
                 wd timeout env_vars o s) = Ok tr
          /\ success tr = false)
    /\ (forall e requirements path cwd,
        Spec.python_reaches_spawn requirements wd o path cwd ->
        Eff.o_spawn o Eff.Payload = Ok tt ->
        Eff.o_communicate o Eff.Payload = Raise e ->
        exists tr,
          fst (PythonExecutor.execute (ExecutorAgent.python_executor agent)
                 code timeout requirements wd o s) = Ok tr
          /\ success tr = false).
Proof.
  intros agent workflow code language timeout wd o s.
  split; [|split; [|split; [|split; [|split; [|split]]]]].
  - destruct (coordinator_total o agent workflow code timeout wd language s)
      as (er & s' & H & _). now exists er, s'.
  - intros e He. rewrite coordinator_bash, He. reflexivity.
  - intros e He. rewrite coordinator_python, He. reflexivity.
  - intros e env_vars Hreach Hraise He. now apply bash_fault.
  - intros e requirements path cwd Hreach Hraise He.
    now apply python_fault with (path := path) (cwd := cwd).
  - intros e env_vars Hreach Hsp Hco.
    now apply bash_wait_fails with (e := e).
  - intros e requirements path cwd Hreach Hsp Hco.
    now apply python_wait_fails with (path := path) (cwd := cwd) (e := e).
Qed.

(** A full disk: the script file cannot be written, the interpreter
    runner raises, and the coordinator reports the failure. *)
Lemma fault_boundary_full_disk :
  fst (Eff.run (ExecutorAgent.execute_workflow Sample.agent "report"
                  "print(1)" PYTHON None None) Sample.disk_full)
  = Ok (mkExecutionResult "report" FAILED 0%Z (Some 1%Z) None None None None
          (Some "Execution error: [Errno 28] No space left on device")).
Proof.
  destruct (fault_boundary Sample.agent "report" "print(1)" PYTHON
              None None Sample.disk_full Eff.init_state)
    as (_ & _ & Hpy & _).
  apply (Hpy (Exn OSError "[Errno 28] No space left on device")).
  reflexivity.
Defined.

(** C5 fails where the spawn call itself raises [TimeoutError].  The
    handler for the timeout then runs with neither [process] nor
    [timeout_val] bound: the failed [kill] is swallowed, the message
    cannot be built, and an [UnboundLocalError] leaves either runner
    instead of a tool result with [success = false].  The coordinator
    still turns it into a [FAILED] result. *)
Lemma C5_spawn_timeout_escapes :
  fst (Eff.run (BashExecutor.execute
                  (ExecutorAgent.bash_executor Sample.agent) "echo OK"
                  None None None) Cases.spawn_times_out)
  = Raise (Exn UnboundLocalError
             "cannot access local variable 'timeout_val' where it is not associated with a value")
  /\ fst (Eff.run (PythonExecutor.execute
                     (ExecutorAgent.python_executor Sample.agent)
                     "print('OK')" None None None) Cases.spawn_times_out)
     = Raise (Exn UnboundLocalError
                "cannot access local variable 'timeout_val' where it is not associated with a value")
  /\ fst (Eff.run (ExecutorAgent.execute_workflow Sample.agent "hello"
                     "echo OK" BASH None None) Cases.spawn_times_out)
     = Ok (mkExecutionResult "hello" FAILED 0%Z (Some 1%Z) None None None
             None
             (Some "Execution error: cannot access local variable 'timeout_val' where it is not associated with a value")).
Proof.
  split; [reflexivity|]. split; reflexivity.
Qed.

(** C6 as stated fails on the fault-boundary path and on the
    unrecognized-language path: when the temporary script cannot be
    written, and when the language is ["ruby"], the result has
    [finished_at] set but no duration. *)
Lemma C6_counterexample :
  fst (Eff.run (ExecutorAgent.execute_workflow Sample.agent "report"
                  "print(1)" PYTHON None None) Sample.disk_full)
  = Ok (mkExecutionResult "report" FAILED 0%Z (Some 1%Z) None None None None
          (Some "Execution error: [Errno 28] No space left on device"))
  /\ fst (Eff.run (ExecutorAgent.execute_workflow Sample.agent "report"
                     "puts 1" "ruby" None None) Sample.exits_ok)
     = Ok (mkExecutionResult "report" FAILED 0%Z (Some 1%Z) None None None
             None (Some "Unsupported language: ruby")).
Proof. split; reflexivity. Qed.

(** C6, amended.  On every path the coordinator returns a result whose
    [finished_at] is set, to the clock reading taken after the dispatch.
    Its duration is the one the runner reports, and every tool result of
    a runner carries one; when an exception escapes the runner, and when
    the language is not recognized, the result has no duration. *)
Theorem C6_finished_at_and_duration :
  forall (agent : ExecutorAgent.t) (workflow code language : string)
         (timeout : option Z) (wd : option string)
         (o : Eff.Oracle) (s : Eff.State),
    exists er,
      fst (ExecutorAgent.execute_workflow agent workflow code language timeout
             wd o s) = Ok er
      /\ finished_at er = Some (Eff.o_now o (S (Eff.st_nows s)))
      /\ (language = BASH ->
          match fst (BashExecutor.execute (ExecutorAgent.bash_executor agent)
                       code wd timeout None o (snd (Eff.datetime_now o s)))
          with
          | Ok tr => exec_duration er = duration tr /\ duration tr <> None
          | Raise _ => exec_duration er = None
          end)
      /\ (language = PYTHON ->
          match fst (PythonExecutor.execute
                       (ExecutorAgent.python_executor agent) code timeout None
                       wd o (snd (Eff.datetime_now o s))) with
          | Ok tr => exec_duration er = duration tr /\ duration tr <> None
          | Raise _ => exec_duration er = None
          end)
      /\ (language <> BASH -> language <> PYTHON -> exec_duration er = None).
Proof.
  intros agent workflow code language timeout wd o s.
  destruct (String.eqb_spec language BASH) as [-> | Hb];
    [|destruct (String.eqb_spec language PYTHON) as [-> | Hp]].
  - eexists. split; [apply coordinator_bash|].
    split; [|split; [|split]].
    + destruct (fst (BashExecutor.execute _ _ _ _ _ _ _)); reflexivity.
    + intros _.
      destruct (fst (BashExecutor.execute _ _ _ _ _ _ _)) as [tr|e] eqn:E;
        [|reflexivity].
      split; [reflexivity | now apply bash_duration in E].
    + intros H. discriminate H.
    + intros H. now destruct H.
  - eexists. split; [apply coordinator_python|].
    split; [|split; [|split]].
    + destruct (fst (PythonExecutor.execute _ _ _ _ _ _ _)); reflexivity.
    + intros H. discriminate H.
    + intros _.
      destruct (fst (PythonExecutor.execute _ _ _ _ _ _ _)) as [tr|e] eqn:E;
        [|reflexivity].
      split; [reflexivity | now apply python_duration in E].
    + intros _ H. now destruct H.
  - eexists. split; [now apply coordinator_unsupported|].
    split; [reflexivity|]. split; [|split].
    + intros H. now destruct Hb.
    + intros H. now destruct Hp.
    + reflexivity.
Qed.

(** A shell command that succeeds: the result has both time stamps and
    the runner's duration. *)
Lemma C6_witness :
  exists er,
    fst (Eff.run (ExecutorAgent.execute_workflow Sample.agent "hello"
                    "echo OK" BASH None None) Sample.exits_ok) = Ok er
    /\ finished_at er = Some 1%Z
    /\ exec_duration er = Some (1 - 0)%Q.
Proof.
  destruct (C6_finished_at_and_duration Sample.agent "hello" "echo OK" BASH
              None None Sample.exits_ok Eff.init_state)
    as (er & Hrun & Hfin & Hbash & _).
  exists er. split; [exact Hrun|]. split; [exact Hfin|].
  destruct (Hbash eq_refl) as [Hd _]. exact Hd.
Defined.

(* ================================================================== *)
(** ** Statistics of the history store *)

Section Stats.

Import HistoryStore Spec.





Lemma filter_split_length (A : Type) (p q : A -> bool) (l : list A) :
  List.length (filter (fun x => p x && q x) l)
  + List.length (filter (fun x => p x && negb (q x)) l)
  = List.length (filter p l).
Proof.
  induction l as [|x l IH]; simpl; [reflexivity|].
  destruct (p x), (q x); simpl; lia.
Qed.

(** [get_stats] never divides by zero: it returns its dict, with these
    entries, for every table and every workflow name. *)
Lemma get_stats_total (d : db) (name : string) :
  get_stats d name
  = Ok (mkStats (sql_count (rows_of d name))
          (sql_count (successes_of d name))
          (sql_count (rows_of d name) - sql_count (successes_of d name))%Z
          (if (sql_count (rows_of d name) >? 0)%Z
           then (inject_Z (sql_count (successes_of d name))
                 / inject_Z (sql_count (rows_of d name)) * 100)%Q
           else 0%Q)
          (float_or_zero (sql_avg (successes_of d name)))).
Proof.
  unfold get_stats, truediv.
  destruct (sql_count (rows_of d name) >? 0)%Z eqn:Hpos; [|reflexivity].
  destruct (sql_count (rows_of d name) =? 0)%Z eqn:Hz; [|reflexivity].
  apply Z.eqb_eq in Hz. rewrite Hz in Hpos. discriminate Hpos.
Qed.

End Stats.



(** C10.  For every table and workflow, [get_stats] reports
    [failed = total - successful]; this is the number of the workflow's
    records whose status is not [SUCCESS], whatever that status is, and
    [total = successful + failed]. *)
Theorem C10_failed_is_total_minus_successful :
  forall (d : HistoryStore.db) (name : string),
    exists st,
      HistoryStore.get_stats d name = Ok st
      /\ HistoryStore.failed st
         = (HistoryStore.total_executions st - HistoryStore.successful st)%Z
      /\ HistoryStore.failed st
         = Z.of_nat (List.length (filter (Spec.is_not_success name) d))
      /\ HistoryStore.total_executions st
         = (HistoryStore.successful st + HistoryStore.failed st)%Z
      /\ forall r,
           In r d -> workflow_name r = name ->
           status r = TIMEOUT \/ status r = PENDING \/ status r = RUNNING
           \/ status r = FAILED ->
           In r (filter (Spec.is_not_success name) d).
Proof.
  intros d name. eexists. split; [apply get_stats_total|]. cbn.
  assert (Hsplit := filter_split_length
                      (fun r => String.eqb (workflow_name r) name)
                      (fun r => status_eqb (status r) SUCCESS) d).
  unfold HistoryStore.sql_count, HistoryStore.rows_of,
    HistoryStore.successes_of, Spec.is_not_success.
  repeat split; try lia.
  intros r Hin Hname Hst. apply filter_In. split; [assumption|].
  apply String.eqb_eq in Hname. rewrite Hname.
  destruct Hst as [-> | [-> | [-> | ->]]]; reflexivity.
Qed.

(** One success and one record of every other status. *)
Lemma C10_witness :
  exists st,
    HistoryStore.get_stats
      [Sample.row "etl" SUCCESS 1 (Some 1%Q) None;
       Sample.row "etl" TIMEOUT 2 None None;
       Sample.row "etl" PENDING 3 None None;
       Sample.row "etl" RUNNING 4 None None;
       Sample.row "etl" FAILED 5 None (Some "boom")] "etl" = Ok st
    /\ HistoryStore.total_executions st = 5%Z
    /\ HistoryStore.successful st = 1%Z
    /\ HistoryStore.failed st = 4%Z.
Proof.
  destruct (C10_failed_is_total_minus_successful
              [Sample.row "etl" SUCCESS 1 (Some 1%Q) None;
               Sample.row "etl" TIMEOUT 2 None None;
               Sample.row "etl" PENDING 3 None None;
               Sample.row "etl" RUNNING 4 None None;
               Sample.row "etl" FAILED 5 None (Some "boom")] "etl")
    as (st & Hst & _ & Hfailed & _).
  exists st. split; [exact Hst|].
  rewrite Hfailed. injection Hst as <-. repeat split.
Defined.

(* ================================================================== *)
(** ** The stable descending sort *)

Section SortDescFacts.

Import HistoryStore.

Variable A : Type.
Variable key : A -> Z.

Let ge (a b : A) : Prop := (key b <= key a)%Z.

Lemma insert_desc_perm (x : A) (l : list A) :
  Permutation (x :: l) (insert_desc key x l).
Proof.
  induction l as [|y l IH]; simpl; [apply Permutation_refl|].
  destruct (key y <=? key x)%Z; [apply Permutation_refl|].
  rewrite perm_swap. now constructor.
Qed.

Lemma sort_desc_perm (l : list A) : Permutation l (sort_desc key l).
Proof.
  induction l as [|x l IH]; simpl; [constructor|].
  rewrite <- insert_desc_perm. now constructor.
Qed.

Lemma insert_desc_sorted (x : A) (l : list A) :
  StronglySorted ge l -> StronglySorted ge (insert_desc key x l).
Proof.
  induction 1 as [|y l Hs IH Hy]; simpl.
  - repeat constructor.
  - destruct (key y <=? key x)%Z eqn:E.
    + apply Z.leb_le in E. constructor; [now constructor|].
      constructor; [exact E|].
      eapply Forall_impl; [|exact Hy]. unfold ge. intros; lia.
    + apply Z.leb_gt in E. constructor; [exact IH|].
      rewrite <- insert_desc_perm. constructor; [unfold ge; lia | exact Hy].
Qed.

Lemma sort_desc_sorted (l : list A) : StronglySorted ge (sort_desc key l).
Proof.
  induction l as [|x l IH]; simpl; [constructor | now apply insert_desc_sorted].
Qed.

(** Insertion only passes elements with a strictly larger key, so the
    elements of any one key keep their order. *)
Lemma insert_desc_stable (c : Z) (x : A) (l : list A) :
  filter (fun a => (key a =? c)%Z) (insert_desc key x l)
  = filter (fun a => (key a =? c)%Z) (x :: l).
Proof.
  induction l as [|y l IH]; [reflexivity|].
  cbn [insert_desc]. destruct (key y <=? key x)%Z eqn:E; [reflexivity|].
  apply Z.leb_gt in E. cbn [filter] in *.
  destruct (key y =? c)%Z eqn:Ey.
  - rewrite IH. apply Z.eqb_eq in Ey.
    destruct (key x =? c)%Z eqn:Ex; [|reflexivity].
    apply Z.eqb_eq in Ex. lia.
  - exact IH.
Qed.

Lemma sort_desc_stable (c : Z) (l : list A) :
  filter (fun a => (key a =? c)%Z) (sort_desc key l)
  = filter (fun a => (key a =? c)%Z) l.
Proof.
  induction l as [|x l IH]; [reflexivity|].
  cbn [sort_desc fold_right]. fold (sort_desc key l).
  rewrite insert_desc_stable. cbn [filter]. now rewrite IH.
Qed.

End SortDescFacts.

(* ================================================================== *)
(** ** The pattern miner *)

Section PatternKey.

Import PyStr PyStrFacts HistoryStore Spec.

(** [_extract_pattern_key] is the first match in the keyword table, and
    falls back to the first token of the message. *)
Lemma pattern_key_table (msg : string) :
  match table_label (lower msg) with
  | Some label => _extract_pattern_key msg = label
  | None =>
      (forall tok, first_token msg tok ->
                   _extract_pattern_key msg = lower tok)
      /\ (all_space msg = true -> _extract_pattern_key msg = "unknown")
  end.
Proof.
  unfold _extract_pattern_key, table_label, keyword_table.
  cbn [find existsb fst snd option_map].
  repeat match goal with
         | |- context [contains ?kw (lower msg)] =>
             destruct (contains kw (lower msg)); cbn [orb option_map snd]
         end;
    try reflexivity.
  split.
  - intros tok H. destruct (split_first_token H) as [tl ->]. reflexivity.
  - intros H. now rewrite split_all_space.
Qed.

Lemma pattern_key_timeout (msg : string) :
  substring_of "timeout" (lower msg) -> _extract_pattern_key msg = "timeout".
Proof.
  intros H. apply contains_spec in H.
  unfold _extract_pattern_key. now rewrite H.
Qed.

End PatternKey.

Section Grouping.

Import PyStr PyStrFacts HistoryStore Spec.

(** *** The [patterns] dict *)

Lemma dict_has_spec (k : string) (d : patterns_dict) :
  dict_has k d = true <-> In k (map fst d).
Proof.
  unfold dict_has. rewrite existsb_exists, in_map_iff. split.
  - intros [kv [Hin E]]. apply String.eqb_eq in E. now exists kv.
  - intros [kv [E Hin]]. exists kv. split; [assumption|].
    now apply String.eqb_eq.
Qed.

Lemma dict_has_false (k : string) (d : patterns_dict) :
  dict_has k d = false <-> ~ In k (map fst d).
Proof.
  rewrite <- dict_has_spec. destruct (dict_has k d).
  - split; [discriminate | intros H; now destruct H].
  - split; [intros _; discriminate | reflexivity].
Qed.

Lemma dict_update_keys (k : string) (f : entry -> entry) (d : patterns_dict) :
  map fst (dict_update k f d) = map fst d.
Proof.
  induction d as [|[k' e] d IH]; simpl; [reflexivity|].
  destruct (String.eqb k k'); simpl; [reflexivity | now rewrite IH].
Qed.

Lemma dict_update_new (k : string) (f : entry -> entry) (e : entry)
    (d : patterns_dict) :
  ~ In k (map fst d) ->
  dict_update k f (dict_add k e d) = d ++ [(k, f e)].
Proof.
  unfold dict_add. induction d as [|[k' e'] d IH]; simpl; intros H.
  - now rewrite String.eqb_refl.
  - destruct (String.eqb_spec k k') as [-> | Hne].
    + destruct H. now left.
    + rewrite IH; [reflexivity|]. intros Hin. apply H. now right.
Qed.

Lemma dict_update_Forall (P Q : string * entry -> Prop) (k : string)
    (f : entry -> entry) (d : patterns_dict) :
  NoDup (map fst d) ->
  Forall P d ->
  (forall e, P (k, e) -> Q (k, f e)) ->
  (forall k' e, k' <> k -> P (k', e) -> Q (k', e)) ->
  Forall Q (dict_update k f d).
Proof.
  intros Hnd HP Hk Hother.
  induction d as [|[k' e] d IH]; simpl; [constructor|].
  inversion Hnd as [|? ? Hnotin Hnd']; subst.
  inversion HP as [|? ? HPe HPd]; subst.
  destruct (String.eqb_spec k k') as [-> | Hne].
  - constructor; [now apply Hk|].
    apply Forall_forall. intros [k'' e''] Hin.
    apply Hother.
    + intros ->. apply Hnotin. apply in_map_iff. now exists (k', e'').
    + now apply (proj1 (Forall_forall P d) HPd).
  - constructor; [apply Hother; [congruence | assumption] | now apply IH].
Qed.

(** *** First occurrences *)

Lemma first_seen_In (x : string) (l : list string) :
  In x (first_seen l) <-> In x l.
Proof.
  induction l as [|y l IH]; simpl; [reflexivity|].
  rewrite filter_In, IH, negb_true_iff, String.eqb_neq.
  destruct (string_dec y x) as [-> | Hne]; [tauto|].
  split; [tauto|]. intros [E | H]; [tauto|]. right. split; congruence.
Qed.

Lemma NoDup_filter (A : Type) (p : A -> bool) (l : list A) :
  NoDup l -> NoDup (filter p l).
Proof.
  induction 1 as [|x l Hx Hnd IH]; simpl; [constructor|].
  destruct (p x); [|assumption]. constructor; [|assumption].
  rewrite filter_In. tauto.
Qed.

Lemma first_seen_NoDup (l : list string) : NoDup (first_seen l).
Proof.
  induction l as [|y l IH]; simpl; constructor.
  - rewrite filter_In, String.eqb_refl. intros [_ H]. discriminate H.
  - now apply NoDup_filter.
Qed.

Lemma first_seen_snoc (x : string) (l : list string) :
  first_seen (l ++ [x]) = first_seen l ++ (if mem x l then [] else [x]).
Proof.
  induction l as [|y l IH]; [reflexivity|].
  cbn [app first_seen]. rewrite IH, filter_app. cbn [app]. f_equal. f_equal.
  unfold mem. cbn [existsb]. fold (mem x l).
  destruct (mem x l); [now rewrite orb_true_r|].
  rewrite orb_false_r. cbn [filter].
  destruct (x =? y)%string; reflexivity.
Qed.

Lemma first_seen_snoc_old (x : string) (l : list string) :
  In x l -> first_seen (l ++ [x]) = first_seen l.
Proof.
  intros H. apply mem_spec in H.
  now rewrite first_seen_snoc, H, app_nil_r.
Qed.

Lemma first_seen_snoc_new (x : string) (l : list string) :
  ~ In x l -> first_seen (l ++ [x]) = first_seen l ++ [x].
Proof.
  intros H. rewrite first_seen_snoc.
  destruct (mem x l) eqn:E; [|reflexivity].
  apply mem_spec in E. now destruct H.
Qed.

End Grouping.

Section Mining.

Import PyStr PyStrFacts HistoryStore Spec.

(** *** The grouping loop *)

Lemma messages_snoc_skip (w : list ExecutionResult) (r : ExecutionResult) :
  has_message r = false -> messages (w ++ [r]) = messages w.
Proof.
  intros H. unfold messages. rewrite filter_app. simpl.
  now rewrite H, app_nil_r.
Qed.

Lemma messages_snoc_keep (w : list ExecutionResult) (r : ExecutionResult) :
  has_message r = true -> messages (w ++ [r]) = messages w ++ [message_of r].
Proof.
  intros H. unfold messages. rewrite filter_app. simpl.
  now rewrite H, map_app.
Qed.

Lemma labelled_snoc_same (msgs : list string) (m : string) :
  labelled (msgs ++ [m]) (_extract_pattern_key m)
  = labelled msgs (_extract_pattern_key m) ++ [m].
Proof.
  unfold labelled. rewrite filter_app. simpl. now rewrite String.eqb_refl.
Qed.

Lemma labelled_snoc_other (msgs : list string) (m k : string) :
  k <> _extract_pattern_key m -> labelled (msgs ++ [m]) k = labelled msgs k.
Proof.
  intros H. unfold labelled. rewrite filter_app. simpl.
  destruct (String.eqb_spec (_extract_pattern_key m) k) as [E | _];
    [now destruct H | apply app_nil_r].
Qed.

Lemma labelled_absent (msgs : list string) (k : string) :
  ~ In k (map _extract_pattern_key msgs) -> labelled msgs k = [].
Proof.
  induction msgs as [|m msgs IH]; simpl; [reflexivity|]. intros H.
  destruct (String.eqb_spec (_extract_pattern_key m) k) as [E | _];
    [tauto | apply IH; tauto].
Qed.

Lemma grouped_snoc (w : list ExecutionResult) (r : ExecutionResult) :
  grouped (w ++ [r]) = group_step (grouped w) r.
Proof. unfold grouped. now rewrite fold_left_app. Qed.

(** The dict lists the labels in encounter order, and holds for each
    one the number of its messages and the messages themselves. *)
Lemma grouped_spec (w : list ExecutionResult) :
  map fst (grouped w) = encounter_order (messages w)
  /\ Forall (summarises w) (grouped w).
Proof.
  induction w as [|r w [Hkeys Hall]] using rev_ind.
  - split; [reflexivity | constructor].
  - rewrite grouped_snoc. unfold group_step.
    destruct (has_message r) eqn:Hm.
    + unfold has_message in Hm.
      destruct (error_message r) as [m|] eqn:Em; [|discriminate Hm].
      rewrite Hm. cbn [negb].
      assert (Hmsg : message_of r = m) by (unfold message_of; now rewrite Em).
      set (k := _extract_pattern_key m).
      assert (Hmsgs : messages (w ++ [r]) = messages w ++ [m]).
      { rewrite messages_snoc_keep, Hmsg; [reflexivity|].
        unfold has_message. now rewrite Em. }
      assert (Hnd : NoDup (map fst (grouped w))).
      { rewrite Hkeys. apply first_seen_NoDup. }
      assert (Hold : forall k' e,
                 k' <> k -> summarises w (k', e) ->
                 summarises (w ++ [r]) (k', e)).
      { intros k' e Hne [Hc Hl]. unfold summarises, occurrences in *.
        cbn [fst snd] in *. rewrite Hmsgs.
        now rewrite labelled_snoc_other by exact Hne. }
      assert (Hbump : forall e,
                 e_count e = occurrences (messages w) k ->
                 e_messages e = labelled (messages w) k ->
                 summarises (w ++ [r])
                   (k, record_failure m (started_at r) e)).
      { intros e Hc Hl. unfold summarises, occurrences in *.
        cbn [fst snd record_failure e_count e_messages].
        rewrite Hmsgs. unfold k. rewrite labelled_snoc_same.
        fold k. rewrite Hc, Hl, length_app. cbn [List.length].
        split; [lia | reflexivity]. }
      destruct (dict_has k (grouped w)) eqn:Hhas; cbn [negb].
      * apply dict_has_spec in Hhas. split.
        -- rewrite dict_update_keys, Hkeys. unfold encounter_order.
           rewrite Hmsgs, map_app. cbn [map]. fold k.
           symmetry. apply first_seen_snoc_old.
           rewrite Hkeys in Hhas. unfold encounter_order in Hhas.
           exact (proj1 (first_seen_In _ _) Hhas).
        -- apply dict_update_Forall with (P := summarises w); auto.
           intros e [Hc Hl]. now apply Hbump.
      * apply dict_has_false in Hhas.
        assert (Hfresh : ~ In k (map _extract_pattern_key (messages w))).
        { intros Hin. apply Hhas. rewrite Hkeys. unfold encounter_order.
          exact (proj2 (first_seen_In _ _) Hin). }
        rewrite dict_update_new by exact Hhas. split.
        -- rewrite map_app, Hkeys. unfold encounter_order.
           rewrite Hmsgs, map_app. cbn [map fst]. fold k.
           symmetry. now apply first_seen_snoc_new.
        -- apply Forall_app. split.
           ++ apply Forall_forall. intros [k' e] Hin.
              apply Hold.
              ** intros ->. apply Hhas. apply in_map_iff. now exists (k, e).
              ** now apply (proj1 (Forall_forall _ _) Hall).
           ++ constructor; [|constructor]. apply Hbump.
              ** unfold occurrences. now rewrite labelled_absent.
              ** now rewrite labelled_absent.
    + assert (Hsame : Forall (summarises (w ++ [r])) (grouped w)).
      { eapply Forall_impl; [|exact Hall].
        intros kv. unfold summarises.
        now rewrite messages_snoc_skip by exact Hm. }
      rewrite messages_snoc_skip by exact Hm.
      unfold has_message in Hm.
      destruct (error_message r) as [m|]; [rewrite Hm|]; cbn [negb];
        (split; [exact Hkeys | exact Hsame]).
Qed.

End Mining.

Section FindPatterns.

Import PyStr PyStrFacts HistoryStore Spec.

Lemma filter_and (A : Type) (p q : A -> bool) (l : list A) :
  filter q (filter p l) = filter (fun x => p x && q x) l.
Proof.
  induction l as [|x l IH]; simpl; [reflexivity|].
  destruct (p x); simpl; [destruct (q x); now rewrite IH | exact IH].
Qed.

(** The records the miner reads are the failed records of the workflow,
    most recent first, cut after the 50th. *)
Lemma window_eq (d : db) (name : string) :
  name <> "" ->
  get_executions d (Some name) (Some FAILED) 50
  = firstn 50 (sort_desc started_at (failed_of d name)).
Proof.
  intros Hname. unfold get_executions, failed_of, sql_limit.
  destruct name as [|c name]; [now destruct Hname|].
  cbn [truthy]. now rewrite filter_and.
Qed.

Lemma window_spec (d : db) (name : string) :
  name <> "" ->
  exists older,
    Permutation (get_executions d (Some name) (Some FAILED) 50 ++ older)
                (failed_of d name)
    /\ StronglySorted recent_first
         (get_executions d (Some name) (Some FAILED) 50 ++ older)
    /\ List.length (get_executions d (Some name) (Some FAILED) 50)
       = Nat.min 50 (List.length (failed_of d name)).
Proof.
  intros Hname. rewrite (window_eq d Hname).
  exists (skipn 50 (sort_desc started_at (failed_of d name))).
  rewrite firstn_skipn. repeat split.
  - symmetry. apply sort_desc_perm.
  - apply sort_desc_sorted.
  - rewrite length_firstn.
    now rewrite <- (Permutation_length (sort_desc_perm started_at _)).
Qed.

(** The miner's answer in terms of the dict the loop builds. *)
Lemma patterns_eq (d : db) (name : string) (min_count : Z) :
  get_failure_patterns d name min_count
  = sort_desc count
      (map to_pattern
         (filter (fun kv => (e_count (snd kv) >=? min_count)%Z)
                 (grouped (get_executions d (Some name) (Some FAILED) 50)))).
Proof.
  unfold get_failure_patterns, grouped.
  destruct (get_executions d (Some name) (Some FAILED) 50); reflexivity.
Qed.

Lemma NoDup_keys_filter (p : string * entry -> bool) (g : patterns_dict) :
  NoDup (map fst g) -> NoDup (map fst (filter p g)).
Proof.
  induction g as [|kv g IH]; simpl; [constructor|]. intros Hnd.
  inversion Hnd as [|? ? Hnotin Hnd']; subst.
  destruct (p kv); simpl; [|now apply IH].
  constructor; [|now apply IH].
  intros Hin. apply Hnotin. apply in_map_iff in Hin as [kv' [E Hin]].
  apply filter_In in Hin as [Hin _]. apply in_map_iff. now exists kv'.
Qed.

Lemma keys_filter_counts (w : list ExecutionResult) (P : Z -> bool)
    (g : patterns_dict) :
  Forall (summarises w) g ->
  map fst (filter (fun kv => P (e_count (snd kv))) g)
  = filter (fun k => P (occurrences (messages w) k)) (map fst g).
Proof.
  induction 1 as [|kv g [Hc _] _ IH]; simpl; [reflexivity|].
  rewrite Hc. destruct (P _); simpl; now rewrite IH.
Qed.

End FindPatterns.

(** C8.  The label of a message is the label of the first row of the
    keyword table (timeout, network, permission, not-found, rate-limit,
    auth, syntax, dependency) one of whose keywords occurs in the
    lower-cased message; when no row matches, it is the lower-cased
    first whitespace-delimited token of the message (["unknown"] for a
    blank message).  In particular a message in which ["timeout"] occurs
    is labelled [timeout] whatever else occurs in it, and three failures
    with the messages ["Connection timeout"], ["Request timeout"] and
    ["Permission denied"], mined with [min_count = 2], give exactly one
    pattern, labelled [timeout], with count 2. *)
Theorem C8_pattern_label :
  (forall msg,
      match Spec.table_label (PyStr.lower msg) with
      | Some label => HistoryStore._extract_pattern_key msg = label
      | None =>
          (forall tok, PyStr.first_token msg tok ->
                       HistoryStore._extract_pattern_key msg = PyStr.lower tok)
          /\ (PyStr.all_space msg = true ->
              HistoryStore._extract_pattern_key msg = "unknown")
      end)
  /\ (forall msg,
        PyStr.substring_of "timeout" (PyStr.lower msg) ->
        HistoryStore._extract_pattern_key msg = "timeout")
  /\ HistoryStore._extract_pattern_key "Connection timeout" = "timeout"
  /\ (forall (name : string) (t1 t2 t3 : Z) (d1 d2 d3 : option Q),
        exists p,
          HistoryStore.get_failure_patterns
            [Sample.row name FAILED t1 d1 (Some "Connection timeout");
             Sample.row name FAILED t2 d2 (Some "Request timeout");
             Sample.row name FAILED t3 d3 (Some "Permission denied")] name 2
          = [p]
          /\ pattern_type p = "timeout" /\ count p = 2%Z).
Proof.
  split; [exact pattern_key_table|].
  split; [exact pattern_key_timeout|].
  split; [reflexivity|].
  intros name t1 t2 t3 d1 d2 d3.
  unfold HistoryStore.get_failure_patterns, HistoryStore.get_executions,
    Sample.row.
  assert (Hf : forall l,
             Forall (fun r => workflow_name r = name) l ->
             (if PyStr.truthy name
              then filter (fun r => String.eqb (workflow_name r) name) l
              else l) = l).
  { intros l Hl. destruct (PyStr.truthy name); [|reflexivity].
    induction Hl as [|r l Hr _ IH]; simpl; [reflexivity|].
    now rewrite Hr, String.eqb_refl, IH. }
  rewrite Hf by (repeat constructor). clear Hf.
  cbn [filter status status_eqb].
  unfold HistoryStore.sql_limit. cbn [Z.ltb Z.compare].
  change (Z.to_nat 50) with 50.
  cbn [HistoryStore.sort_desc fold_right HistoryStore.insert_desc started_at].
  destruct (t3 <=? t2)%Z; cbn [HistoryStore.insert_desc started_at];
    destruct (t3 <=? t1)%Z; cbn [HistoryStore.insert_desc started_at];
    destruct (t2 <=? t1)%Z; cbn [HistoryStore.insert_desc started_at];
    cbn [firstn];
    (eexists; split; [vm_compute; reflexivity | split; reflexivity]).
Qed.

(** A message with both [timeout] and [connection] in it. *)
Lemma C8_witness :
  HistoryStore._extract_pattern_key "Timeout: connection to db lost"
  = "timeout".
Proof.
  destruct C8_pattern_label as (_ & Htimeout & _).
  apply Htimeout. exists "", ": connection to db lost". reflexivity.
Defined.

(** The records the miner reads, for every name: the failed records in
    scope, most recent first, cut after the 50th. *)
Lemma window_in_scope (d : HistoryStore.db) (name : string) :
  HistoryStore.get_executions d (Some name) (Some FAILED) 50
  = firstn 50 (HistoryStore.sort_desc started_at (Window.in_scope d name)).
Proof.
  unfold HistoryStore.get_executions, Window.in_scope, Spec.failed_of,
    HistoryStore.sql_limit.
  destruct (PyStr.truthy name); [now rewrite filter_and | reflexivity].
Qed.

Lemma window_scope_spec (d : HistoryStore.db) (name : string) :
  exists older,
    Permutation
      (HistoryStore.get_executions d (Some name) (Some FAILED) 50 ++ older)
      (Window.in_scope d name)
    /\ StronglySorted Spec.recent_first
         (HistoryStore.get_executions d (Some name) (Some FAILED) 50 ++ older)
    /\ List.length (HistoryStore.get_executions d (Some name) (Some FAILED) 50)
       = Nat.min 50 (List.length (Window.in_scope d name)).
Proof.
  rewrite window_in_scope.
  exists (skipn 50 (HistoryStore.sort_desc started_at
                      (Window.in_scope d name))).
  rewrite firstn_skipn. repeat split.
  - symmetry. apply sort_desc_perm.
  - apply sort_desc_sorted.
  - rewrite length_firstn.
    now rewrite <- (Permutation_length (sort_desc_perm started_at _)).
Qed.

(** C9 as stated fails in two places.  It has the miner look at the 50
    most recent failures that carry a message: after two timeouts and
    50 later failures without a message, those would be the two
    timeouts, and the label [timeout], met twice, would survive
    [min_count = 2]; the miner returns nothing, because it takes the 50
    most recent failures first and only then leaves out the ones without
    a message.  And it has the miner look at the records of the workflow
    only: for the empty name, which no record carries, it mines the
    failures of every workflow. *)
Lemma C9_counterexample :
  HistoryStore.get_failure_patterns Cases.silent_tail "sync" 2 = []
  /\ Spec.occurrences
       (Spec.messages (Window.with_message_first Cases.silent_tail "sync"))
       "timeout" = 2%Z
  /\ HistoryStore.get_failure_patterns Cases.two_workflows "" 2
     = [mkFailurePattern "timeout" 2%Z 20%Z
          ["Request timeout"; "Connection timeout"]]
  /\ Spec.failed_of Cases.two_workflows "" = [].
Proof.
  repeat split; vm_compute; reflexivity.
Qed.

(** C9, amended.  Let the window be what [get_failure_patterns] reads:
    the failed records of the workflow, or of every workflow when the
    name is empty, most recent first, cut after the 50th; and let the
    messages be the non-empty error messages of the window, in that
    order.  Every pattern returned has as count the number of messages
    with its label, a count of at least [min_count], and as examples the
    first 5 of those messages in order.  Every label met at least
    [min_count] times is returned, once.  The patterns come sorted by
    count, largest first, and those of equal count stand in the order in
    which their labels were first met. *)
Theorem C9_find_patterns :
  forall (d : HistoryStore.db) (name : string) (min_count : Z),
    let window := HistoryStore.get_executions d (Some name) (Some FAILED) 50 in
    let msgs := Spec.messages window in
    let result := HistoryStore.get_failure_patterns d name min_count in
    (exists older,
        Permutation (window ++ older) (Window.in_scope d name)
        /\ StronglySorted Spec.recent_first (window ++ older)
        /\ List.length window
           = Nat.min 50 (List.length (Window.in_scope d name)))
    /\ (name <> "" -> Window.in_scope d name = Spec.failed_of d name)
    /\ (forall r, In r (Window.in_scope d "")
                  <-> In r d /\ status r = FAILED)
    /\ (forall p,
          In p result ->
          count p = Spec.occurrences msgs (pattern_type p)
          /\ (min_count <= count p)%Z
          /\ error_messages p
             = firstn 5 (Spec.labelled msgs (pattern_type p)))
    /\ (forall m,
          In m msgs ->
          (min_count
           <= Spec.occurrences msgs (HistoryStore._extract_pattern_key m))%Z ->
          In (HistoryStore._extract_pattern_key m) (map pattern_type result))
    /\ NoDup (map pattern_type result)
    /\ StronglySorted (fun p q => (count q <= count p)%Z) result
    /\ (forall c,
          map pattern_type (filter (fun p => (count p =? c)%Z) result)
          = filter (fun k => (Spec.occurrences msgs k =? c)%Z
                             && (Spec.occurrences msgs k >=? min_count)%Z)
                   (Spec.encounter_order msgs)).
Proof.
  intros d name min_count window msgs result.
  destruct (grouped_spec window) as [Hkeys Hall].
  assert (Hnd : NoDup (map fst (Spec.grouped window))).
  { rewrite Hkeys. apply first_seen_NoDup. }
  assert (Hres : result
                 = HistoryStore.sort_desc count
                     (map HistoryStore.to_pattern
                        (filter (fun kv => (HistoryStore.e_count (snd kv)
                                            >=? min_count)%Z)
                                (Spec.grouped window))))
    by apply patterns_eq.
  set (kept := filter (fun kv => (HistoryStore.e_count (snd kv)
                                  >=? min_count)%Z)
                      (Spec.grouped window)) in *.
  assert (Hperm : Permutation (map HistoryStore.to_pattern kept) result).
  { rewrite Hres. apply sort_desc_perm. }
  assert (Htypes : map pattern_type (map HistoryStore.to_pattern kept)
                   = map fst kept).
  { rewrite map_map. apply map_ext. now intros [k e]. }
  split; [apply window_scope_spec|].
  split.
  { intros Hname. unfold Window.in_scope.
    destruct name as [|c name]; [now destruct Hname | reflexivity]. }
  split.
  { intros r. unfold Window.in_scope. cbn [PyStr.truthy].
    rewrite filter_In. split; intros [Hin Hst]; (split; [exact Hin|]).
    - destruct (status r); (reflexivity || discriminate Hst).
    - now rewrite Hst. }
  split; [|split; [|split; [|split]]].
  - intros p Hp. apply (Permutation_in _ (Permutation_sym Hperm)) in Hp.
    apply in_map_iff in Hp as [[k e] [<- Hin]].
    apply filter_In in Hin as [Hin Hge].
    destruct (proj1 (Forall_forall _ _) Hall _ Hin) as [Hc Hl].
    cbn [fst snd] in *. cbn [HistoryStore.to_pattern pattern_type count
                             error_messages fst snd].
    apply Z.geb_le in Hge. rewrite Hl.
    repeat split; [exact Hc | exact Hge].
  - intros m Hm Hocc.
    set (k := HistoryStore._extract_pattern_key m) in *.
    assert (Hk : In k (map fst (Spec.grouped window))).
    { rewrite Hkeys. unfold Spec.encounter_order.
      apply first_seen_In. now apply in_map. }
    apply in_map_iff in Hk as [[k' e] [Ek Hin]]. cbn [fst] in Ek. subst k'.
    destruct (proj1 (Forall_forall _ _) Hall _ Hin) as [Hc _].
    cbn [fst snd] in Hc.
    rewrite <- (Permutation_map pattern_type Hperm), Htypes.
    apply in_map_iff. exists (k, e). split; [reflexivity|].
    apply filter_In. split; [exact Hin|]. cbn [snd].
    apply Z.geb_le. rewrite Hc. exact Hocc.
  - rewrite <- (Permutation_map pattern_type Hperm), Htypes.
    now apply NoDup_keys_filter.
  - rewrite Hres. apply sort_desc_sorted.
  - intros c. rewrite Hres, sort_desc_stable.
    assert (Hf : filter (fun p => (count p =? c)%Z)
                        (map HistoryStore.to_pattern kept)
                 = map HistoryStore.to_pattern
                       (filter (fun kv => (HistoryStore.e_count (snd kv)
                                           =? c)%Z) kept)).
    { clear. induction kept as [|kv l IH]; simpl; [reflexivity|].
      destruct (HistoryStore.e_count (snd kv) =? c)%Z; simpl;
        now rewrite IH. }
    rewrite Hf, map_map. unfold kept. rewrite filter_and.
    rewrite (map_ext (fun kv => pattern_type (HistoryStore.to_pattern kv)) fst)
      by now intros [k e].
    rewrite (keys_filter_counts
               (fun n => (n >=? min_count)%Z && (n =? c)%Z) Hall).
    rewrite Hkeys. apply filter_ext. intros k. apply andb_comm.
Qed.

(** Three failures mined with [min_count = 1]: the one label met once;
    and the failures of two workflows mined under the empty name. *)
Lemma C9_witness :
  map pattern_type
      (filter (fun p => (count p =? 1)%Z)
         (HistoryStore.get_failure_patterns Sample.three_failures "sync" 1))
  = ["permission_error"]
  /\ exists older,
       Permutation
         (HistoryStore.get_executions Cases.two_workflows (Some "")
            (Some FAILED) 50 ++ older)
         (Window.in_scope Cases.two_workflows "").
Proof.
  split.
  - destruct (C9_find_patterns Sample.three_failures "sync" 1%Z)
      as (_ & _ & _ & _ & _ & _ & _ & Hties).
    exact (Hties 1%Z).
  - destruct (C9_find_patterns Cases.two_workflows "" 2%Z)
      as ((older & Hperm & _) & _).
    exists older. exact Hperm.
Defined.

(* ================================================================== *)
(** * Further properties of the code *)

(** ** What the runners do and do not ask of the system *)

Section RunnerTraces.

Import Eff Spec Trace.

Variable o : Oracle.

Ltac negb_tests :=
  repeat match goal with
         | H : negb ?b = _ |- _ =>
             destruct b; cbn [negb] in H; try discriminate H; clear H
         end.

Ltac unfold_runners :=
  unfold BashExecutor.execute, BashExecutor.execute_body,
    BashExecutor.execute_handler,
    PythonExecutor.execute, PythonExecutor.execute_body,
    PythonExecutor.execute_script, PythonExecutor.execute_handler,
    PythonExecutor._install_requirements.

Lemma bash_rejected (self : BashExecutor.t) (command : string)
    (wd : option string) (timeout : option Z)
    (env_vars : option (list (string * string))) (s : State)
    (reason : option string) :
  BashExecutor._is_command_allowed self command = Ok (false, reason) ->
  BashExecutor.execute self command wd timeout env_vars o s
  = (Ok (mkToolResult false None
           (Some ("Command blocked: " ++ BashExecutor.fmt_opt reason)%string)
           None
           (Some (o_clock o (S (st_ticks s)) - o_clock o (st_ticks s))%Q)),
     mkState (S (S (st_ticks s))) (st_nows s) (st_trace s) (st_process s)
             (st_timeout_val s)).
Proof.
  intros Hg. destruct s as [tk nw tr pr tv].
  unfold BashExecutor.execute. eff. rewrite Hg. reflexivity.
Qed.

(** X1.  A command that the gate allows but that is to run in a
    directory that does not exist fails with ["Working directory does
    not exist: "] and the directory, and no process is spawned: the
    trace is left as it was. *)
Lemma bash_missing_dir (self : BashExecutor.t) (command d : string)
    (timeout : option Z) (env_vars : option (list (string * string)))
    (s : State) (reason : option string) :
  BashExecutor._is_command_allowed self command = Ok (true, reason) ->
  d <> "" ->
  o_exists o d = Ok false ->
  BashExecutor.execute self command (Some d) timeout env_vars o s
  = (Ok (mkToolResult false None
           (Some ("Working directory does not exist: " ++ d)%string) None
           (Some (o_clock o (S (st_ticks s)) - o_clock o (st_ticks s))%Q)),
     mkState (S (S (st_ticks s))) (st_nows s) (st_trace s) (st_process s)
             (st_timeout_val s)).
Proof.
  intros Hg Hd Hex. destruct s as [tk nw tr pr tv].
  destruct d as [|c d]; [now destruct Hd|].
  unfold BashExecutor.execute. eff. rewrite Hg. eff.
  cbn [path_of PyStr.truthy]. eff. rewrite Hex. reflexivity.
Qed.

(** X2.  The shell runner spawns a process only for a command that the
    gate has allowed and, when a working directory is given, only when
    that directory exists. *)
Lemma bash_spawn_needs_verdict (self : BashExecutor.t) (command : string)
    (wd : option string) (timeout : option Z)
    (env_vars : option (list (string * string))) :
  happened (is_spawn Payload)
    (st_trace (snd (run (BashExecutor.execute self command wd timeout
                           env_vars) o))) = true ->
  bash_reaches_spawn self command wd o.
Proof.
  unfold bash_reaches_spawn. unfold_runners.
  eff_cases; cbn; intros H; try discriminate H; negb_tests;
    (split; [now eexists | intros ? E; congruence]).
Qed.

(** X3.  The shell runner kills only a process that it has spawned and
    whose wait ran into the timeout. *)
Lemma bash_kill_needs_timeout (self : BashExecutor.t) (command : string)
    (wd : option string) (timeout : option Z)
    (env_vars : option (list (string * string))) :
  happened is_kill
    (st_trace (snd (run (BashExecutor.execute self command wd timeout
                           env_vars) o))) = true ->
  exists e, o_spawn o Payload = Ok tt
            /\ o_communicate o Payload = Raise e
            /\ is_timeout e = true.
Proof.
  unfold_runners.
  eff_cases; cbn; intros H; try discriminate H;
    repeat match goal with u : unit |- _ => destruct u end; eauto.
Qed.

(** X4.  The interpreter runner kills only the script's process, and
    only when the wait for it ran into the timeout; the installer is
    never killed. *)
Lemma python_kill_needs_timeout (self : PythonExecutor.t) (code : string)
    (timeout : option Z) (requirements : option (list string))
    (wd : option string) :
  happened is_kill
    (st_trace (snd (run (PythonExecutor.execute self code timeout
                           requirements wd) o))) = true ->
  exists e, o_spawn o Payload = Ok tt
            /\ o_communicate o Payload = Raise e
            /\ is_timeout e = true.
Proof.
  unfold_runners.
  eff_cases; cbn; intros H; try discriminate H;
    repeat match goal with u : unit |- _ => destruct u end; eauto.
Qed.

End RunnerTraces.

Section GateDefaults.

Import PyStr PyStrFacts BashExecutor.

Lemma gate_denies (g : t) (command pattern : string) :
  In pattern (denied_commands g) ->
  substring_of pattern command ->
  exists matched,
    In matched (denied_commands g)
    /\ substring_of matched command
    /\ _is_command_allowed g command
       = Ok (false, Some ("Denied command pattern: " ++ matched)%string).
Proof.
  intros Hin Hsub. unfold _is_command_allowed.
  destruct (find (fun denied => contains denied command) (denied_commands g))
    as [d|] eqn:E.
  - apply find_some in E as [Hd Hc]. exists d.
    apply contains_spec in Hc. now repeat split.
  - apply (find_none _ _ E) in Hin. apply contains_false in Hin.
    now destruct Hin.
Qed.

(** X5.  An empty deny-list is replaced by the default one: the executor
    built with [denied_commands=[]] still turns away every command in
    which a default pattern occurs. *)
Lemma empty_deny_list_is_default (dt : option Z)
    (allowed : option (list string)) (command pattern : string) :
  In pattern default_denied ->
  substring_of pattern command ->
  exists matched,
    In matched default_denied
    /\ _is_command_allowed (init dt allowed (Some [])) command
       = Ok (false, Some ("Denied command pattern: " ++ matched)%string).
Proof.
  intros Hin Hsub.
  destruct (@gate_denies (init dt allowed (Some [])) command pattern)
    as (m & Hm & _ & Hg); [exact Hin | exact Hsub |].
  exists m. split; [exact Hm | exact Hg].
Qed.

End GateDefaults.

Section PythonCleanup.

Import Eff Spec Trace.

Variable o : Oracle.

Ltac unfold_python :=
  unfold PythonExecutor.execute, PythonExecutor.execute_body,
    PythonExecutor.execute_script, PythonExecutor.execute_handler,
    PythonExecutor._install_requirements.

(** X6.  Once the temporary script is written, every path through the
    interpreter runner ends with the one attempt to remove it. *)
Lemma python_cleanup (self : PythonExecutor.t) (code : string)
    (timeout : option Z) (requirements : option (list string))
    (wd : option string) (path : string) :
  o_mktemp o = Ok path ->
  let trace := st_trace (snd (run (PythonExecutor.execute self code timeout
                                     requirements wd) o)) in
  hd_error trace = Some (EvWriteTemp path code)
  /\ last trace (EvWriteTemp path code) = EvUnlink path
  /\ List.length (filter is_unlink trace) = 1.
Proof.
  intros Hmk. unfold_python. eff. rewrite Hmk.
  eff_cases; cbn; repeat split.
Qed.

(** X7.  When the temporary script cannot be written, the exception
    leaves the runner and nothing else was asked of the system. *)
Lemma python_mktemp_fails (self : PythonExecutor.t) (code : string)
    (timeout : option Z) (requirements : option (list string))
    (wd : option string) (e : exn) :
  o_mktemp o = Raise e ->
  run (PythonExecutor.execute self code timeout requirements wd) o
  = (Raise e, mkState 1 0 [] None None).
Proof.
  intros Hmk. unfold_python. eff. rewrite Hmk. reflexivity.
Qed.


End PythonCleanup.

Section UnlinkSwallowed.

Import Eff Spec Trace.

(** X9.  Whatever the removal of the temporary file answers, the
    interpreter runner returns the same result. *)
Lemma python_unlink_swallowed (o : Oracle) (u : result unit)
    (self : PythonExecutor.t) (code : string) (timeout : option Z)
    (requirements : option (list string)) (wd : option string) :
  fst (run (PythonExecutor.execute self code timeout requirements wd)
           (with_unlink o u))
  = fst (run (PythonExecutor.execute self code timeout requirements wd) o).
Proof.
  destruct o. unfold with_unlink.
  unfold PythonExecutor.execute, PythonExecutor.execute_body,
    PythonExecutor.execute_script, PythonExecutor.execute_handler,
    PythonExecutor._install_requirements.
  repeat (eff;
          cbn [o_clock o_now o_exists o_getcwd o_mktemp o_unlink o_spawn
               o_communicate o_kill o_wait o_decode o_sys_executable
               o_environ];
          match goal with
          | |- context [match ?x with _ => _ end] => destruct_scrutinee x
          end);
    reflexivity.
Qed.

End UnlinkSwallowed.

(** ** What the coordinator reports *)

Section CoordinatorReports.

Import Eff Spec Trace.

Variable o : Oracle.
Variable agent : ExecutorAgent.t.
Variables workflow code : string.
Variable timeout : option Z.
Variable wd : option string.

Ltac unfold_all :=
  unfold ExecutorAgent.execute_workflow, ExecutorAgent.convert,
    BashExecutor.execute, BashExecutor.execute_body,
    BashExecutor.execute_handler,
    PythonExecutor.execute, PythonExecutor.execute_body,
    PythonExecutor.execute_script, PythonExecutor.execute_handler.

(** X10.  The coordinator only ever reports [SUCCESS] or [FAILED]; a run
    that timed out is [FAILED] like any other failure. *)
Lemma coordinator_two_statuses (language : string) :
  exists er s',
    run (ExecutorAgent.execute_workflow agent workflow code language
           timeout wd) o = (Ok er, s')
    /\ (status er = SUCCESS \/ status er = FAILED).
Proof.
  unfold_all. eff_cases.
  all: do 2 eexists; split; [reflexivity|]; cbn; auto.
Qed.

(** X11.  A result carries an error message exactly when it is [FAILED];
    a [SUCCESS] carries no stderr either, whatever the process wrote
    there, and has its stdout, exit code and duration. *)
Lemma coordinator_error_message (language : string) :
  exists er s',
    run (ExecutorAgent.execute_workflow agent workflow code language
           timeout wd) o = (Ok er, s')
    /\ (error_message er = None <-> status er = SUCCESS)
    /\ (status er = SUCCESS ->
        stderr er = None /\ stdout er <> None
        /\ exit_code er = Some 0%Z /\ exec_duration er <> None).
Proof.
  unfold_all. eff_cases.
  all: do 2 eexists; split; [reflexivity|]; cbn.
  all: repeat match goal with
              | H : (_ =? _)%Z = true |- _ => apply Z.eqb_eq in H; subst
              end.
  all: split; [split; intros H; (reflexivity || discriminate H)
              | intros H; try discriminate H;
                repeat split; discriminate].
Qed.

(** With a wall clock that does not run backwards, no result finishes
    before it started. *)
Lemma coordinator_timestamps (language : string) (s : State) :
  monotone_now o ->
  exists er s',
    ExecutorAgent.execute_workflow agent workflow code language timeout wd o s
    = (Ok er, s')
    /\ exists finished,
         finished_at er = Some finished /\ (started_at er <= finished)%Z.
Proof.
  intros Hmono.
  destruct (coordinator_total o agent workflow code timeout wd language s)
    as (er & s' & Hrun & Hstart & Hfin).
  exists er, s'. split; [exact Hrun|].
  eexists. split; [exact Hfin|]. rewrite Hstart. apply Hmono.
Qed.

(** X12.  A command that the gate turns away fails without anything
    being asked of the system: the result has the gate's reason, no exit
    code and no output. *)
Lemma coordinator_blocked (reason : option string) :
  BashExecutor._is_command_allowed (ExecutorAgent.bash_executor agent) code
  = Ok (false, reason) ->
  run (ExecutorAgent.execute_workflow agent workflow code BASH timeout wd) o
  = (Ok (mkExecutionResult workflow FAILED (o_now o 0) (Some (o_now o 1))
           (Some (o_clock o 1 - o_clock o 0)%Q) None None
           (Some ("Command blocked: " ++ BashExecutor.fmt_opt reason)%string)
           (Some ("Command blocked: " ++ BashExecutor.fmt_opt reason)%string)),
     mkState 2 2 [] None None).
Proof.
  intros Hg. unfold ExecutorAgent.execute_workflow, ExecutorAgent.convert.
  change (BASH =? BASH)%string with true. eff.
  rewrite bash_rejected with (reason := reason) by exact Hg. reflexivity.
Qed.

End CoordinatorReports.

Section Durations.

Import Eff Spec Trace.

Variable o : Oracle.
Hypothesis Hmono : monotone_clock o.

Lemma clock_le (n m : nat) : n <= m -> (o_clock o n <= o_clock o m)%Q.
Proof.
  induction 1 as [|m _ IH]; [apply Qle_refl|].
  eapply Qle_trans; [exact IH | apply Hmono].
Qed.

Lemma elapsed_nonneg (n m : nat) :
  n <= m -> (0 <= o_clock o m - o_clock o n)%Q.
Proof.
  intros H. apply (proj1 (Qle_minus_iff _ _)). now apply clock_le.
Qed.

(** X13.  With a clock that does not run backwards, every duration
    reported by the shell runner is non-negative. *)
Lemma bash_duration_nonneg (self : BashExecutor.t) (command : string)
    (wd : option string) (timeout : option Z)
    (env_vars : option (list (string * string))) (s : State)
    (tr : ToolResult) :
  fst (BashExecutor.execute self command wd timeout env_vars o s) = Ok tr ->
  exists q, duration tr = Some q /\ (0 <= q)%Q.
Proof.
  destruct s as [tk nw trc pr tv].
  unfold BashExecutor.execute, BashExecutor.execute_body,
    BashExecutor.execute_handler.
  eff_cases; intros H; try discriminate H; injection H as <-;
    (eexists; split; [reflexivity | apply elapsed_nonneg; lia]).
Qed.


End Durations.

(** ** Queries on the history *)

Section Queries.

Import HistoryStore Spec History.

Lemma get_executions_eq (d : db) (name : option string)
    (st : option WorkflowStatus) (limit : Z) :
  get_executions d name st limit
  = sql_limit limit (sort_desc started_at (filter (passes name st) d)).
Proof.
  unfold get_executions, passes. f_equal. f_equal.
  destruct name as [n|]; [destruct (PyStr.truthy n)|]; destruct st as [s|];
    cbn [andb]; rewrite ?filter_and;
    try reflexivity;
    try (apply filter_ext; intros r; now rewrite ?andb_true_r);
    induction d as [|r d IH]; cbn; congruence.
Qed.

Lemma firstn_In (A : Type) (n : nat) (l : list A) (x : A) :
  In x (firstn n l) -> In x l.
Proof.
  intros H. rewrite <- (firstn_skipn n l). apply in_or_app. now left.
Qed.

Lemma firstn_sorted (A : Type) (R : A -> A -> Prop) (n : nat) (l : list A) :
  StronglySorted R l -> StronglySorted R (firstn n l).
Proof.
  intros H. revert n. induction H as [|x l Hs IH Hx]; intros [|n]; simpl;
    try constructor.
  - apply IH.
  - apply Forall_forall. intros y Hy.
    apply (proj1 (Forall_forall _ _) Hx). now apply firstn_In in Hy.
Qed.

Lemma sql_limit_In (A : Type) (n : Z) (l : list A) (x : A) :
  In x (sql_limit n l) -> In x l.
Proof.
  unfold sql_limit. destruct (n <? 0)%Z; [easy | apply firstn_In].
Qed.

Lemma get_executions_rows (d : db) (name : option string)
    (st : option WorkflowStatus) (limit : Z) :
  (forall r, In r (get_executions d name st limit) ->
             In r d /\ passes name st r = true)
  /\ ((0 <= limit)%Z ->
      List.length (get_executions d name st limit) <= Z.to_nat limit).
Proof.
  rewrite get_executions_eq. split.
  - intros r H. apply sql_limit_In in H.
    apply (Permutation_in _ (Permutation_sym (sort_desc_perm _ _))) in H.
    now apply filter_In in H.
  - intros Hlim. unfold sql_limit.
    destruct (limit <? 0)%Z eqn:E; [apply Z.ltb_lt in E; lia|].
    rewrite length_firstn. lia.
Qed.

(** X15.  What a query returns: rows of the table that pass the filters,
    most recent first, no more than [limit] of them, and all of them
    when [limit] is negative or large enough. *)
Lemma get_executions_spec (d : db) (name : option string)
    (st : option WorkflowStatus) (limit : Z) :
  let res := get_executions d name st limit in
  (forall r, In r res -> In r d /\ passes name st r = true)
  /\ StronglySorted recent_first res
  /\ ((0 <= limit)%Z -> List.length res <= Z.to_nat limit)
  /\ ((limit < 0)%Z
      \/ (Z.of_nat (List.length (filter (passes name st) d)) <= limit)%Z ->
      Permutation res (filter (passes name st) d)).
Proof.
  cbv zeta.
  destruct (get_executions_rows d name st limit) as [Hrows Hlen].
  split; [exact Hrows|]. split; [|split; [exact Hlen|]].
  - rewrite get_executions_eq. unfold sql_limit.
    destruct (limit <? 0)%Z;
      [apply sort_desc_sorted | apply firstn_sorted, sort_desc_sorted].
  - rewrite get_executions_eq. unfold sql_limit.
    set (sorted := sort_desc started_at (filter (passes name st) d)).
    assert (Hperm : Permutation (filter (passes name st) d) sorted)
      by apply sort_desc_perm.
    intros Hall. destruct (limit <? 0)%Z eqn:E; [now symmetry|].
    apply Z.ltb_ge in E. destruct Hall as [Hneg | Hbig]; [lia|].
    rewrite firstn_all2; [now symmetry|].
    rewrite <- (Permutation_length Hperm). lia.
Qed.

(** A record newer than every row of the table comes first. *)
Lemma sort_desc_newest (l : list ExecutionResult) (r : ExecutionResult) :
  (forall x, In x l -> (started_at x < started_at r)%Z) ->
  sort_desc started_at (l ++ [r]) = r :: sort_desc started_at l.
Proof.
  induction l as [|x l IH]; intros H; [reflexivity|].
  cbn [app sort_desc fold_right].
  fold (sort_desc started_at (l ++ [r])). fold (sort_desc started_at l).
  rewrite IH by (intros y Hy; apply H; now right).
  cbn [insert_desc].
  assert (Hx : (started_at x < started_at r)%Z) by (apply H; now left).
  destruct (started_at r <=? started_at x)%Z eqn:E; [|reflexivity].
  apply Z.leb_le in E. lia.
Qed.

(** X16.  A query whose filters a newly saved record passes lists it,
    and lists it first when it is the most recent run. *)
Lemma save_then_query (d : db) (r : ExecutionResult) (name : option string)
    (st : option WorkflowStatus) (limit : Z) :
  passes name st r = true ->
  (1 <= limit)%Z ->
  (forall x, In x d -> (started_at x < started_at r)%Z) ->
  hd_error (get_executions (fst (save_execution d r)) name st limit)
  = Some r.
Proof.
  intros Hpass Hlim Hnew.
  cbn [save_execution fst]. rewrite get_executions_eq, filter_app.
  cbn [filter]. rewrite Hpass.
  rewrite sort_desc_newest.
  - unfold sql_limit. destruct (limit <? 0)%Z; [reflexivity|].
    destruct (Z.to_nat limit) eqn:E; [lia | reflexivity].
  - intros x Hx. apply Hnew. now apply filter_In in Hx.
Qed.

End Queries.

(** ** Statistics and saving *)

Section StatsMore.

Import HistoryStore Spec History.

Lemma successes_le_rows (d : db) (name : string) :
  (0 <= sql_count (successes_of d name) <= sql_count (rows_of d name))%Z.
Proof.
  unfold sql_count, successes_of, rows_of.
  pose proof (filter_split_length
                (fun r => String.eqb (workflow_name r) name)
                (fun r => status_eqb (status r) SUCCESS) d) as H.
  cbv beta in H. lia.
Qed.

(** X17.  The counts of the statistics lie between 0 and the total, and
    the success rate is a percentage. *)
Lemma get_stats_bounds (d : db) (name : string) :
  exists st,
    get_stats d name = Ok st
    /\ (0 <= successful st <= total_executions st)%Z
    /\ (0 <= failed st <= total_executions st)%Z
    /\ (0 <= success_rate st <= 100)%Q.
Proof.
  eexists. split; [apply get_stats_total|].
  cbn [total_executions successful failed success_rate].
  pose proof (successes_le_rows d name) as [H0 Hle].
  set (t := sql_count (rows_of d name)) in *.
  set (s := sql_count (successes_of d name)) in *.
  split; [lia|]. split; [lia|].
  destruct (t >? 0)%Z eqn:Ht; [|split; [apply Qle_refl | discriminate]].
  apply Z.gtb_lt in Ht.
  assert (Hpos : (0 < inject_Z t)%Q).
  { change 0%Q with (inject_Z 0). rewrite <- Zlt_Qlt. exact Ht. }
  assert (Hlo : (0 <= inject_Z s / inject_Z t)%Q).
  { apply Qle_shift_div_l; [exact Hpos|]. rewrite Qmult_0_l.
    change 0%Q with (inject_Z 0). now rewrite <- Zle_Qle. }
  assert (Hhi : (inject_Z s / inject_Z t <= 1)%Q).
  { apply Qle_shift_div_r; [exact Hpos|]. rewrite Qmult_1_l.
    now rewrite <- Zle_Qle. }
  split.
  - apply Qmult_le_0_compat; [exact Hlo | discriminate].
  - setoid_replace 100%Q with (1 * 100)%Q by reflexivity.
    apply Qmult_le_compat_r; [exact Hhi | discriminate].
Qed.


End StatsMore.

(** ** The shape of the mined patterns *)

Section PatternShape.

Import PyStr PyStrFacts HistoryStore Spec History.






(** *** The time a label was last seen *)

Lemma with_label_snoc (k : string) (w : list ExecutionResult)
    (r : ExecutionResult) :
  with_label k (w ++ [r])
  = with_label k w
    ++ (if has_message r
           && String.eqb (_extract_pattern_key (message_of r)) k
        then [r] else []).
Proof. unfold with_label. now rewrite filter_app. Qed.

Lemma with_label_messages (k : string) (w : list ExecutionResult)
    (r : ExecutionResult) :
  In r (with_label k w) -> In k (map _extract_pattern_key (messages w)).
Proof.
  unfold with_label. rewrite filter_In. intros [Hr Hk].
  apply andb_true_iff in Hk as [Hm Hk]. apply String.eqb_eq in Hk.
  apply in_map_iff. exists (message_of r). split; [exact Hk|].
  unfold messages. apply in_map. now apply filter_In.
Qed.

Lemma grouped_latest (w : list ExecutionResult) :
  Forall (latest w) (grouped w).
Proof.
  induction w as [|r w IH] using rev_ind; [constructor|].
  destruct (grouped_spec w) as [Hkeys _].
  assert (Hnd : NoDup (map fst (grouped w))).
  { rewrite Hkeys. apply first_seen_NoDup. }
  rewrite grouped_snoc. unfold group_step.
  destruct (has_message r) eqn:Hm.
  - unfold has_message in Hm.
    destruct (error_message r) as [m|] eqn:Em; [|discriminate Hm].
    rewrite Hm. cbn [negb].
    assert (Hmsg : message_of r = m) by (unfold message_of; now rewrite Em).
    assert (Hhas : has_message r = true)
      by (unfold has_message; now rewrite Em).
    set (k := _extract_pattern_key m).
    assert (Hold : forall k' e,
               k' <> k -> latest w (k', e) -> latest (w ++ [r]) (k', e)).
    { intros k' e Hne Hlat. unfold latest in *. cbn [fst snd] in *.
      rewrite with_label_snoc, Hhas, Hmsg. fold k.
      destruct (String.eqb_spec k k') as [E | _]; [now destruct Hne; subst|].
      cbn [andb]. now rewrite app_nil_r. }
    assert (Hnew : forall e,
               (forall x, In x (with_label k w) ->
                          (started_at x <= e_last_seen e)%Z) ->
               ((exists x, In x (with_label k w)
                           /\ started_at x = e_last_seen e)
                \/ e_last_seen e = started_at r) ->
               latest (w ++ [r]) (k, record_failure m (started_at r) e)).
    { intros e Hbound Hwit. unfold latest.
      cbn [fst snd record_failure e_last_seen].
      rewrite with_label_snoc, Hhas, Hmsg. fold k.
      rewrite String.eqb_refl. cbn [andb].
      destruct (started_at r >? e_last_seen e)%Z eqn:E.
      - apply Z.gtb_lt in E. split.
        + exists r. split; [apply in_or_app; right; now left | reflexivity].
        + intros x Hx. apply in_app_or in Hx as [Hx | [<- | []]];
            [apply Hbound in Hx; lia | lia].
      - assert (Hle : (started_at r <= e_last_seen e)%Z).
        { destruct (Z.gtb_spec (started_at r) (e_last_seen e));
            [discriminate E | assumption]. }
        split.
        + destruct Hwit as [(x & Hx & Hxe) | Heq].
          * exists x. split; [apply in_or_app; now left | exact Hxe].
          * exists r. split; [apply in_or_app; right; now left | now symmetry].
        + intros x Hx. apply in_app_or in Hx as [Hx | [<- | []]];
            [now apply Hbound | exact Hle]. }
    destruct (dict_has k (grouped w)) eqn:Hd; cbn [negb].
    + apply dict_update_Forall with (P := latest w); auto.
      intros e [Hwit Hbound]. cbn [fst snd] in *. apply Hnew; auto.
    + apply dict_has_false in Hd.
      rewrite dict_update_new by exact Hd. apply Forall_app. split.
      * apply Forall_forall. intros [k' e] Hin. apply Hold.
        -- intros ->. apply Hd. apply in_map_iff. now exists (k, e).
        -- now apply (proj1 (Forall_forall _ _) IH).
      * constructor; [|constructor]. apply Hnew; cbn [e_last_seen].
        -- intros x Hx. exfalso. apply Hd. rewrite Hkeys.
           apply first_seen_In. now apply with_label_messages in Hx.
        -- now right.
  - assert (Hsame : forall k, with_label k (w ++ [r]) = with_label k w).
    { intros k. rewrite with_label_snoc, Hm. cbn [andb]. apply app_nil_r. }
    assert (H : Forall (latest (w ++ [r])) (grouped w)).
    { eapply Forall_impl; [|exact IH]. intros kv. unfold latest.
      now rewrite Hsame. }
    unfold has_message in Hm.
    destruct (error_message r) as [m|]; [rewrite Hm|]; exact H.
Qed.

(** X20.  The [last_seen] of a pattern is the start time of one of the
    window's failures with that label, and no such failure started
    later. *)
Lemma patterns_last_seen (d : db) (name : string) (min_count : Z)
    (p : FailurePattern) :
  In p (get_failure_patterns d name min_count) ->
  let window := get_executions d (Some name) (Some FAILED) 50 in
  (exists r, In r (with_label (pattern_type p) window)
             /\ started_at r = last_seen p)
  /\ forall r, In r (with_label (pattern_type p) window) ->
               (started_at r <= last_seen p)%Z.
Proof.
  intros Hp window. rewrite patterns_eq in Hp. fold window in Hp.
  apply (Permutation_in _ (Permutation_sym (sort_desc_perm count _))) in Hp.
  apply in_map_iff in Hp as [[k e] [<- Hin]].
  apply filter_In in Hin as [Hin _].
  exact (proj1 (Forall_forall _ _) (grouped_latest window) _ Hin).
Qed.

End PatternShape.

Section PatternTotals.

Import PyStr PyStrFacts HistoryStore Spec History.




End PatternTotals.

Section CaseInsensitive.

Import PyStr PyStrFacts HistoryStore.

Lemma isspace_lower (c : ascii) : isspace (lower_char c) = isspace c.
Proof. destruct c as [[] [] [] [] [] [] [] []]; reflexivity. Qed.

Lemma lower_char_idem (c : ascii) : lower_char (lower_char c) = lower_char c.
Proof. destruct c as [[] [] [] [] [] [] [] []]; reflexivity. Qed.

Lemma lower_idem (s : string) : lower (lower s) = lower s.
Proof.
  induction s as [|c s IH]; simpl; [reflexivity|].
  now rewrite lower_char_idem, IH.
Qed.

Lemma lower_app (a b : string) :
  lower (a ++ b)%string = (lower a ++ lower b)%string.
Proof. induction a as [|c a IH]; simpl; [reflexivity | now rewrite IH]. Qed.

Lemma truthy_lower (s : string) : truthy (lower s) = truthy s.
Proof. now destruct s. Qed.

(** Lower-casing moves no token boundary. *)
Lemma split_from_lower (s : string) :
  forall tok,
    split_from (lower tok) (lower s) = map lower (split_from tok s).
Proof.
  induction s as [|c s IH]; intros tok; simpl.
  - rewrite truthy_lower. now destruct (truthy tok).
  - rewrite isspace_lower. destruct (isspace c).
    + rewrite truthy_lower. pose proof (IH "") as H0. cbn [lower] in H0.
      destruct (truthy tok); cbn [map]; now rewrite H0.
    + rewrite <- IH, lower_app. reflexivity.
Qed.

Lemma pattern_key_lower (msg : string) :
  _extract_pattern_key (lower msg) = _extract_pattern_key msg.
Proof.
  unfold _extract_pattern_key, split. rewrite lower_idem.
  change (split_from "" (lower msg)) with (split_from (lower "") (lower msg)).
  rewrite split_from_lower.
  destruct (split_from "" msg) as [|w ws]; simpl; [reflexivity|].
  now rewrite lower_idem.
Qed.

(** X22.  Labels do not depend on letter case: messages that agree once
    lower-cased get the same label. *)
Lemma pattern_key_case_insensitive (m1 m2 : string) :
  lower m1 = lower m2 -> _extract_pattern_key m1 = _extract_pattern_key m2.
Proof.
  intros H. now rewrite <- (pattern_key_lower m1), H, pattern_key_lower.
Qed.

End CaseInsensitive.

(** ** Code extraction and language detection *)

Section CodeExtraction.

Import PyStr PyStrFacts PyText Orchestrator.

Lemma strip_prefix_app (p s : string) :
  strip_prefix p (p ++ s)%string = Some s.
Proof.
  induction p as [|c p IH]; simpl; [reflexivity|].
  now rewrite Ascii.eqb_refl.
Qed.

Lemma strip_prefix_startswith (p s : string) :
  strip_prefix p s = None <-> startswith p s = false.
Proof.
  revert s. induction p as [|a p IH]; intros s; simpl.
  - split; discriminate.
  - destruct s as [|b s]; [tauto|].
    destruct (Ascii.eqb a b); simpl; [apply IH | tauto].
Qed.

Lemma startswith_substring (p s : string) :
  startswith p s = true -> substring_of p s.
Proof.
  intros H. apply startswith_spec in H as [post ->]. now exists "", post.
Qed.

Lemma substring_of_tail (p s : string) (c : ascii) :
  substring_of p s -> substring_of p (String c s).
Proof. intros [pre [post ->]]. now exists (String c pre), post. Qed.

(** A fence that starts inside [x] and runs into the fence after it
    already shows in [x] followed by two backticks. *)
Lemma fence_cut (x rest : string) :
  x <> "" ->
  startswith fence (x ++ fence ++ rest)%string
  = startswith fence (x ++ "``")%string.
Proof.
  intros Hx. destruct x as [|a [|b [|c x]]]; [now destruct Hx | | |];
    reflexivity.
Qed.

Lemma block_at_inside (x rest : string) :
  x <> "" ->
  ~ substring_of fence (x ++ "``")%string ->
  block_at (x ++ fence ++ rest)%string = None.
Proof.
  intros Hx Hno. unfold block_at.
  destruct (strip_prefix fence (x ++ fence ++ rest)%string) eqn:E;
    [|reflexivity].
  assert (Hs : startswith fence (x ++ fence ++ rest)%string = true).
  { destruct (startswith fence (x ++ fence ++ rest)%string) eqn:E';
      [reflexivity|].
    apply strip_prefix_startswith in E'. congruence. }
  rewrite fence_cut in Hs by exact Hx.
  destruct Hno. now apply startswith_substring.
Qed.

Lemma first_block_skip (pre rest : string) :
  ~ substring_of fence (pre ++ "``")%string ->
  first_block (pre ++ fence ++ rest)%string = first_block (fence ++ rest)%string.
Proof.
  induction pre as [|c pre IH]; intros Hno; [reflexivity|].
  cbn [append first_block].
  change (String c (pre ++ fence ++ rest)%string)
    with (String c pre ++ fence ++ rest)%string.
  rewrite block_at_inside; [| discriminate | exact Hno].
  apply IH. intros H. apply Hno. now apply substring_of_tail.
Qed.

Lemma split_at_first (code post : string) :
  ~ substring_of fence (code ++ "``")%string ->
  split_at fence (code ++ fence ++ post)%string = Some (code, post).
Proof.
  induction code as [|c code IH]; intros Hno; [reflexivity|].
  cbn [append split_at].
  change (String c (code ++ fence ++ post)%string)
    with (String c code ++ fence ++ post)%string.
  assert (Hs : strip_prefix fence (String c code ++ fence ++ post)%string
               = None).
  { apply strip_prefix_startswith. rewrite fence_cut by discriminate.
    destruct (startswith fence (String c code ++ "``")%string) eqn:E;
      [|reflexivity].
    destruct Hno. now apply startswith_substring. }
  rewrite Hs. cbn [append].
  rewrite IH; [reflexivity|].
  intros H. apply Hno. now apply substring_of_tail.
Qed.

Lemma first_block_none (s : string) :
  ~ substring_of fence s -> first_block s = None.
Proof.
  induction s as [|c s IH]; intros Hno.
  - reflexivity.
  - cbn [first_block]. unfold block_at.
    destruct (strip_prefix fence (String c s)) eqn:E.
    + destruct Hno. apply startswith_substring.
      destruct (startswith fence (String c s)) eqn:E'; [reflexivity|].
      apply strip_prefix_startswith in E'. congruence.
    + apply IH. intros H. apply Hno. now apply substring_of_tail.
Qed.

(** X23.  A response without a fence is taken whole; a response with a
    fenced block, tagged [python], [bash], [sh] or not at all, gives the
    code of its first block, without the white space around it. *)
Lemma extract_code_spec :
  (forall response,
      ~ substring_of fence response ->
      _extract_code_from_response response = strip response)
  /\ (forall pre lang code post,
        In lang ["python"; "bash"; "sh"; ""] ->
        ~ substring_of fence (pre ++ "``")%string ->
        ~ substring_of fence (code ++ "``")%string ->
        _extract_code_from_response
          (pre ++ fence ++ lang ++ nl ++ code ++ fence ++ post)%string
        = strip code).
Proof.
  split.
  - intros response Hno. unfold _extract_code_from_response.
    now rewrite first_block_none.
  - intros pre lang code post Hlang Hpre Hcode.
    unfold _extract_code_from_response.
    rewrite first_block_skip by exact Hpre.
    assert (Hb : block_at (fence ++ lang ++ nl ++ code ++ fence ++ post)%string
                 = Some code).
    { unfold block_at. rewrite strip_prefix_app.
      assert (Hh : after_header (lang ++ nl ++ code ++ fence ++ post)%string
                   = Some (code ++ fence ++ post)%string).
      { destruct Hlang as [<- | [<- | [<- | [<- | []]]]]; reflexivity. }
      rewrite Hh, split_at_first by exact Hcode. reflexivity. }
    assert (Hf : first_block (fence ++ lang ++ nl ++ code ++ fence ++ post)%string
                 = Some code).
    { change (fence ++ lang ++ nl ++ code ++ fence ++ post)%string
        with (String "`" ("``" ++ lang ++ nl ++ code ++ fence ++ post))%string
        in *.
      cbn [first_block]. now rewrite Hb. }
    now rewrite Hf.
Qed.

(** X24.  Whatever the code, it is classified as ["bash"] or ["python"],
    and the coordinator hands code classified this way to a runner: it
    never answers that the language is unsupported. *)
Lemma detected_language_runs (code : string) :
  (_detect_language code = BASH \/ _detect_language code = PYTHON)
  /\ forall agent workflow timeout wd o s,
       exists outcome,
         fst (ExecutorAgent.execute_workflow agent workflow code
                (_detect_language code) timeout wd o s)
         = Ok (Spec.of_outcome workflow (Eff.o_now o (Eff.st_nows s))
                 (Eff.o_now o (S (Eff.st_nows s))) outcome).
Proof.
  assert (H : _detect_language code = BASH \/ _detect_language code = PYTHON).
  { unfold _detect_language.
    destruct (_ || _); [now left|].
    destruct (_ || _); [now right|].
    destruct (_ || _); [now left | now right]. }
  split; [exact H|].
  intros agent workflow timeout wd o s.
  destruct H as [-> | ->]; eexists;
    [apply coordinator_bash | apply coordinator_python].
Qed.

End CodeExtraction.

(** ** Running a stored workflow *)

Section Orchestration.

Import Eff Orchestrator.

Variable ui : Ui.
Variable executor : ExecutorAgent.t.
Variable name : string.

Lemma coordinator_names_record (o : Oracle) (code language : string)
    (timeout : option Z) (wd : option string) (s : State) :
  exists er s',
    ExecutorAgent.execute_workflow executor name code language timeout wd o s
    = (Ok er, s')
    /\ workflow_name er = name.
Proof.
  destruct s as [tk nw tr pr tv].
  unfold ExecutorAgent.execute_workflow, ExecutorAgent.convert,
    BashExecutor.execute, BashExecutor.execute_body,
    BashExecutor.execute_handler,
    PythonExecutor.execute, PythonExecutor.execute_body,
    PythonExecutor.execute_script, PythonExecutor.execute_handler.
  eff_cases.
  all: do 2 eexists; split; reflexivity.
Qed.

Ltac unfold_steps :=
  unfold execute_and_record, _analyze_and_fix, with_progress, save,
    print_duration, print_stream, print_error_message, oprint, obind,
    of_eff, of_result, oret, HistoryStore.save_execution.

Ltac case_steps :=
  repeat (cbn [fst snd history executor_chat];
          match goal with
          | |- context [match ?x with _ => _ end] => destruct_scrutinee x
          end);
  cbn [fst snd history executor_chat].

(** From "Execute workflow" on: the answer is never [None]; and when it
    is [True] or [False], the workflow was run once, its result was
    appended to the history, and the answer is the result's verdict. *)
Lemma execute_and_record_spec (interactive : bool) (workflow : WorkflowConfig)
    (st : state) (o : Oracle) (s : State) :
  exists er s',
    ExecutorAgent.execute_workflow executor name (wf_code workflow)
      (wf_language workflow) (Some (wf_timeout workflow)) None o s
    = (Ok er, s')
    /\ workflow_name er = name
    /\ fst (fst (execute_and_record ui executor name interactive workflow
                   st o s)) <> Ok None
    /\ forall b,
         fst (fst (execute_and_record ui executor name interactive workflow
                     st o s)) = Ok (Some b) ->
         snd (fst (execute_and_record ui executor name interactive workflow
                     st o s))
         = mkOState (history st ++ [er]) (executor_chat st)
         /\ b = status_eqb (status er) SUCCESS.
Proof.
  destruct (coordinator_names_record o (wf_code workflow)
              (wf_language workflow) (Some (wf_timeout workflow)) None s)
    as (er & s' & Hrun & Hname).
  exists er, s'. split; [exact Hrun|]. split; [exact Hname|].
  unfold_steps. rewrite Hrun.
  case_steps; (split; [discriminate|]); intros b H;
    try discriminate H; injection H as <-; split; reflexivity.
Qed.
Ltac unfold_run :=
  unfold run_workflow, with_progress, validate, BaseAgent.validate_workflow,
    oprint, obind, of_result, oret.

(** X25.  [run_workflow] answers [None] only when it has run nothing and
    recorded nothing: either the store has no such workflow, or the
    validation did not find the code safe and the user declined to run
    it anyway. *)
Lemma run_workflow_cancelled (interactive : bool) (st : state) (o : Oracle)
    (s : State) :
  fst (fst (run_workflow ui executor name interactive st o s)) = Ok None ->
  snd (run_workflow ui executor name interactive st o s) = s
  /\ history (snd (fst (run_workflow ui executor name interactive st o s)))
     = history st
  /\ (ui_load ui name = Ok None
      \/ exists workflow reply,
           ui_load ui name = Ok (Some workflow)
           /\ interactive = true
           /\ fst (BaseAgent.send_message (ui_api ui) (executor_chat st)
                     (BaseAgent.validation_prompt (wf_code workflow)
                        (wf_language workflow)) None 4096%Z) = Ok reply
           /\ BaseAgent.is_safe (BaseAgent.reply_message reply) = false
           /\ ui_confirm ui ask_run_anyway = false).
Proof.
  assert (Hgo : forall i workflow st1 s1,
             fst (fst (execute_and_record ui executor name i workflow st1 o
                         s1)) <> Ok None).
  { intros i workflow st1 s1.
    now destruct (execute_and_record_spec i workflow st1 o s1)
      as (er & s' & _ & _ & H & _). }
  unfold_run. case_steps.
  all: intros H; try discriminate H; try (now apply Hgo in H).
  - repeat split. right. do 2 eexists.
    split; [reflexivity|]. split; [reflexivity|].
    match goal with
    | E : BaseAgent.send_message _ _ _ _ _ = _ |- _ => rewrite E
    end.
    split; [reflexivity|].
    split; apply negb_true_iff; assumption.
  - repeat split. now left.
Qed.

(** X26.  When [run_workflow] answers [True] or [False], the history has
    grown by exactly one record, which carries the workflow's name, and
    the answer is [True] exactly when that record is a [SUCCESS]. *)
Lemma run_workflow_recorded (interactive : bool) (st : state) (o : Oracle)
    (s : State) (b : bool) :
  fst (fst (run_workflow ui executor name interactive st o s)) = Ok (Some b) ->
  exists er,
    history (snd (fst (run_workflow ui executor name interactive st o s)))
    = history st ++ [er]
    /\ workflow_name er = name
    /\ (b = true <-> status er = SUCCESS).
Proof.
  assert (Hgo : forall i workflow st1 s1,
             history st1 = history st ->
             fst (fst (execute_and_record ui executor name i workflow st1 o s1))
             = Ok (Some b) ->
             exists er,
               history (snd (fst (execute_and_record ui executor name i
                                    workflow st1 o s1)))
               = history st ++ [er]
               /\ workflow_name er = name
               /\ (b = true <-> status er = SUCCESS)).
  { intros i workflow st1 s1 Hh H.
    destruct (execute_and_record_spec i workflow st1 o s1)
      as (er & s' & _ & Hname & _ & Hsome).
    destruct (Hsome b H) as [Hst ->].
    exists er. rewrite Hst. cbn [history]. rewrite Hh.
    split; [reflexivity|]. split; [exact Hname|].
    destruct (status er); cbn; split; intros E;
      (reflexivity || discriminate E). }
  unfold_run. case_steps.
  all: intros H; try discriminate H; now apply Hgo.
Qed.

End Orchestration.

Section Unattended.

Import Eff Orchestrator.



End Unattended.

(** ** The agents' conversations *)

Section Conversations.

Import BaseAgent Dialogue.




End Conversations.

(* ================================================================== *)
(** * Instances of the further properties *)

(** The executor built with an empty deny-list turns [mkfs] away. *)
Lemma empty_deny_list_instance :
  exists matched,
    In matched BashExecutor.default_denied
    /\ BashExecutor._is_command_allowed
         (BashExecutor.init None None (Some [])) "mkfs /dev/sda"
       = Ok (false, Some ("Denied command pattern: " ++ matched)%string).
Proof.
  apply (@empty_deny_list_is_default None None "mkfs /dev/sda" "mkfs").
  - simpl. right. right. left. reflexivity.
  - exists "", " /dev/sda". reflexivity.
Defined.

(** A workflow that hides [sudo rm] is reported as failed, and nothing
    was asked of the system. *)
Lemma coordinator_blocked_instance :
  Eff.run (ExecutorAgent.execute_workflow Sample.agent "cleanup"
             "cd /srv && sudo rm -r cache" BASH None None) Sample.exits_ok
  = (Ok (mkExecutionResult "cleanup" FAILED 0%Z (Some 1%Z) (Some (1 - 0)%Q)
           None None
           (Some "Command blocked: Denied command pattern: sudo rm")
           (Some "Command blocked: Denied command pattern: sudo rm")),
     Eff.mkState 2 2 [] None None).
Proof.
  apply (@coordinator_blocked Sample.exits_ok Sample.agent "cleanup"
           "cd /srv && sudo rm -r cache" None None
           (Some "Denied command pattern: sudo rm")).
  reflexivity.
Defined.

(** A command that is to run in a directory that does not exist. *)
Lemma bash_missing_dir_instance :
  BashExecutor.execute (ExecutorAgent.bash_executor Sample.agent) "ls"
    (Some "/srv/none") None None Session.no_directories Eff.init_state
  = (Ok (mkToolResult false None
           (Some "Working directory does not exist: /srv/none") None
           (Some (1 - 0)%Q)),
     Eff.mkState 2 0 [] None None).
Proof.
  apply (@bash_missing_dir Session.no_directories
           (ExecutorAgent.bash_executor Sample.agent) "ls" "/srv/none"
           None None Eff.init_state None).
  - reflexivity.
  - discriminate.
  - reflexivity.
Defined.

(** The shell that printed [OK] was spawned for a command the gate had
    allowed. *)
Lemma bash_spawn_instance :
  Spec.bash_reaches_spawn (ExecutorAgent.bash_executor Sample.agent)
    "echo OK" None Sample.exits_ok.
Proof.
  apply (@bash_spawn_needs_verdict Sample.exits_ok
           (ExecutorAgent.bash_executor Sample.agent) "echo OK" None None
           None).
  vm_compute. reflexivity.
Defined.

(** The shell that was killed had outlived its bound of 5 seconds. *)
Lemma bash_kill_instance :
  exists e, Eff.o_spawn Sample.times_out Eff.Payload = Ok tt
            /\ Eff.o_communicate Sample.times_out Eff.Payload = Raise e
            /\ is_timeout e = true.
Proof.
  apply (@bash_kill_needs_timeout Sample.times_out
           (ExecutorAgent.bash_executor Sample.agent) "sleep 600" None
           (Some 5%Z) None).
  vm_compute. reflexivity.
Defined.

(** The same for a script. *)
Lemma python_kill_instance :
  exists e, Eff.o_spawn Sample.times_out_late Eff.Payload = Ok tt
            /\ Eff.o_communicate Sample.times_out_late Eff.Payload = Raise e
            /\ is_timeout e = true.
Proof.
  apply (@python_kill_needs_timeout Sample.times_out_late
           (ExecutorAgent.python_executor Sample.agent)
           "import time; time.sleep(600)" (Some 5%Z) None None).
  vm_compute. reflexivity.
Defined.

(** The script that printed [OK] was written first and removed last. *)
Lemma python_cleanup_instance :
  let trace :=
    Eff.st_trace
      (snd (Eff.run (PythonExecutor.execute
                       (ExecutorAgent.python_executor Sample.agent)
                       "print('OK')" None None None) Sample.exits_ok)) in
  hd_error trace = Some (Eff.EvWriteTemp "/tmp/tmpab12.py" "print('OK')")
  /\ last trace (Eff.EvWriteTemp "/tmp/tmpab12.py" "print('OK')")
     = Eff.EvUnlink "/tmp/tmpab12.py"
  /\ List.length (filter Trace.is_unlink trace) = 1.
Proof.
  apply (@python_cleanup Sample.exits_ok
           (ExecutorAgent.python_executor Sample.agent) "print('OK')" None
           None None "/tmp/tmpab12.py").
  reflexivity.
Defined.

(** A full disk: the error leaves the runner. *)
Lemma python_mktemp_instance :
  Eff.run (PythonExecutor.execute
             (ExecutorAgent.python_executor Sample.agent) "print('OK')"
             None None None) Sample.disk_full
  = (Raise (Exn OSError "[Errno 28] No space left on device"),
     Eff.mkState 1 0 [] None None).
Proof.
  apply (@python_mktemp_fails Sample.disk_full
           (ExecutorAgent.python_executor Sample.agent) "print('OK')" None
           None None (Exn OSError "[Errno 28] No space left on device")).
  reflexivity.
Defined.


(** The sample clock, which reads 0, 1, 2, ..., does not run backwards:
    the shell that printed [OK] took a non-negative time. *)
Lemma bash_duration_instance :
  exists tr,
    fst (BashExecutor.execute (ExecutorAgent.bash_executor Sample.agent)
           "echo OK" None None None Sample.exits_ok Eff.init_state) = Ok tr
    /\ exists q, duration tr = Some q /\ (0 <= q)%Q.
Proof.
  eexists. split; [reflexivity|].
  apply (@bash_duration_nonneg Sample.exits_ok) with
    (self := ExecutorAgent.bash_executor Sample.agent)
    (command := "echo OK") (wd := @None string) (timeout := @None Z)
    (env_vars := @None (list (string * string))) (s := Eff.init_state).
  - intros n. unfold Sample.exits_ok, Sample.oracle. cbn [Eff.o_clock].
    rewrite <- Zle_Qle. lia.
  - reflexivity.
Defined.


(** A fifth run of ["nightly"], which fails: it heads the list of the
    failures of ["nightly"]. *)
Lemma save_then_query_instance :
  hd_error
    (HistoryStore.get_executions
       (fst (HistoryStore.save_execution Sample.four_runs
               (Sample.row "nightly" FAILED 50%Z None (Some "boom"))))
       (Some "nightly") (Some FAILED) 1)
  = Some (Sample.row "nightly" FAILED 50%Z None (Some "boom")).
Proof.
  apply (@save_then_query Sample.four_runs
           (Sample.row "nightly" FAILED 50%Z None (Some "boom"))
           (Some "nightly") (Some FAILED) 1%Z).
  - reflexivity.
  - lia.
  - intros x Hx. simpl in Hx.
    repeat (destruct Hx as [<- | Hx]; [cbn; lia|]). destruct Hx.
Defined.


(** That pattern was last seen at 20, when the later of the two
    timeouts started. *)
Lemma patterns_last_seen_instance :
  let window :=
    HistoryStore.get_executions Sample.three_failures (Some "sync")
      (Some FAILED) 50 in
  (exists r, In r (History.with_label "timeout" window)
             /\ started_at r = 20%Z)
  /\ forall r, In r (History.with_label "timeout" window) ->
               (started_at r <= 20)%Z.
Proof.
  apply (@patterns_last_seen Sample.three_failures "sync" 2%Z
           (mkFailurePattern "timeout" 2%Z
              20%Z ["Request timeout"; "Connection timeout"])).
  vm_compute. left. reflexivity.
Defined.


(** Two spellings of one message. *)
Lemma pattern_key_case_instance :
  HistoryStore._extract_pattern_key "Disk Quota EXCEEDED"
  = HistoryStore._extract_pattern_key "disk quota exceeded".
Proof.
  apply (@pattern_key_case_insensitive "Disk Quota EXCEEDED"
           "disk quota exceeded").
  reflexivity.
Defined.

(** A response with some prose around a fenced shell script. *)
Lemma extract_code_instance :
  Orchestrator._extract_code_from_response
    ("Here is the workflow:" ++ PyText.nl
     ++ "```bash" ++ PyText.nl
     ++ "echo hello" ++ PyText.nl
     ++ "```" ++ PyText.nl ++ "It prints a greeting.")%string
  = "echo hello".
Proof.
  apply (proj2 extract_code_spec
           ("Here is the workflow:" ++ PyText.nl)%string "bash"
           ("echo hello" ++ PyText.nl)%string
           (PyText.nl ++ "It prints a greeting.")%string).
  - simpl. right. left. reflexivity.
  - intros H. apply PyStrFacts.contains_spec in H. vm_compute in H.
    discriminate H.
  - intros H. apply PyStrFacts.contains_spec in H. vm_compute in H.
    discriminate H.
Defined.

(** The model finds [hello] unsafe and the user declines: nothing is
    run and nothing is recorded. *)
Lemma run_workflow_cancelled_instance :
  snd (Orchestrator.run_workflow Session.cautious Sample.agent "hello" true
         Session.start Sample.exits_ok Eff.init_state) = Eff.init_state
  /\ Orchestrator.history
       (snd (fst (Orchestrator.run_workflow Session.cautious Sample.agent
                    "hello" true Session.start Sample.exits_ok
                    Eff.init_state)))
     = [].
Proof.
  destruct (@run_workflow_cancelled Session.cautious Sample.agent "hello"
              true Session.start Sample.exits_ok Eff.init_state)
    as (Hsys & Hhist & _).
  - vm_compute. reflexivity.
  - split; [exact Hsys | exact Hhist].
Defined.

(** An unattended run of [hello] that prints [OK]: one record, a
    [SUCCESS] under the workflow's name. *)
Lemma run_workflow_recorded_instance :
  exists er,
    Orchestrator.history
      (snd (fst (Orchestrator.run_workflow Session.offline Sample.agent
                   "hello" false Session.start Sample.exits_ok
                   Eff.init_state)))
    = [] ++ [er]
    /\ workflow_name er = "hello"
    /\ (true = true <-> status er = SUCCESS).
Proof.
  apply (@run_workflow_recorded Session.offline Sample.agent "hello" false
           Session.start Sample.exits_ok Eff.init_state true).
  vm_compute. reflexivity.
Defined.


